(** * easyplant: the daily brightness history and the plant status logic

    A shallow embedding of [custom_components/easyplant/__init__.py]:
    the class [DailyHistory] and the methods of [Plant] that turn sensor
    updates into per-reading states and an overall status.

    Python objects are mutable and Python code raises.  Both are kept:
    a method is a function from the object before the call to the object
    after it together with the outcome ([Return] or [Raise]); when a
    method raises half-way, the assignments it already made are kept. *)

From Stdlib Require Import ZArith QArith List String Ascii Bool Lia Sorted.
Import ListNotations.
Open Scope string_scope.
Open Scope list_scope.
Open Scope Z_scope.

(* ===================================================================== *)
(** * Python values                                                       *)
(* ===================================================================== *)

(** The built-in exceptions the modelled code can raise, and the one the
    component raises itself. *)
Inductive exn : Type :=
| IndexError
| KeyError
| ValueError
| TypeError
| OverflowError
| HomeAssistantError (msg : string).

Inductive result (A : Type) : Type :=
| Return (a : A)
| Raise (e : exn).
Arguments Return {A} a.
Arguments Raise {A} e.

(** A Python [float]: every finite double is a rational number, so a
    finite float is modelled by the rational it denotes (comparison and
    truncation are exact on those); rounding on conversion is not
    modelled. *)
Inductive pyfloat : Type :=
| FNaN
| FNegInf
| FPosInf
| FFin (q : Q).

(** The dynamically typed values the component stores and compares. *)
Inductive pyval : Type :=
| PNone
| PInt (z : Z)
| PFloat (f : pyfloat)
| PStr (s : string).

(** [isinstance(value, (int, float))] *)
Definition isinstance_number (v : pyval) : bool :=
  match v with
  | PInt _ | PFloat _ => true
  | PNone | PStr _ => false
  end.

(** [a < b] on floats; every comparison with NaN is false. *)
Definition float_ltb (a b : pyfloat) : bool :=
  match a, b with
  | FNaN, _ | _, FNaN => false
  | FNegInf, FNegInf => false
  | FNegInf, _ => true
  | _, FNegInf => false
  | FPosInf, _ => false
  | FFin _, FPosInf => true
  | FFin x, FFin y => negb (Qle_bool y x)
  end.

(** The number a numeric value denotes (Python compares an [int] with a
    [float] by their exact values). *)
Definition number_of (v : pyval) : option pyfloat :=
  match v with
  | PInt z => Some (FFin (inject_Z z))
  | PFloat f => Some f
  | PNone | PStr _ => None
  end.

(** [a < b]: numbers by value, strings lexicographically, anything else
    is a [TypeError]. *)
Definition py_lt (a b : pyval) : result bool :=
  match a, b with
  | PStr s, PStr t => Return (String.ltb s t)
  | _, _ =>
      match number_of a, number_of b with
      | Some x, Some y => Return (float_ltb x y)
      | _, _ => Raise TypeError
      end
  end.

(** [a > b] *)
Definition py_gt (a b : pyval) : result bool := py_lt b a.

(** Truthiness, as tested by [if v and ...]. *)
Definition truthy (v : pyval) : bool :=
  match v with
  | PNone => false
  | PInt z => negb (z =? 0)%Z
  | PFloat (FFin q) => negb (Qeq_bool q 0)
  | PFloat _ => true
  | PStr s => negb (s =? "")%string
  end.

(** [int(f)] for a float [f]: truncation toward zero. *)
Definition int_of_float (f : pyfloat) : result Z :=
  match f with
  | FNaN => Raise ValueError
  | FNegInf | FPosInf => Raise OverflowError
  | FFin q => Return (Z.quot (Qnum q) (Zpos (Qden q)))
  end.

(** [needle in haystack] for strings. *)
Fixpoint str_in (needle haystack : string) : bool :=
  String.prefix needle haystack ||
  match haystack with
  | EmptyString => false
  | String _ rest => str_in needle rest
  end.

(* ===================================================================== *)
(** * Python dicts                                                        *)
(* ===================================================================== *)

(** A [dict] keeps its keys in insertion order, and the plant joins its
    problems in that order: a dict is an association list with unique
    keys, assignment replaces in place or appends. *)
Section Dict.
Context {K V : Type} (eqb : K -> K -> bool).

Definition dict : Type := list (K * V).

Fixpoint dict_get (k : K) (d : dict) : option V :=
  match d with
  | [] => None
  | (k', v) :: d' => if eqb k k' then Some v else dict_get k d'
  end.

(** [d[k] = v] *)
Fixpoint dict_set (k : K) (v : V) (d : dict) : dict :=
  match d with
  | [] => [(k, v)]
  | (k', v') :: d' =>
      if eqb k k' then (k', v) :: d' else (k', v') :: dict_set k v d'
  end.

(** [del d[k]]; [None] stands for the [KeyError]. *)
Fixpoint dict_del (k : K) (d : dict) : option dict :=
  match d with
  | [] => None
  | (k', v') :: d' =>
      if eqb k k' then Some d'
      else option_map (cons (k', v')) (dict_del k d')
  end.

Definition dict_keys (d : dict) : list K := map fst d.
Definition dict_values (d : dict) : list V := map snd d.

End Dict.

(* ===================================================================== *)
(** * Methods: state passing with exceptions                              *)
(* ===================================================================== *)

(** A method body on an object of type [S]: the object after the body
    ran, and how it ended. *)
Definition M (S A : Type) : Type := S -> S * result A.

Definition ret {S A} (a : A) : M S A := fun s => (s, Return a).
Definition raise {S A} (e : exn) : M S A := fun s => (s, Raise e).
Definition bind {S A B} (m : M S A) (k : A -> M S B) : M S B :=
  fun s =>
    match m s with
    | (s', Return a) => k a s'
    | (s', Raise e) => (s', Raise e)
    end.
Definition get {S} : M S S := fun s => (s, Return s).
Definition modify {S} (f : S -> S) : M S unit := fun s => (f s, Return tt).
(** An expression that may raise, evaluated inside a method. *)
Definition eval {S A} (r : result A) : M S A := fun s => (s, r).
(** [d[k]] and the like: [None] becomes the given exception. *)
Definition must {S A} (e : exn) (o : option A) : M S A :=
  match o with
  | Some a => ret a
  | None => raise e
  end.

Declare Scope py_scope.
Delimit Scope py_scope with py.
Notation "x <- m ;; k" := (bind m (fun x => k))
  (at level 100, m at next level, right associativity) : py_scope.
Notation "m ;; k" := (bind m (fun _ => k))
  (at level 100, right associativity) : py_scope.

(** [l[-1]]; [None] stands for the [IndexError]. *)
Fixpoint last_item {A : Type} (l : list A) : option A :=
  match l with
  | [] => None
  | [x] => Some x
  | _ :: l' => last_item l'
  end.

(** [max(a, b)]: the first argument is kept unless the second is
    greater. *)
Definition py_max2 (a b : pyval) : result pyval :=
  match py_gt b a with
  | Return true => Return b
  | Return false => Return a
  | Raise e => Raise e
  end.

(** [max(iterable)]: [ValueError] on an empty one. *)
Fixpoint py_max_from (best : pyval) (rest : list pyval) : result pyval :=
  match rest with
  | [] => Return best
  | x :: rest' =>
      match py_max2 best x with
      | Return best' => py_max_from best' rest'
      | Raise e => Raise e
      end
  end.

Definition py_max (l : list pyval) : result pyval :=
  match l with
  | [] => Raise ValueError
  | x :: rest => py_max_from x rest
  end.

(* ===================================================================== *)
(** * class DailyHistory                                                  *)
(* ===================================================================== *)

(** A calendar day ([datetime.date]), by its ordinal. *)
Abbreviation day := Z (only parsing).

(** [(timestamp or datetime.now()).date()]; [now] is the day
    [datetime.now()] falls on. *)
Definition day_of (now : day) (timestamp : option day) : day :=
  match timestamp with Some ts => ts | None => now end.

Module DailyHistory.

Record t : Type := mk {
  max_length : Z;
  _days : option (list day);          (* None, or the deque, oldest first *)
  _max_dict : list (day * pyval);     (* day -> maximum of that day *)
  max : pyval                         (* PNone until the first sample *)
}.

Definition __init__ (max_length : Z) : t :=
  {| max_length := max_length; _days := None; _max_dict := []; max := PNone |}.

Definition set_days (ds : list day) (h : t) : t :=
  {| max_length := max_length h; _days := Some ds;
     _max_dict := _max_dict h; max := max h |}.
Definition set_max_dict (d : list (day * pyval)) (h : t) : t :=
  {| max_length := max_length h; _days := _days h;
     _max_dict := d; max := max h |}.
Definition set_max (m : pyval) (h : t) : t :=
  {| max_length := max_length h; _days := _days h;
     _max_dict := _max_dict h; max := m |}.

Local Open Scope py_scope.

(** [self._days] used as a deque: [len], [popleft], [append], [[-1]]. *)
Definition the_days : M t (list day) :=
  h <- get ;; must TypeError (_days h).

Definition popleft : M t day :=
  ds <- the_days ;;
  match ds with
  | [] => raise IndexError
  | oldest :: rest => modify (set_days rest) ;; ret oldest
  end.

(** [_add_day(day, value)] *)
Definition _add_day (d : day) (value : pyval) : M t unit :=
  h <- get ;;
  ds <- the_days ;;
  (if (Z.of_nat (List.length ds) =? max_length h)%Z then
     oldest <- popleft ;;
     h <- get ;;
     dict' <- must KeyError (dict_del Z.eqb oldest (_max_dict h)) ;;
     modify (set_max_dict dict')
   else ret tt) ;;
  ds <- the_days ;;
  modify (set_days (ds ++ [d])) ;;
  if negb (isinstance_number value) then ret tt
  else
    h <- get ;;
    modify (set_max_dict (dict_set Z.eqb d value (_max_dict h))).

(** [add_measurement(value, timestamp)] *)
Definition add_measurement (now : day) (value : pyval)
    (timestamp : option day) : M t unit :=
  let d := day_of now timestamp in
  if negb (isinstance_number value) then ret tt
  else
    h <- get ;;
    match _days h with
    | None =>
        modify (set_days []) ;;
        _add_day d value
    | Some ds =>
        current_day <- must IndexError (last_item ds) ;;
        if (d =? current_day)%Z then
          h <- get ;;
          old <- must KeyError (dict_get Z.eqb d (_max_dict h)) ;;
          m <- eval (py_max2 value old) ;;
          modify (set_max_dict (dict_set Z.eqb d m (_max_dict h)))
        else if (d >? current_day)%Z then
          _add_day d value
        else
          ret tt (* the warning "Received old measurement, not storing it" *)
    end ;;
    h <- get ;;
    m <- eval (py_max (dict_values (_max_dict h))) ;;
    modify (set_max m).

End DailyHistory.

(* ===================================================================== *)
(** * Constants                                                           *)
(* ===================================================================== *)

(** From [homeassistant.const], with the values the host platform gives
    them. *)
Definition STATE_OK : string := "ok".
Definition STATE_PROBLEM : string := "problem".
Definition STATE_UNAVAILABLE : string := "unavailable".
Definition STATE_UNKNOWN : string := "unknown".
Definition CONF_SENSORS : string := "sensors".
Definition ATTR_STATE : string := "state".
Definition ATTR_UNIT_OF_MEASUREMENT : string := "unit_of_measurement".
Definition CONF_MINIMUM : string := "minimum".
Definition CONF_MAXIMUM : string := "maximum".
Definition TEMP_CELSIUS : string := "°C".

(** The component's own. *)
Definition PREFIX_MIN : string := "min_".
Definition PREFIX_MAX : string := "max_".
Definition READING_LIGHT_LUX : string := "light_lux".
Definition READING_TEMP : string := "temp".
Definition READING_ENV_HUMID : string := "env_humid".
Definition READING_SOIL_MOIST : string := "soil_moist".
Definition READING_SOIL_EC : string := "soil_ec".
Definition READING_BATTERY : string := "battery".
Definition PROBLEM_NONE : string := "none".

(** [READINGS]: reading -> default unit, in the order of the literal. *)
Definition READINGS : list (string * string) :=
  [ (READING_LIGHT_LUX, "lux");
    (READING_TEMP, TEMP_CELSIUS);
    (READING_ENV_HUMID, "%");
    (READING_SOIL_MOIST, "%");
    (READING_SOIL_EC, "µS/cm");
    (READING_BATTERY, "%") ].

(* ===================================================================== *)
(** * The host platform                                                   *)
(* ===================================================================== *)

(** A state object of the host: the state string, the day its
    [last_updated] timestamp falls on, and its attributes. *)
Record State : Type := {
  state : string;
  last_updated : day;
  attributes : list (string * string)
}.

(** [hass]: the state registry ([hass.states.get]) and the clock. *)
Record Hass : Type := {
  states_get : string -> option State;
  today : day
}.

(** [hass.states.is_state(entity_id, state)]: the entity exists and is in
    that state. *)
Definition is_state (hass : Hass) (entity_id st : string) : bool :=
  match states_get hass entity_id with
  | Some o => (state o =? st)%string
  | None => false
  end.

(* ===================================================================== *)
(** * class Plant                                                         *)
(* ===================================================================== *)

(** The entries of [config] the modelled methods read: the statically
    assigned sensors (reading -> entity id), the scalar options looked up
    with [config.get] (the bounds [min_<reading>], [max_<reading>]), and
    [check_days].  A bound is a number when it comes from the validated
    user configuration and a string when it comes from a row of the plant
    database.  The discovery prefix, which [async_setup] always supplies,
    only enters the sensor base name. *)
Record Config : Type := {
  conf_sensors : list (string * string);
  conf_options : list (string * pyval);
  conf_check_days : Z
}.

(** [config.get(key)] *)
Definition config_get (c : Config) (key : string) : pyval :=
  match dict_get String.eqb key (conf_options c) with
  | Some v => v
  | None => PNone
  end.

(** The dict [_add_reading] builds for a reading; its keys are
    [reading_keys], in the order of the literal. *)
Record Reading : Type := {
  r_sensors : list string;            (* CONF_SENSORS *)
  r_state : pyval;                    (* ATTR_STATE *)
  r_unit_of_measurement : string;     (* ATTR_UNIT_OF_MEASUREMENT *)
  r_minimum : pyval;                  (* CONF_MINIMUM *)
  r_maximum : pyval                   (* CONF_MAXIMUM *)
}.

Definition reading_keys : list string :=
  [CONF_SENSORS; ATTR_STATE; ATTR_UNIT_OF_MEASUREMENT; CONF_MINIMUM; CONF_MAXIMUM].

Definition with_sensors (l : list string) (r : Reading) : Reading :=
  {| r_sensors := l; r_state := r_state r;
     r_unit_of_measurement := r_unit_of_measurement r;
     r_minimum := r_minimum r; r_maximum := r_maximum r |}.
Definition with_state (v : pyval) (r : Reading) : Reading :=
  {| r_sensors := r_sensors r; r_state := v;
     r_unit_of_measurement := r_unit_of_measurement r;
     r_minimum := r_minimum r; r_maximum := r_maximum r |}.
Definition with_unit (u : string) (r : Reading) : Reading :=
  {| r_sensors := r_sensors r; r_state := r_state r;
     r_unit_of_measurement := u;
     r_minimum := r_minimum r; r_maximum := r_maximum r |}.

(** The attributes of a plant the modelled methods read or write (the
    name and the sensor base name only feed log messages and the event
    filter). *)
Record Plant : Type := {
  _config : Config;
  _sensors : list (string * string);      (* entity id -> reading *)
  _readings : list (string * Reading);    (* reading -> its dict *)
  _state : pyval;                         (* None, then a status string *)
  _problems : string;
  _brightness_history : DailyHistory.t
}.

Definition set_sensors (d : list (string * string)) (p : Plant) : Plant :=
  {| _config := _config p; _sensors := d; _readings := _readings p;
     _state := _state p; _problems := _problems p;
     _brightness_history := _brightness_history p |}.
Definition set_readings (d : list (string * Reading)) (p : Plant) : Plant :=
  {| _config := _config p; _sensors := _sensors p; _readings := d;
     _state := _state p; _problems := _problems p;
     _brightness_history := _brightness_history p |}.
Definition set_status (st : string) (problems : string) (p : Plant) : Plant :=
  {| _config := _config p; _sensors := _sensors p; _readings := _readings p;
     _state := PStr st; _problems := problems;
     _brightness_history := _brightness_history p |}.
Definition set_brightness_history (h : DailyHistory.t) (p : Plant) : Plant :=
  {| _config := _config p; _sensors := _sensors p; _readings := _readings p;
     _state := _state p; _problems := _problems p;
     _brightness_history := h |}.

(** [for x in l: body(x)] *)
Fixpoint for_each {S A : Type} (l : list A) (body : A -> M S unit) : M S unit :=
  match l with
  | [] => ret tt
  | x :: l' => bind (body x) (fun _ => for_each l' body)
  end.

(** [[f(x) for x in l]] for an [f] that may raise. *)
Fixpoint map_result {A B : Type} (f : A -> result B) (l : list A) : result (list B) :=
  match l with
  | [] => Return []
  | x :: l' =>
      match f x with
      | Raise e => Raise e
      | Return y =>
          match map_result f l' with
          | Raise e => Raise e
          | Return ys => Return (y :: ys)
          end
      end
  end.

(** [filter(None.__ne__, l)]: [None.__ne__] answers [False] for [None]
    and [NotImplemented] for a string, which [filter] takes as true. *)
Fixpoint filter_not_none {A : Type} (l : list (option A)) : list A :=
  match l with
  | [] => []
  | Some x :: l' => x :: filter_not_none l'
  | None :: l' => filter_not_none l'
  end.

(** [a or b] on values that are [None] or a string. *)
Definition or_else (a : option string) (b : result (option string)) : result (option string) :=
  match a with
  | Some s => if (s =? "")%string then b else Return a
  | None => b
  end.

Section Plant.

(** [float(s)] for a string [s], [None] for the [ValueError]: the
    built-in is taken as it is. *)
Variable py_float : string -> option pyfloat.

(** [float(v)] *)
Definition float_of (v : pyval) : result pyfloat :=
  match v with
  | PInt z => Return (FFin (inject_Z z))
  | PFloat f => Return f
  | PStr s => match py_float s with Some f => Return f | None => Raise ValueError end
  | PNone => Raise TypeError
  end.

Local Open Scope py_scope.

(** [_add_reading(reading, entity_id)] *)
Definition _add_reading (reading entity_id : string) : M Plant unit :=
  p <- get ;;
  unit <- must KeyError (dict_get String.eqb reading READINGS) ;;
  modify (set_readings (dict_set String.eqb reading
    {| r_sensors := [entity_id];
       r_state := PNone;
       r_unit_of_measurement := unit;
       r_minimum := config_get (_config p) (PREFIX_MIN ++ reading)%string;
       r_maximum := config_get (_config p) (PREFIX_MAX ++ reading)%string |}
    (_readings p))).

(** [Plant(hass, name, config)]: the constructor either raises or gives
    the new plant. *)
Definition __init__ (config : Config) : result Plant :=
  let blank :=
    {| _config := config; _sensors := []; _readings := [];
       _state := PNone; _problems := PROBLEM_NONE;
       _brightness_history := DailyHistory.__init__ (conf_check_days config) |} in
  match
    for_each (conf_sensors config) (fun '(reading, entity_id) =>
      p <- get ;;
      modify (set_sensors (dict_set String.eqb entity_id reading (_sensors p))) ;;
      _add_reading reading entity_id) blank
  with
  | (p, Return _) => Return p
  | (_, Raise e) => Raise e
  end.

(** The loop of [_associate_sensor] over the readings still to try. *)
Fixpoint associate_among (candidates : list string) (entity_id : string)
    : M Plant string :=
  match candidates with
  | [] => raise (HomeAssistantError ("Cannot extract reading from sensor " ++ entity_id)%string)
  | reading :: candidates' =>
      if str_in reading entity_id then
        p <- get ;;
        modify (set_sensors (dict_set String.eqb entity_id reading (_sensors p))) ;;
        p <- get ;;
        match dict_get String.eqb reading (_readings p) with
        | Some r =>
            modify (set_readings (dict_set String.eqb reading
              (with_sensors (r_sensors r ++ [entity_id]) r) (_readings p)))
        | None => _add_reading reading entity_id
        end ;;
        ret reading
      else associate_among candidates' entity_id
  end.

(** [_associate_sensor(entity_id)] *)
Definition _associate_sensor (entity_id : string) : M Plant string :=
  associate_among (dict_keys READINGS) entity_id.

(** [self._readings[reading]] *)
Definition the_reading (reading : string) : M Plant Reading :=
  p <- get ;; must KeyError (dict_get String.eqb reading (_readings p)).

(** [self._readings[reading][key] = ...] *)
Definition update_reading (reading : string) (f : Reading -> Reading) : M Plant unit :=
  r <- the_reading reading ;;
  p <- get ;;
  modify (set_readings (dict_set String.eqb reading (f r) (_readings p))).

(** [_check_min(reading, state)] *)
Definition _check_min (p : Plant) (reading : string) (st : pyval)
    : result (option string) :=
  match dict_get String.eqb reading (_readings p) with
  | None => Raise KeyError
  | Some r =>
      let min_value := r_minimum r in
      let st := if (reading =? READING_LIGHT_LUX)%string
                then DailyHistory.max (_brightness_history p) else st in
      if truthy min_value then
        match float_of min_value with
        | Raise e => Raise e
        | Return bound =>
            match py_lt st (PFloat bound) with
            | Raise e => Raise e
            | Return true => Return (Some (reading ++ " low")%string)
            | Return false => Return None
            end
        end
      else Return None
  end.

(** [_check_max(reading, state)] *)
Definition _check_max (p : Plant) (reading : string) (st : pyval)
    : result (option string) :=
  match dict_get String.eqb reading (_readings p) with
  | None => Raise KeyError
  | Some r =>
      let max_value := r_maximum r in
      if truthy max_value then
        match float_of max_value with
        | Raise e => Raise e
        | Return bound =>
            match py_gt st (PFloat bound) with
            | Raise e => Raise e
            | Return true => Return (Some (reading ++ " high")%string)
            | Return false => Return None
            end
        end
      else Return None
  end.

(** [state == STATE_UNAVAILABLE] on a stored state. *)
Definition is_unavailable (v : pyval) : bool :=
  match v with
  | PStr s => (s =? STATE_UNAVAILABLE)%string
  | _ => false
  end.

(** [_check_reading(reading)] *)
Definition _check_reading (p : Plant) (reading : string) : result (option string) :=
  match dict_get String.eqb reading (_readings p) with
  | None => Raise KeyError
  | Some r =>
      let st := r_state r in
      if is_unavailable st then
        Return (Some (reading ++ " " ++ STATE_UNAVAILABLE)%string)
      else
        match st with
        | PNone => Return None
        | _ =>
            match _check_min p reading st with
            | Raise e => Raise e
            | Return low => or_else low (_check_max p reading st)
            end
        end
  end.

(** [_update_state()]; scheduling the publication of the new state is
    the host's business. *)
Definition _update_state : M Plant unit :=
  p <- get ;;
  checks <- eval (map_result (_check_reading p) (dict_keys (_readings p))) ;;
  let problems := filter_not_none checks in
  match problems with
  | [] => modify (set_status STATE_OK PROBLEM_NONE)
  | _ :: _ =>
      modify (set_status
        (if forallb (str_in STATE_UNAVAILABLE) problems
         then STATE_UNAVAILABLE else STATE_PROBLEM)
        (String.concat ", " problems))
  end.

(** [self._brightness_history.add_measurement(value, timestamp)]: the
    history is mutated in place, also when the call raises. *)
Definition brightness_add_measurement (hass : Hass) (value : pyval)
    (timestamp : option day) : M Plant unit :=
  fun p =>
    let (h, outcome) :=
      DailyHistory.add_measurement (today hass) value timestamp
        (_brightness_history p) in
    (set_brightness_history h p, outcome).

(** [state_changed(entity_id, _, new_state)] *)
Definition state_changed (hass : Hass) (entity_id : string) (new_state : State)
    : M Plant unit :=
  let st := state new_state in
  p <- get ;;
  reading <-
    match dict_get String.eqb entity_id (_sensors p) with
    | Some r => if (r =? "")%string then _associate_sensor entity_id else ret r
    | None => _associate_sensor entity_id
    end ;;
  ignored <-
    (if (st =? STATE_UNKNOWN)%string then ret true
     else if (st =? STATE_UNAVAILABLE)%string then
       _ <- the_reading reading ;;
       ret (existsb (fun sensor => negb (is_state hass sensor STATE_UNAVAILABLE))
                    reading_keys)
     else ret false) ;;
  if ignored : bool then ret tt
  else
    f <- must ValueError (py_float st) ;;
    v <- (if existsb (String.eqb reading) [READING_TEMP; READING_ENV_HUMID]
          then ret (PFloat f)
          else z <- eval (int_of_float f) ;; ret (PInt z)) ;;
    update_reading reading (with_state v) ;;
    (if (reading =? READING_LIGHT_LUX)%string then
       r <- the_reading reading ;;
       brightness_add_measurement hass (r_state r) (Some (last_updated new_state))
     else ret tt) ;;
    match dict_get String.eqb ATTR_UNIT_OF_MEASUREMENT (attributes new_state) with
    | Some u => update_reading reading (with_unit u)
    | None => ret tt
    end ;;
    _update_state.

(** The start-up back-fill [_load_history_from_db] feeds stored
    brightness values, already converted with [int], to the history. *)
Definition load_history_row (hass : Hass) (value : Z) (last_updated : day)
    : M Plant unit :=
  brightness_add_measurement hass (PInt value) (Some last_updated).

End Plant.

(* ===================================================================== *)
(** * Facts about dicts                                                   *)
(* ===================================================================== *)

Section DictFacts.
Context {K V : Type} (eqb : K -> K -> bool).
Hypothesis eqb_eq : forall a b, eqb a b = true <-> a = b.

Lemma eqb_same (k : K) : eqb k k = true.
Proof. apply eqb_eq; reflexivity. Qed.

Lemma eqb_differ (a b : K) : a <> b -> eqb a b = false.
Proof.
  intro H; destruct (eqb a b) eqn:E; [ | reflexivity ].
  apply eqb_eq in E; contradiction.
Qed.

Lemma dict_get_set (k k' : K) (v : V) (d : list (K * V)) :
  dict_get eqb k' (dict_set eqb k v d)
  = if eqb k' k then Some v else dict_get eqb k' d.
Proof.
  induction d as [ | [k0 v0] d IH]; simpl.
  - reflexivity.
  - destruct (eqb k k0) eqn:E; simpl.
    + apply eqb_eq in E; subst k0.
      destruct (eqb k' k); reflexivity.
    + rewrite IH. destruct (eqb k' k0) eqn:E'; [ | reflexivity ].
      apply eqb_eq in E'; subst k0.
      destruct (eqb k' k) eqn:E''; [ | reflexivity ].
      apply eqb_eq in E''; subst k'. rewrite eqb_same in E; discriminate.
Qed.


Lemma dict_get_in (k : K) (v : V) (d : list (K * V)) :
  dict_get eqb k d = Some v -> In (k, v) d.
Proof.
  induction d as [ | [k0 v0] d IH]; simpl; [ discriminate | ].
  destruct (eqb k k0) eqn:E.
  - apply eqb_eq in E; subst. intro H; inversion H; subst; auto.
  - auto.
Qed.

Lemma dict_get_some (k : K) (d : list (K * V)) :
  In k (dict_keys d) -> exists v, dict_get eqb k d = Some v.
Proof.
  induction d as [ | [k0 v0] d IH]; simpl; [ tauto | ].
  intros [H | H].
  - subst. rewrite eqb_same. eauto.
  - destruct (eqb k k0); eauto.
Qed.

Lemma in_dict_get (k : K) (v : V) (d : list (K * V)) :
  NoDup (dict_keys d) -> In (k, v) d -> dict_get eqb k d = Some v.
Proof.
  induction d as [ | [k0 v0] d IH]; simpl; [ tauto | ].
  intros ND [H | H].
  - inversion H; subst. rewrite eqb_same; reflexivity.
  - inversion ND as [ | ? ? Hnot ND' ]; subst.
    rewrite eqb_differ.
    + apply IH; assumption.
    + intro; subst. apply Hnot. change (In (fst (k0, v)) (map fst d)).
      apply in_map; assumption.
Qed.

Lemma dict_set_keys_present (k : K) (v : V) (d : list (K * V)) :
  In k (dict_keys d) -> dict_keys (dict_set eqb k v d) = dict_keys d.
Proof.
  induction d as [ | [k0 v0] d IH]; simpl; [ tauto | ].
  intro H. destruct (eqb k k0) eqn:E; simpl; [ reflexivity | ].
  f_equal. apply IH. destruct H as [H | H]; [ | assumption ].
  subst. rewrite eqb_same in E; discriminate.
Qed.

Lemma dict_set_fresh (k : K) (v : V) (d : list (K * V)) :
  ~ In k (dict_keys d) -> dict_set eqb k v d = d ++ [(k, v)].
Proof.
  induction d as [ | [k0 v0] d IH]; simpl; intro H; [ reflexivity | ].
  rewrite eqb_differ by (intro; subst; tauto).
  f_equal. apply IH; tauto.
Qed.

Lemma dict_del_head (k : K) (v : V) (d : list (K * V)) :
  dict_del eqb k ((k, v) :: d) = Some d.
Proof. simpl. rewrite eqb_same; reflexivity. Qed.

End DictFacts.

Lemma dict_keys_app {K V : Type} (d d' : list (K * V)) :
  dict_keys (d ++ d') = dict_keys d ++ dict_keys d'.
Proof. apply map_app. Qed.

Lemma dict_values_app {K V : Type} (d d' : list (K * V)) :
  dict_values (d ++ d') = dict_values d ++ dict_values d'.
Proof. apply map_app. Qed.

(* ===================================================================== *)
(** * Facts about lists of days                                           *)
(* ===================================================================== *)

Lemma last_item_app {A : Type} (l : list A) (x : A) :
  last_item (l ++ [x]) = Some x.
Proof.
  induction l as [ | a l IH]; simpl; [ reflexivity | ].
  destruct (l ++ [x]) eqn:E; [ destruct l; discriminate | exact IH ].
Qed.

Lemma last_item_in {A : Type} (l : list A) (x : A) :
  last_item l = Some x -> In x l.
Proof.
  induction l as [ | a l IH]; simpl; [ discriminate | ].
  destruct l as [ | b l ].
  - intro H; inversion H; auto.
  - intro H; right; apply IH; exact H.
Qed.

Lemma last_item_some {A : Type} (l : list A) :
  l <> [] -> exists x, last_item l = Some x.
Proof.
  induction l as [ | a l IH]; [ congruence | intros _ ].
  destruct l as [ | b l ]; simpl; [ eauto | ].
  apply IH; discriminate.
Qed.

(** In a strictly increasing list the last day is the greatest. *)
Lemma increasing_le_last (ds : list Z) (c : Z) :
  StronglySorted Z.lt ds -> last_item ds = Some c ->
  Forall (fun d => d <= c) ds.
Proof.
  induction ds as [ | a ds IH]; intros S L; [ constructor | ].
  inversion S as [ | ? ? S' F ]; subst.
  destruct ds as [ | b ds ].
  - simpl in L; inversion L; subst. constructor; [ lia | constructor ].
  - assert (IH' := IH S' L).
    constructor; [ | exact IH' ].
    inversion F as [ | ? ? Hab _ ]; subst.
    inversion IH' as [ | ? ? Hbc _ ]; subst. lia.
Qed.

Lemma increasing_snoc (ds : list Z) (c d : Z) :
  StronglySorted Z.lt ds -> last_item ds = Some c -> c < d ->
  StronglySorted Z.lt (ds ++ [d]).
Proof.
  intros S L Hcd.
  assert (F := increasing_le_last _ _ S L).
  clear L. induction ds as [ | a ds IH]; simpl.
  - constructor; constructor.
  - inversion S as [ | ? ? S' Fa ]; subst.
    inversion F as [ | ? ? Hac F' ]; subst.
    constructor.
    + apply IH; assumption.
    + apply Forall_app; split; [ exact Fa | ].
      constructor; [ lia | constructor ].
Qed.

Lemma increasing_tail_snoc (a : Z) (ds : list Z) (c d : Z) :
  StronglySorted Z.lt (a :: ds) -> last_item (a :: ds) = Some c -> c < d ->
  StronglySorted Z.lt (ds ++ [d]).
Proof.
  intros S L Hcd.
  assert (S' := increasing_snoc _ _ _ S L Hcd).
  simpl in S'. inversion S'; assumption.
Qed.

Lemma increasing_NoDup (ds : list Z) :
  StronglySorted Z.lt ds -> NoDup ds.
Proof.
  induction 1 as [ | a ds S IH F ]; constructor; [ | exact IH ].
  intro Hin. rewrite Forall_forall in F. specialize (F a Hin). lia.
Qed.

(* ===================================================================== *)
(** * Facts about comparison and max                                      *)
(* ===================================================================== *)

(** A real number: an [int], or a [float] that is not NaN. *)
Definition is_real (v : pyval) : bool :=
  match v with
  | PInt _ => true
  | PFloat FNaN => false
  | PFloat _ => true
  | PNone | PStr _ => false
  end.

(** [m] is a maximum of [vs]: one of them, and none of them is greater. *)
Definition is_maximum (m : pyval) (vs : list pyval) : Prop :=
  In m vs /\ Forall (fun v => py_gt v m = Return false) vs.

Lemma is_real_number (v : pyval) : is_real v = true -> isinstance_number v = true.
Proof. destruct v as [ | | [ | | | ] | ]; simpl; congruence. Qed.

Lemma py_gt_number (a b : pyval) :
  isinstance_number a = true -> isinstance_number b = true ->
  exists r, py_gt a b = Return r.
Proof.
  destruct a, b; simpl; try discriminate; intros _ _;
    unfold py_gt, py_lt; simpl; eauto.
Qed.

Lemma float_ltb_irrefl (x : pyfloat) : float_ltb x x = false.
Proof.
  destruct x; simpl; try reflexivity.
  apply negb_false_iff, Qle_bool_iff, Qle_refl.
Qed.

Lemma float_ltb_asym (x y : pyfloat) :
  float_ltb x y = true -> float_ltb y x = false.
Proof.
  destruct x, y; simpl; try congruence.
  intro H. apply negb_true_iff in H. apply negb_false_iff, Qle_bool_iff.
  destruct (Qlt_le_dec q0 q) as [L | L].
  - apply Qlt_le_weak in L. apply Qle_bool_iff in L. congruence.
  - exact L.
Qed.

Lemma float_le_trans (x y z : pyfloat) :
  x <> FNaN -> y <> FNaN -> z <> FNaN ->
  float_ltb y x = false -> float_ltb z y = false -> float_ltb z x = false.
Proof.
  destruct x, y, z; simpl; try congruence.
  intros _ _ _ H1 H2.
  apply negb_false_iff, Qle_bool_iff in H1.
  apply negb_false_iff, Qle_bool_iff in H2.
  apply negb_false_iff, Qle_bool_iff.
  eapply Qle_trans; eassumption.
Qed.

Lemma number_of_real (v : pyval) :
  is_real v = true -> exists f, number_of v = Some f /\ f <> FNaN.
Proof.
  destruct v as [ | z | [ | | | q ] | ]; simpl; try discriminate; intros _;
    eexists; (split; [ reflexivity | discriminate ]).
Qed.

Lemma py_gt_reals (a b : pyval) :
  is_real a = true -> is_real b = true ->
  exists x y, number_of a = Some x /\ number_of b = Some y /\
              x <> FNaN /\ y <> FNaN /\ py_gt a b = Return (float_ltb y x).
Proof.
  intros Ha Hb.
  destruct (number_of_real a Ha) as (x & Hx & Nx).
  destruct (number_of_real b Hb) as (y & Hy & Ny).
  exists x, y. repeat split; try assumption.
  unfold py_gt, py_lt. rewrite Hx, Hy.
  destruct a, b; simpl in *; try discriminate; reflexivity.
Qed.

Lemma py_le_refl (a : pyval) : is_real a = true -> py_gt a a = Return false.
Proof.
  intro Ha. destruct (py_gt_reals a a Ha Ha) as (x & y & Hx & Hy & _ & _ & E).
  rewrite E. assert (x = y) by congruence; subst.
  rewrite float_ltb_irrefl; reflexivity.
Qed.

Lemma py_gt_asym (a b : pyval) :
  is_real a = true -> is_real b = true ->
  py_gt a b = Return true -> py_gt b a = Return false.
Proof.
  intros Ha Hb H.
  destruct (py_gt_reals a b Ha Hb) as (x & y & Hx & Hy & _ & _ & E).
  destruct (py_gt_reals b a Hb Ha) as (y' & x' & Hy' & Hx' & _ & _ & E').
  assert (x' = x) by congruence; assert (y' = y) by congruence; subst.
  rewrite E in H; inversion H as [H'].
  rewrite E', (float_ltb_asym _ _ H'). reflexivity.
Qed.

Lemma py_le_trans (a b c : pyval) :
  is_real a = true -> is_real b = true -> is_real c = true ->
  py_gt a b = Return false -> py_gt b c = Return false ->
  py_gt a c = Return false.
Proof.
  intros Ha Hb Hc H1 H2.
  destruct (py_gt_reals a b Ha Hb) as (x & y & Hx & Hy & Nx & Ny & E1).
  destruct (py_gt_reals b c Hb Hc) as (y' & z & Hy' & Hz & _ & Nz & E2).
  destruct (py_gt_reals a c Ha Hc) as (x' & z' & Hx' & Hz' & _ & _ & E3).
  assert (x' = x) by congruence; assert (y' = y) by congruence;
    assert (z' = z) by congruence; subst.
  rewrite E1 in H1; rewrite E2 in H2; rewrite E3.
  injection H1 as H1'. injection H2 as H2'.
  f_equal. apply (float_le_trans x y z); assumption.
Qed.

(** [max(a, b)] of two numbers is one of them; on reals neither is
    greater than it. *)
Lemma py_max2_number (a b : pyval) :
  isinstance_number a = true -> isinstance_number b = true ->
  exists m, py_max2 a b = Return m /\ (m = a \/ m = b).
Proof.
  intros Ha Hb. unfold py_max2.
  destruct (py_gt_number b a Hb Ha) as [[ | ] E]; rewrite E; eauto.
Qed.

Lemma py_max2_real (a b m : pyval) :
  is_real a = true -> is_real b = true -> py_max2 a b = Return m ->
  (m = a \/ m = b) /\ py_gt a m = Return false /\ py_gt b m = Return false.
Proof.
  intros Ha Hb. unfold py_max2.
  destruct (py_gt_number b a (is_real_number _ Hb) (is_real_number _ Ha))
    as [[ | ] E]; rewrite E; intro H; inversion H; subst.
  - repeat split; auto using py_le_refl, py_gt_asym.
  - repeat split; auto using py_le_refl.
Qed.

Lemma py_max_from_number (rest : list pyval) : forall best,
  isinstance_number best = true ->
  Forall (fun v => isinstance_number v = true) rest ->
  exists m, py_max_from best rest = Return m /\ isinstance_number m = true.
Proof.
  induction rest as [ | x rest IH]; intros best Hb F; simpl.
  - eauto.
  - inversion F as [ | ? ? Hx F' ]; subst.
    destruct (py_max2_number best x Hb Hx) as (m & E & Hm). rewrite E.
    apply IH; [ | assumption ].
    destruct Hm; subst; assumption.
Qed.

Lemma py_max_number (l : list pyval) :
  l <> [] -> Forall (fun v => isinstance_number v = true) l ->
  exists m, py_max l = Return m /\ isinstance_number m = true.
Proof.
  destruct l as [ | x l ]; [ congruence | intros _ F ].
  inversion F; subst. simpl. apply py_max_from_number; assumption.
Qed.

Lemma py_max_from_real (rest : list pyval) : forall best m,
  is_real best = true -> Forall (fun v => is_real v = true) rest ->
  py_max_from best rest = Return m ->
  is_maximum m (best :: rest).
Proof.
  induction rest as [ | x rest IH]; intros best m Hb F; simpl.
  - intro H; inversion H; subst. split; [ left; reflexivity | ].
    constructor; [ apply py_le_refl; assumption | constructor ].
  - inversion F as [ | ? ? Hx F' ]; subst.
    destruct (py_max2_number best x (is_real_number _ Hb) (is_real_number _ Hx))
      as (b' & E & Hb'). rewrite E. intro H.
    destruct (py_max2_real best x b' Hb Hx E) as (_ & L1 & L2).
    assert (Rb' : is_real b' = true) by (destruct Hb'; subst; assumption).
    destruct (IH b' m Rb' F' H) as [Hin Hall].
    assert (Rm : is_real m = true).
    { destruct Hin as [ <- | Hin ]; [ assumption | ].
      rewrite Forall_forall in F'. apply F'; assumption. }
    inversion Hall as [ | ? ? Hb'm Hrest ]; subst.
    split.
    + destruct Hin as [ <- | Hin ].
      * destruct Hb'; subst; simpl; auto.
      * simpl; auto.
    + constructor; [ eapply py_le_trans with (b := b'); eassumption | ].
      constructor; [ eapply py_le_trans with (b := b'); eassumption | assumption ].
Qed.

Lemma py_max_real (l : list pyval) (m : pyval) :
  Forall (fun v => is_real v = true) l -> py_max l = Return m ->
  is_maximum m l.
Proof.
  destruct l as [ | x l ]; simpl; [ discriminate | ].
  intros F; inversion F; subst. apply py_max_from_real; assumption.
Qed.

(* ===================================================================== *)
(** * DailyHistory: what one call does                                    *)
(* ===================================================================== *)

Ltac split5 := split; [ | split; [ | split; [ | split ] ] ].

Ltac run_method :=
  unfold bind, get, must, ret, raise, modify, eval;
  cbn [fst snd negb DailyHistory._days DailyHistory._max_dict DailyHistory.max
       DailyHistory.max_length DailyHistory.set_days DailyHistory.set_max_dict
       DailyHistory.set_max].

Section DailyHistorySteps.
Import DailyHistory.

Variables (now : day) (v : pyval) (timestamp : option day) (d : day).
Variables (N : Z) (dict : list (day * pyval)) (m : pyval).
Hypothesis Hd : day_of now timestamp = d.

Lemma add_not_a_number (h : t) :
  isinstance_number v = false ->
  add_measurement now v timestamp h = (h, Return tt).
Proof. intro H. unfold add_measurement. rewrite H. reflexivity. Qed.

Lemma add_first_day :
  isinstance_number v = true -> N <> 0 ->
  add_measurement now v timestamp (mk N None [] m)
  = (mk N (Some [d]) [(d, v)] v, Return tt).
Proof.
  intros Hv HN. unfold add_measurement, _add_day, popleft, the_days.
  rewrite Hv, Hd. run_method. change (Z.of_nat (List.length [])) with 0.
  destruct (0 =? N) eqn:E; [ apply Z.eqb_eq in E; congruence | ].
  reflexivity.
Qed.

Lemma add_first_day_no_room :
  isinstance_number v = true ->
  add_measurement now v timestamp (mk 0 None dict m)
  = (mk 0 (Some []) dict m, Raise IndexError).
Proof.
  intros Hv. unfold add_measurement, _add_day, popleft, the_days.
  rewrite Hv. reflexivity.
Qed.

Lemma add_to_empty_deque :
  isinstance_number v = true ->
  add_measurement now v timestamp (mk N (Some []) dict m)
  = (mk N (Some []) dict m, Raise IndexError).
Proof. intros Hv. unfold add_measurement. rewrite Hv. reflexivity. Qed.

Lemma add_same_day (ds : list day) (old m' mx : pyval) :
  isinstance_number v = true ->
  last_item ds = Some d ->
  dict_get Z.eqb d dict = Some old ->
  py_max2 v old = Return m' ->
  py_max (dict_values (dict_set Z.eqb d m' dict)) = Return mx ->
  add_measurement now v timestamp (mk N (Some ds) dict m)
  = (mk N (Some ds) (dict_set Z.eqb d m' dict) mx, Return tt).
Proof.
  intros Hv HL Hold H2 Hmx. unfold add_measurement.
  rewrite Hv, Hd. run_method. rewrite HL. run_method.
  rewrite Z.eqb_refl. run_method. rewrite Hold. run_method.
  rewrite H2. run_method.
  rewrite Hmx. reflexivity.
Qed.

Lemma add_later_day_evict (oldest c : day) (rest : list day)
    (dict' : list (day * pyval)) (mx : pyval) :
  isinstance_number v = true ->
  last_item (oldest :: rest) = Some c -> c < d ->
  Z.of_nat (List.length (oldest :: rest)) = N ->
  dict_del Z.eqb oldest dict = Some dict' ->
  py_max (dict_values (dict_set Z.eqb d v dict')) = Return mx ->
  add_measurement now v timestamp (mk N (Some (oldest :: rest)) dict m)
  = (mk N (Some (rest ++ [d])) (dict_set Z.eqb d v dict') mx, Return tt).
Proof.
  intros Hv HL Hcd Hlen Hdel Hmx. unfold add_measurement.
  rewrite Hv, Hd. run_method. rewrite HL. run_method.
  replace (d =? c) with false by (symmetry; apply Z.eqb_neq; lia).
  replace (d >? c) with true by (symmetry; apply Z.gtb_lt; lia).
  run_method. unfold _add_day, popleft, the_days. run_method.
  apply Z.eqb_eq in Hlen. rewrite Hlen. run_method.
  rewrite Hdel. run_method. rewrite Hv. run_method.
  rewrite Hmx. reflexivity.
Qed.

Lemma add_later_day_room (ds : list day) (c : day) (mx : pyval) :
  isinstance_number v = true ->
  last_item ds = Some c -> c < d ->
  Z.of_nat (List.length ds) <> N ->
  py_max (dict_values (dict_set Z.eqb d v dict)) = Return mx ->
  add_measurement now v timestamp (mk N (Some ds) dict m)
  = (mk N (Some (ds ++ [d])) (dict_set Z.eqb d v dict) mx, Return tt).
Proof.
  intros Hv HL Hcd Hlen Hmx. unfold add_measurement.
  rewrite Hv, Hd. run_method. rewrite HL. run_method.
  replace (d =? c) with false by (symmetry; apply Z.eqb_neq; lia).
  replace (d >? c) with true by (symmetry; apply Z.gtb_lt; lia).
  run_method. unfold _add_day, popleft, the_days. run_method.
  apply Z.eqb_neq in Hlen. rewrite Hlen. run_method.
  rewrite Hv. run_method.
  rewrite Hmx. reflexivity.
Qed.

Lemma add_earlier_day (ds : list day) (c : day) :
  isinstance_number v = true ->
  last_item ds = Some c -> d < c ->
  py_max (dict_values dict) = Return m ->
  add_measurement now v timestamp (mk N (Some ds) dict m)
  = (mk N (Some ds) dict m, Return tt).
Proof.
  intros Hv HL Hcd Hmx. unfold add_measurement.
  rewrite Hv, Hd. run_method. rewrite HL. run_method.
  replace (d =? c) with false by (symmetry; apply Z.eqb_neq; lia).
  replace (d >? c) with false by (symmetry; rewrite Z.gtb_ltb; apply Z.ltb_ge; lia).
  run_method. rewrite Hmx. reflexivity.
Qed.

End DailyHistorySteps.

(* ===================================================================== *)
(** * DailyHistory: the states it can be in                               *)
(* ===================================================================== *)

Section DailyHistoryInvariant.
Import DailyHistory.

(** Every aggregate is a number. *)
Definition numbers (dict : list (Z * pyval)) : Prop :=
  Forall (fun x => isinstance_number x = true) (dict_values dict).

(** What holds of a history between two calls: before the first sample
    nothing is recorded; afterwards the dict has exactly the retained
    days as keys, in the order of the deque, which is strictly
    increasing and no longer than [max_length] (when that is positive),
    and [max] is the maximum of the aggregates.  The deque is empty only
    after a first sample with [max_length = 0], whose [popleft] raised. *)
Definition well_formed (h : t) : Prop :=
  match _days h with
  | None => _max_dict h = [] /\ max h = PNone
  | Some ds =>
      ds = [] \/
      (dict_keys (_max_dict h) = ds /\
       StronglySorted Z.lt ds /\
       numbers (_max_dict h) /\
       py_max (dict_values (_max_dict h)) = Return (max h) /\
       (0 < max_length h -> Z.of_nat (List.length ds) <= max_length h))
  end.

(** The histories a program can see: a new one, and what any call of
    [add_measurement] leaves behind, whether it returned or raised. *)
Inductive reachable (N : Z) : t -> Prop :=
| reach_new : reachable N (__init__ N)
| reach_add (h : t) (now : day) (v : pyval) (timestamp : option day) :
    reachable N h ->
    reachable N (fst (add_measurement now v timestamp h)).

Lemma numbers_set (k : Z) (x : pyval) (dict : list (Z * pyval)) :
  numbers dict -> isinstance_number x = true ->
  numbers (dict_set Z.eqb k x dict).
Proof.
  unfold numbers. induction dict as [ | [k0 x0] dict IH]; simpl; intros F Hx.
  - constructor; [ assumption | constructor ].
  - inversion F; subst. destruct (k =? k0); simpl; constructor; auto.
Qed.

Lemma numbers_get (k : Z) (x : pyval) (dict : list (Z * pyval)) :
  numbers dict -> dict_get Z.eqb k dict = Some x -> isinstance_number x = true.
Proof.
  unfold numbers. intros F H. apply dict_get_in in H; [ | apply Z.eqb_eq ].
  rewrite Forall_forall in F. apply F.
  change x with (snd (k, x)). apply in_map. assumption.
Qed.

Lemma dict_set_not_empty (k : Z) (x : pyval) (dict : list (Z * pyval)) :
  dict_values (dict_set Z.eqb k x dict) <> [].
Proof.
  destruct dict as [ | [k0 x0] dict ]; simpl; [ discriminate | ].
  destruct (k =? k0); discriminate.
Qed.

Lemma later_day_is_fresh (ds : list Z) (c d : Z) :
  StronglySorted Z.lt ds -> last_item ds = Some c -> c < d -> ~ In d ds.
Proof.
  intros S L Hcd Hin.
  assert (F := increasing_le_last _ _ S L).
  rewrite Forall_forall in F. specialize (F d Hin). lia.
Qed.

(** Every call keeps the history well formed and its capacity
    unchanged. *)
Lemma add_measurement_well_formed (h : t) (now : day) (v : pyval)
    (timestamp : option day) :
  well_formed h ->
  well_formed (fst (add_measurement now v timestamp h)) /\
  max_length (fst (add_measurement now v timestamp h)) = max_length h.
Proof.
  intro W. set (d := day_of now timestamp). assert (Hd : day_of now timestamp = d) by reflexivity.
  destruct (isinstance_number v) eqn:Hv;
    [ | rewrite add_not_a_number by assumption; auto ].
  destruct h as [N [ ds | ] dict m]; unfold well_formed in W; simpl in W.
  2:{ destruct W as [-> ->].
      destruct (Z.eq_dec N 0) as [-> | HN].
      - rewrite add_first_day_no_room by assumption.
        split; [ left | ]; reflexivity.
      - erewrite add_first_day by eassumption. split; [ | reflexivity ].
        right. simpl. split5.
        + reflexivity.
        + repeat constructor.
        + repeat constructor. assumption.
        + reflexivity.
        + simpl. lia. }
  destruct ds as [ | a ds' ].
  { rewrite add_to_empty_deque by assumption. split; [ left | ]; reflexivity. }
  destruct W as [W | (Hk & S & Hn & Hmax & Hlen)]; [ discriminate | ].
  simpl in Hlen.
  destruct (last_item_some (a :: ds')) as [c HL]; [ discriminate | ].
  destruct (Z.lt_trichotomy d c) as [Hlt | [Heq | Hgt]].
  - erewrite add_earlier_day by eassumption.
    split; [ | reflexivity ]. right. simpl. auto.
  - subst c.
    destruct (dict_get_some Z.eqb Z.eqb_eq d dict) as [old Hold].
    { rewrite Hk. apply last_item_in; assumption. }
    destruct (py_max2_number v old Hv (numbers_get _ _ _ Hn Hold)) as (m' & E2 & Hm').
    assert (Nm' : isinstance_number m' = true).
    { destruct Hm'; subst; eauto using numbers_get. }
    destruct (py_max_number _ (dict_set_not_empty d m' dict)
                (numbers_set d _ _ Hn Nm')) as (mx & Emx & _).
    erewrite add_same_day by eassumption.
    split; [ | reflexivity ]. right. simpl. split5; auto.
    + rewrite dict_set_keys_present; [ assumption | apply Z.eqb_eq | ].
      rewrite Hk. apply last_item_in; assumption.
    + apply numbers_set; assumption.
  - assert (Fresh := later_day_is_fresh _ _ _ S HL Hgt).
    destruct (Z.eq_dec (Z.of_nat (List.length (a :: ds'))) N) as [Hfull | Hroom].
    + destruct dict as [ | [a' x0] drest ]; [ discriminate | ].
      simpl in Hk. injection Hk as -> Hk'.
      assert (Fresh' : ~ In d (dict_keys drest))
        by (rewrite Hk'; intro; apply Fresh; right; assumption).
      assert (Hn' : numbers drest) by (inversion Hn; assumption).
      destruct (py_max_number _ (dict_set_not_empty d v drest)
                  (numbers_set d _ _ Hn' Hv)) as (mx & Emx & _).
      assert (Hdel := dict_del_head Z.eqb Z.eqb_eq a x0 drest).
      erewrite add_later_day_evict by eassumption.
      split; [ | reflexivity ]. right. simpl. split5.
      * rewrite (dict_set_fresh Z.eqb Z.eqb_eq) by assumption.
        rewrite dict_keys_app, Hk'. reflexivity.
      * exact (increasing_tail_snoc a ds' c d S HL Hgt).
      * apply numbers_set; assumption.
      * assumption.
      * intros _. rewrite length_app. simpl in Hfull |- *. lia.
    + destruct (py_max_number _ (dict_set_not_empty d v dict)
                  (numbers_set d _ _ Hn Hv)) as (mx & Emx & _).
      erewrite add_later_day_room by eassumption.
      split; [ | reflexivity ]. right. simpl. split5.
      * rewrite (dict_set_fresh Z.eqb Z.eqb_eq) by (rewrite Hk; assumption).
        rewrite dict_keys_app, Hk. reflexivity.
      * exact (increasing_snoc (a :: ds') c d S HL Hgt).
      * apply numbers_set; assumption.
      * assumption.
      * intros HN. specialize (Hlen HN). rewrite length_app.
        simpl in Hroom, Hlen |- *. lia.
Qed.

Lemma reachable_well_formed (N : Z) (h : t) :
  reachable N h -> well_formed h /\ max_length h = N.
Proof.
  induction 1 as [ | h now v ts R [W L] ].
  - split; [ | reflexivity ]. split; reflexivity.
  - destruct (add_measurement_well_formed _ now v ts W) as [W' L'].
    split; [ assumption | congruence ].
Qed.

End DailyHistoryInvariant.

(* ===================================================================== *)
(** * DailyHistory: the retained days                                     *)
(* ===================================================================== *)

Section DailyHistoryTheorems.
Import DailyHistory.

(** C3: in every history built with [max_days > 0], after any calls of
    [add_measurement], the retained days are strictly increasing (so
    without duplicates) and at most [max_days] many; and when they are
    exactly [max_days] many, adding a number for a later day returns,
    drops the oldest day from the front of the days and its aggregate
    from the dict, keeps every other day and aggregate, and appends the
    new day with the value as its aggregate. *)
Theorem retained_days_increasing_and_bounded (N : Z) (h : t) (ds : list day) :
  0 < N -> reachable N h -> _days h = Some ds ->
  StronglySorted Z.lt ds /\ NoDup ds /\ Z.of_nat (List.length ds) <= N /\
  forall (now : day) (v : pyval) (timestamp : option day)
         (oldest current_day : day) (rest : list day),
    ds = oldest :: rest -> Z.of_nat (List.length ds) = N ->
    isinstance_number v = true ->
    last_item ds = Some current_day ->
    current_day < day_of now timestamp ->
    exists (x : pyval) (kept : list (day * pyval)) (mx : pyval),
      _max_dict h = (oldest, x) :: kept /\
      ~ In oldest (dict_keys kept) /\
      add_measurement now v timestamp h
      = (mk N (Some (rest ++ [day_of now timestamp]))
            (kept ++ [(day_of now timestamp, v)]) mx,
         Return tt).
Proof.
  intros HN R HD.
  destruct (reachable_well_formed N h R) as [W HL].
  destruct h as [N' days dict m]; simpl in HD, HL; subst N' days.
  unfold well_formed in W; simpl in W.
  destruct W as [-> | (Hk & S & Hn & Hmax & Hlen)].
  { split; [ constructor | ]. split; [ constructor | ].
    split; [ simpl; lia | ]. intros; discriminate. }
  split; [ assumption | ].
  split; [ apply increasing_NoDup; assumption | ].
  split; [ auto | ].
  intros now v timestamp oldest c rest -> Hfull Hv HLast Hlater.
  destruct dict as [ | [a x] kept ]; [ discriminate | ].
  simpl in Hk. injection Hk as -> Hk'.
  assert (Fresh := later_day_is_fresh _ _ _ S HLast Hlater).
  assert (Fresh' : ~ In (day_of now timestamp) (dict_keys kept))
    by (rewrite Hk'; intro; apply Fresh; right; assumption).
  assert (Hn' : numbers kept) by (inversion Hn; assumption).
  destruct (py_max_number _ (dict_set_not_empty (day_of now timestamp) v kept)
              (numbers_set _ _ _ Hn' Hv)) as (mx & Emx & _).
  assert (Hdel := dict_del_head Z.eqb Z.eqb_eq oldest x kept).
  exists x, kept, mx. split; [ reflexivity | ]. split.
  - rewrite Hk'. inversion S as [ | ? ? _ F ]; subst.
    intro Hin. rewrite Forall_forall in F. specialize (F _ Hin). lia.
  - erewrite add_later_day_evict; try eassumption; [ | reflexivity ].
    rewrite (dict_set_fresh Z.eqb Z.eqb_eq) by assumption. reflexivity.
Qed.

(** C5, as the code has it: a value that is not a number is dropped by
    the first test of [add_measurement]; the call returns and the
    history is what it was: no day is opened, no aggregate recorded, and
    [max] keeps its value. *)
Theorem non_number_is_dropped (h : t) (now : day) (v : pyval)
    (timestamp : option day) :
  isinstance_number v = false ->
  add_measurement now v timestamp h = (h, Return tt).
Proof. intro Hv. apply add_not_a_number. assumption. Qed.

(** C6: in a history with a retained day, a measurement for a day before
    the most recently opened one returns and leaves the history as it
    was: days, aggregates and [max]. *)
Theorem old_measurement_changes_nothing (N : Z) (h : t) (now : day)
    (v : pyval) (timestamp : option day) (ds : list day) (current_day : day) :
  reachable N h ->
  _days h = Some ds -> last_item ds = Some current_day ->
  day_of now timestamp < current_day ->
  add_measurement now v timestamp h = (h, Return tt).
Proof.
  intros R HD HLast Hold.
  destruct (isinstance_number v) eqn:Hv;
    [ | apply add_not_a_number; assumption ].
  destruct (reachable_well_formed N h R) as [W _].
  destruct h as [N' days dict m]; simpl in HD; subst days.
  unfold well_formed in W; simpl in W.
  destruct W as [-> | (_ & _ & _ & Hmax & _)]; [ discriminate | ].
  eapply add_earlier_day; try eassumption. reflexivity.
Qed.

End DailyHistoryTheorems.

(** A history with capacity 3 that has seen 10 on day 5. *)
Definition one_day_history : DailyHistory.t :=
  fst (DailyHistory.add_measurement 0 (PInt 10) (Some 5) (DailyHistory.__init__ 3)).

Lemma one_day_history_reachable : reachable 3 one_day_history.
Proof. apply reach_add, reach_new. Defined.

Lemma non_number_is_dropped_witness :
  DailyHistory.add_measurement 0 (PStr "n/a") (Some 1) (DailyHistory.__init__ 3)
  = (DailyHistory.__init__ 3, Return tt).
Proof. apply (non_number_is_dropped (DailyHistory.__init__ 3)). reflexivity. Defined.

Lemma old_measurement_changes_nothing_witness :
  DailyHistory.add_measurement 0 (PInt 99) (Some 2) one_day_history
  = (one_day_history, Return tt).
Proof.
  apply (old_measurement_changes_nothing 3 one_day_history 0 (PInt 99) (Some 2) [5] 5).
  - exact one_day_history_reachable.
  - reflexivity.
  - reflexivity.
  - reflexivity.
Defined.

(** C5 as the spec words it fails: a non-numeric value for a new day
    does not open the day. *)
Lemma non_number_opens_no_day :
  DailyHistory._days
    (fst (DailyHistory.add_measurement 0 (PStr "n/a") (Some 1)
            (DailyHistory.__init__ 3)))
  <> Some [1].
Proof. vm_compute. discriminate. Qed.

(* ===================================================================== *)
(** * DailyHistory: the rolling maximum                                   *)
(* ===================================================================== *)

(** A run of measurements, each a value and the day of its timestamp. *)
Definition days_fed (ms : list (pyval * Z)) : list Z := map snd ms.

(** The values fed for day [d]. *)
Definition values_on (ms : list (pyval * Z)) (d : Z) : list pyval :=
  map fst (filter (fun x => snd x =? d) ms).

(** Feeding a run to a history, one call of [add_measurement] each; the
    run stops at the first call that raises. *)
Definition feed (now : day) (ms : list (pyval * Z)) : M DailyHistory.t unit :=
  for_each ms (fun x => DailyHistory.add_measurement now (fst x) (Some (snd x))).

(** The spec's window, read by the calendar: the days less than [N]
    before the latest day fed. *)
Definition values_within_days (N : Z) (ms : list (pyval * Z)) : list pyval :=
  match last_item (days_fed ms) with
  | None => []
  | Some latest => map fst (filter (fun x => latest - N <? snd x) ms)
  end.

(** The window the code keeps: the [N] latest among the distinct days
    fed, that is the days with fewer than [N] distinct fed days after
    them. *)
Definition later_days (ms : list (pyval * Z)) (d : Z) : list Z :=
  nodup Z.eq_dec (filter (fun d' => d <? d') (days_fed ms)).

Definition among_latest (N : Z) (ms : list (pyval * Z)) (d : Z) : bool :=
  Z.of_nat (List.length (later_days ms d)) <? N.

Definition values_of_latest_days (N : Z) (ms : list (pyval * Z)) : list pyval :=
  map fst (filter (fun x => among_latest N ms (snd x)) ms).

Lemma for_each_app {S A : Type} (l l' : list A) (body : A -> M S unit) (s : S) :
  for_each (l ++ l') body s
  = match for_each l body s with
    | (s', Return _) => for_each l' body s'
    | (s', Raise e) => (s', Raise e)
    end.
Proof.
  revert s. induction l as [ | x l IH]; intro s; simpl.
  - reflexivity.
  - unfold bind. destruct (body x s) as [s1 [ [] | e ]]; [ apply IH | reflexivity ].
Qed.

Lemma for_each_one {S A : Type} (x : A) (body : A -> M S unit) (s : S) :
  for_each [x] body s = body x s.
Proof.
  simpl. unfold bind, ret. destruct (body x s) as [s1 [ [] | e ]]; reflexivity.
Qed.

Lemma nondecreasing_snoc (l : list Z) (x : Z) :
  StronglySorted Z.le (l ++ [x]) ->
  StronglySorted Z.le l /\ Forall (fun y => y <= x) l.
Proof.
  induction l as [ | a l IH]; simpl; intro S.
  - split; constructor.
  - inversion S as [ | ? ? S' F ]; subst.
    destruct (IH S') as [S'' F'].
    apply Forall_app in F. destruct F as [Fl Fx].
    split; constructor; auto.
    inversion Fx; assumption.
Qed.

Lemma values_on_snoc (ms : list (pyval * Z)) (v : pyval) (d d' : Z) :
  values_on (ms ++ [(v, d)]) d'
  = if d =? d' then values_on ms d' ++ [v] else values_on ms d'.
Proof.
  unfold values_on. rewrite filter_app, map_app. simpl.
  destruct (d =? d'); simpl; [ reflexivity | apply app_nil_r ].
Qed.

Lemma values_on_absent (ms : list (pyval * Z)) (d : Z) :
  ~ In d (days_fed ms) -> values_on ms d = [].
Proof.
  unfold values_on, days_fed.
  induction ms as [ | [v d0] ms IH]; simpl; intro H; [ reflexivity | ].
  destruct (d0 =? d) eqn:E.
  - apply Z.eqb_eq in E. tauto.
  - apply IH. tauto.
Qed.

Lemma values_on_fed (ms : list (pyval * Z)) (d : Z) (x : pyval) :
  In x (values_on ms d) -> In (x, d) ms.
Proof.
  unfold values_on. rewrite in_map_iff. intros ([x' d'] & <- & H).
  apply filter_In in H. destruct H as [H E]. simpl in E.
  apply Z.eqb_eq in E; subst. assumption.
Qed.

Lemma fed_values_on (ms : list (pyval * Z)) (d : Z) (x : pyval) :
  In (x, d) ms -> In x (values_on ms d).
Proof.
  intro H. unfold values_on. change x with (fst (x, d)). apply in_map.
  apply filter_In. split; [ assumption | apply Z.eqb_refl ].
Qed.

Lemma is_maximum_one (v : pyval) : is_real v = true -> is_maximum v [v].
Proof.
  intro R. split; [ left; reflexivity | ].
  constructor; [ apply py_le_refl; assumption | constructor ].
Qed.

(** The aggregate of a day once one more value is merged into it. *)
Lemma is_maximum_merge (vs : list pyval) (old v m' : pyval) :
  Forall (fun x => is_real x = true) vs -> is_real v = true ->
  is_maximum old vs -> py_max2 v old = Return m' ->
  is_maximum m' (vs ++ [v]).
Proof.
  intros Rs Rv [Hin Hall] E.
  assert (Ro : is_real old = true) by (rewrite Forall_forall in Rs; auto).
  destruct (py_max2_real v old m' Rv Ro E) as (Hm & Lv & Lo).
  assert (Rm : is_real m' = true) by (destruct Hm; subst; assumption).
  split.
  - apply in_app_iff. destruct Hm; subst; [ right; left; reflexivity | left; assumption ].
  - apply Forall_app. split; [ | constructor; [ assumption | constructor ] ].
    rewrite Forall_forall in *. intros x Hx.
    apply py_le_trans with (b := old); auto.
Qed.

Section RollingMaximum.
Import DailyHistory.

Variable N : Z.
Hypothesis N_positive : 0 < N.
Variable now : day.

Definition reals (ms : list (pyval * Z)) : Prop :=
  Forall (fun x => is_real (fst x) = true) ms.

(** How the deque [ds] and the dict follow the run [ms] fed so far: the
    retained days are fed days, strictly increasing, at most [N], ending
    with the latest day fed; a fed day is dropped only when [N] later
    days are retained; and each aggregate is a maximum of the values fed
    for its day. *)
Record tracks (ms : list (pyval * Z)) (ds : list Z) (dict : list (Z * pyval))
  : Prop := {
  tr_keys : dict_keys dict = ds;
  tr_sorted : StronglySorted Z.lt ds;
  tr_length : Z.of_nat (List.length ds) <= N;
  tr_last : last_item ds = last_item (days_fed ms);
  tr_fed : forall d, In d ds -> In d (days_fed ms);
  tr_dropped : forall d, In d (days_fed ms) -> ~ In d ds ->
               Z.of_nat (List.length ds) = N /\ forall d', In d' ds -> d < d';
  tr_aggregate : forall d x, dict_get Z.eqb d dict = Some x ->
                 is_maximum x (values_on ms d)
}.

Lemma values_on_real (ms : list (pyval * Z)) (d : Z) :
  reals ms -> Forall (fun x => is_real x = true) (values_on ms d).
Proof.
  unfold reals. rewrite !Forall_forall. intros R x Hx.
  apply values_on_fed in Hx. apply (R (x, d) Hx).
Qed.

Lemma tracks_real_aggregates ms ds dict :
  reals ms -> tracks ms ds dict ->
  Forall (fun x => is_real x = true) (dict_values dict).
Proof.
  intros R T. rewrite Forall_forall. intros x Hx.
  unfold dict_values in Hx. apply in_map_iff in Hx.
  destruct Hx as ([k x'] & <- & Hin). simpl.
  assert (G : dict_get Z.eqb k dict = Some x').
  { apply in_dict_get; [ apply Z.eqb_eq | | assumption ].
    rewrite (tr_keys _ _ _ T). apply increasing_NoDup, (tr_sorted _ _ _ T). }
  destruct (tr_aggregate _ _ _ T _ _ G) as [Hv _].
  pose proof (values_on_real ms k R) as F. rewrite Forall_forall in F. auto.
Qed.

Lemma reals_numbers (dict : list (Z * pyval)) :
  Forall (fun x => is_real x = true) (dict_values dict) -> numbers dict.
Proof.
  unfold numbers. rewrite !Forall_forall. intros F x Hx.
  apply is_real_number. auto.
Qed.

Lemma tracks_le_last ms ds dict (c : Z) :
  tracks ms ds dict -> last_item ds = Some c ->
  forall d, In d (days_fed ms) -> d <= c.
Proof.
  intros T HL d Hd.
  destruct (in_dec Z.eq_dec d ds) as [Hin | Hout].
  - pose proof (increasing_le_last _ _ (tr_sorted _ _ _ T) HL) as F.
    rewrite Forall_forall in F. auto.
  - destruct (tr_dropped _ _ _ T d Hd Hout) as [_ Hlt].
    specialize (Hlt c (last_item_in _ _ HL)). lia.
Qed.

Lemma days_fed_snoc (ms : list (pyval * Z)) (v : pyval) (d : Z) :
  days_fed (ms ++ [(v, d)]) = days_fed ms ++ [d].
Proof. unfold days_fed. rewrite map_app. reflexivity. Qed.

Lemma tracks_first (v : pyval) (d : Z) :
  is_real v = true -> tracks [(v, d)] [d] [(d, v)].
Proof.
  intro R. constructor; simpl.
  - reflexivity.
  - repeat constructor.
  - lia.
  - reflexivity.
  - auto.
  - intros d0 [ <- | [] ] H. tauto.
  - intros d0 x. unfold values_on. simpl.
    destruct (d0 =? d) eqn:E; [ | discriminate ].
    apply Z.eqb_eq in E; subst. rewrite Z.eqb_refl.
    intro H; injection H as <-. apply is_maximum_one; assumption.
Qed.

Lemma tracks_same_day ms ds dict (v old m' : pyval) (d : Z) :
  reals ms -> is_real v = true -> tracks ms ds dict ->
  last_item ds = Some d ->
  dict_get Z.eqb d dict = Some old -> py_max2 v old = Return m' ->
  tracks (ms ++ [(v, d)]) ds (dict_set Z.eqb d m' dict).
Proof.
  intros R Rv T HL Hold E.
  assert (Hd : In d ds) by (apply last_item_in; assumption).
  constructor.
  - rewrite dict_set_keys_present; [ apply T | apply Z.eqb_eq | ].
    rewrite (tr_keys _ _ _ T). assumption.
  - apply T.
  - apply T.
  - rewrite days_fed_snoc, last_item_app. assumption.
  - intros d0 H0. rewrite days_fed_snoc. apply in_app_iff.
    left. apply (tr_fed _ _ _ T). assumption.
  - intros d0 H0 Hout. rewrite days_fed_snoc in H0. apply in_app_iff in H0.
    destruct H0 as [H0 | [ <- | [] ]]; [ | contradiction ].
    apply (tr_dropped _ _ _ T); assumption.
  - intros d0 x. rewrite (dict_get_set Z.eqb Z.eqb_eq), values_on_snoc.
    destruct (d0 =? d) eqn:E0.
    + apply Z.eqb_eq in E0; subst d0. rewrite Z.eqb_refl.
      intro H; injection H as <-.
      apply is_maximum_merge with (old := old); auto.
      * apply values_on_real; assumption.
      * apply (tr_aggregate _ _ _ T); assumption.
    + rewrite Z.eqb_sym, E0. apply (tr_aggregate _ _ _ T).
Qed.

Lemma tracks_later_day_evict ms oldest rest x0 kept (v : pyval) (c d : Z) :
  is_real v = true -> tracks ms (oldest :: rest) ((oldest, x0) :: kept) ->
  last_item (oldest :: rest) = Some c -> c < d ->
  Z.of_nat (List.length (oldest :: rest)) = N ->
  tracks (ms ++ [(v, d)]) (rest ++ [d]) (dict_set Z.eqb d v kept).
Proof.
  intros Rv T HL Hcd Hfull.
  pose proof (tr_sorted _ _ _ T) as S.
  pose proof (tr_keys _ _ _ T) as Hk. simpl in Hk. injection Hk as Hk.
  assert (Fresh : ~ In d (oldest :: rest))
    by (eapply later_day_is_fresh; eassumption).
  assert (Fresh' : ~ In d (dict_keys kept))
    by (rewrite Hk; intro; apply Fresh; right; assumption).
  assert (NotFed : ~ In d (days_fed ms)).
  { intro H. pose proof (tracks_le_last _ _ _ c T HL d H). lia. }
  assert (Hold : ~ In oldest rest).
  { inversion S as [ | ? ? _ F ]; subst. intro Hin.
    rewrite Forall_forall in F. specialize (F _ Hin). lia. }
  constructor.
  - rewrite (dict_set_fresh Z.eqb Z.eqb_eq) by assumption.
    rewrite dict_keys_app, Hk. reflexivity.
  - exact (increasing_tail_snoc oldest rest c d S HL Hcd).
  - rewrite length_app. simpl in Hfull |- *. lia.
  - rewrite days_fed_snoc, !last_item_app. reflexivity.
  - intros d0 H0. rewrite days_fed_snoc. apply in_app_iff.
    apply in_app_iff in H0. destruct H0 as [H0 | H0]; [ left | right; assumption ].
    apply (tr_fed _ _ _ T). right; assumption.
  - intros d0 H0 Hout. rewrite days_fed_snoc in H0. apply in_app_iff in H0.
    rewrite in_app_iff in Hout.
    destruct H0 as [H0 | [ <- | [] ]]; [ | simpl in Hout; tauto ].
    split; [ rewrite length_app; simpl in Hfull |- *; lia | ].
    intros d' Hd'. apply in_app_iff in Hd'.
    assert (Hc : In c (oldest :: rest)) by (apply last_item_in; assumption).
    destruct (Z.eq_dec d0 oldest) as [-> | Hne].
    + destruct Hd' as [Hd' | [ <- | [] ]].
      * inversion S as [ | ? ? _ F ]; subst.
        rewrite Forall_forall in F. auto.
      * pose proof (increasing_le_last _ _ S HL) as F.
        rewrite Forall_forall in F. specialize (F oldest (or_introl eq_refl)). lia.
    + assert (Hout' : ~ In d0 (oldest :: rest)) by (simpl; intuition congruence).
      destruct (tr_dropped _ _ _ T d0 H0 Hout') as [_ Hlt].
      destruct Hd' as [Hd' | [ <- | [] ]].
      * apply Hlt. right; assumption.
      * specialize (Hlt c Hc). lia.
  - intros d0 x. rewrite (dict_get_set Z.eqb Z.eqb_eq), values_on_snoc.
    destruct (d0 =? d) eqn:E0.
    + apply Z.eqb_eq in E0; subst d0. rewrite Z.eqb_refl.
      intro H; injection H as <-.
      rewrite (values_on_absent _ _ NotFed). apply is_maximum_one; assumption.
    + rewrite Z.eqb_sym, E0. intro G.
      apply (tr_aggregate _ _ _ T). simpl.
      destruct (d0 =? oldest) eqn:E1; [ | assumption ].
      apply Z.eqb_eq in E1; subst d0. exfalso.
      apply dict_get_in in G; [ | apply Z.eqb_eq ].
      apply Hold. rewrite <- Hk.
      change oldest with (fst (oldest, x)). apply in_map. assumption.
Qed.

Lemma tracks_later_day_room ms ds dict (v : pyval) (c d : Z) :
  is_real v = true -> tracks ms ds dict ->
  last_item ds = Some c -> c < d ->
  Z.of_nat (List.length ds) <> N ->
  tracks (ms ++ [(v, d)]) (ds ++ [d]) (dict_set Z.eqb d v dict).
Proof.
  intros Rv T HL Hcd Hroom.
  pose proof (tr_sorted _ _ _ T) as S.
  pose proof (tr_keys _ _ _ T) as Hk.
  pose proof (tr_length _ _ _ T) as Hlen.
  assert (Fresh : ~ In d ds) by (eapply later_day_is_fresh; eassumption).
  assert (NotFed : ~ In d (days_fed ms)).
  { intro H. pose proof (tracks_le_last _ _ _ c T HL d H). lia. }
  constructor.
  - rewrite (dict_set_fresh Z.eqb Z.eqb_eq) by (rewrite Hk; assumption).
    rewrite dict_keys_app, Hk. reflexivity.
  - exact (increasing_snoc ds c d S HL Hcd).
  - rewrite length_app. simpl. lia.
  - rewrite days_fed_snoc, !last_item_app. reflexivity.
  - intros d0 H0. rewrite days_fed_snoc. apply in_app_iff.
    apply in_app_iff in H0. destruct H0 as [H0 | H0]; [ left | right; assumption ].
    apply (tr_fed _ _ _ T). assumption.
  - intros d0 H0 Hout. rewrite days_fed_snoc in H0. apply in_app_iff in H0.
    rewrite in_app_iff in Hout.
    destruct H0 as [H0 | [ <- | [] ]]; [ | simpl in Hout; tauto ].
    assert (Hout' : ~ In d0 ds) by tauto.
    destruct (tr_dropped _ _ _ T d0 H0 Hout') as [Hfull _]. contradiction.
  - intros d0 x. rewrite (dict_get_set Z.eqb Z.eqb_eq), values_on_snoc.
    destruct (d0 =? d) eqn:E0.
    + apply Z.eqb_eq in E0; subst d0. rewrite Z.eqb_refl.
      intro H; injection H as <-.
      rewrite (values_on_absent _ _ NotFed). apply is_maximum_one; assumption.
    + rewrite Z.eqb_sym, E0. apply (tr_aggregate _ _ _ T).
Qed.

(** One more measurement, for the latest day fed or a later one. *)
Lemma feed_step ms ds dict m (v : pyval) (d : Z) :
  ms <> [] -> reals ms -> is_real v = true -> tracks ms ds dict ->
  py_max (dict_values dict) = Return m ->
  Forall (fun d0 => d0 <= d) (days_fed ms) ->
  exists ds' dict' m',
    add_measurement now v (Some d) (mk N (Some ds) dict m)
    = (mk N (Some ds') dict' m', Return tt) /\
    tracks (ms ++ [(v, d)]) ds' dict' /\
    py_max (dict_values dict') = Return m'.
Proof.
  intros Hms R Rv T Hmax Hle.
  assert (Hv := is_real_number _ Rv).
  assert (Hd : day_of now (Some d) = d) by reflexivity.
  destruct (last_item_some (days_fed ms)) as [c Hc].
  { destruct ms; [ congruence | discriminate ]. }
  pose proof (tr_last _ _ _ T) as HL. rewrite Hc in HL.
  assert (Hcd : c <= d).
  { rewrite Forall_forall in Hle. apply Hle, last_item_in. assumption. }
  pose proof (reals_numbers _ (tracks_real_aggregates _ _ _ R T)) as Hn.
  pose proof (tr_keys _ _ _ T) as Hk.
  destruct (Z.eq_dec d c) as [-> | Hne].
  - destruct (dict_get_some Z.eqb Z.eqb_eq c dict) as [old Hold].
    { rewrite Hk. apply last_item_in; assumption. }
    destruct (py_max2_number v old Hv (numbers_get _ _ _ Hn Hold)) as (m' & E2 & Hm').
    assert (Nm' : isinstance_number m' = true).
    { destruct Hm'; subst; eauto using numbers_get. }
    destruct (py_max_number _ (dict_set_not_empty c m' dict)
                (numbers_set c _ _ Hn Nm')) as (mx & Emx & _).
    exists ds, (dict_set Z.eqb c m' dict), mx. split; [ | split ].
    + eapply add_same_day; eassumption.
    + eapply tracks_same_day; eassumption.
    + assumption.
  - assert (Hgt : c < d) by lia.
    destruct (Z.eq_dec (Z.of_nat (List.length ds)) N) as [Hfull | Hroom].
    + destruct ds as [ | oldest rest ]; [ discriminate | ].
      destruct dict as [ | [a x0] kept ]; [ discriminate | ].
      assert (a = oldest) by (simpl in Hk; congruence); subst a.
      assert (Hn' : numbers kept) by (inversion Hn; assumption).
      destruct (py_max_number _ (dict_set_not_empty d v kept)
                  (numbers_set d _ _ Hn' Hv)) as (mx & Emx & _).
      assert (Hdel := dict_del_head Z.eqb Z.eqb_eq oldest x0 kept).
      exists (rest ++ [d]), (dict_set Z.eqb d v kept), mx. split; [ | split ].
      * eapply add_later_day_evict; eassumption.
      * eapply tracks_later_day_evict; eassumption.
      * assumption.
    + destruct (py_max_number _ (dict_set_not_empty d v dict)
                  (numbers_set d _ _ Hn Hv)) as (mx & Emx & _).
      exists (ds ++ [d]), (dict_set Z.eqb d v dict), mx. split; [ | split ].
      * eapply add_later_day_room; eassumption.
      * eapply tracks_later_day_room; eassumption.
      * assumption.
Qed.

Lemma feed_snoc (ms : list (pyval * Z)) (v : pyval) (d : Z) (h : t) :
  feed now (ms ++ [(v, d)]) h
  = match feed now ms h with
    | (h', Return _) => add_measurement now v (Some d) h'
    | (h', Raise e) => (h', Raise e)
    end.
Proof.
  unfold feed. rewrite for_each_app.
  destruct (for_each ms _ h) as [h' [ [] | e ]]; [ | reflexivity ].
  rewrite for_each_one. reflexivity.
Qed.

(** A run of real numbers in non-decreasing day order is taken in whole:
    no call raises, and the history tracks the run. *)
Lemma feed_tracks (ms : list (pyval * Z)) :
  ms <> [] -> reals ms -> StronglySorted Z.le (days_fed ms) ->
  exists ds dict m,
    feed now ms (__init__ N) = (mk N (Some ds) dict m, Return tt) /\
    tracks ms ds dict /\
    py_max (dict_values dict) = Return m.
Proof.
  induction ms as [ | [v d] ms IH ] using rev_ind; [ congruence | ].
  intros _ R S.
  unfold reals in R. apply Forall_app in R. destruct R as [R Rv].
  inversion Rv as [ | ? ? Rv' _ ]; subst. simpl in Rv'.
  rewrite days_fed_snoc in S. apply nondecreasing_snoc in S.
  destruct S as [S Hle].
  rewrite feed_snoc.
  destruct ms as [ | x ms' ].
  - change (feed now [] (__init__ N)) with (__init__ N, Return tt).
    cbn iota.
    exists [d], [(d, v)], v. split; [ | split ].
    + apply add_first_day; [ reflexivity | apply is_real_number; assumption | lia ].
    + apply tracks_first. assumption.
    + reflexivity.
  - destruct IH as (ds & dict & m & Hrun & T & Hmax); [ discriminate | assumption.. | ].
    rewrite Hrun.
    apply feed_step; try assumption. discriminate.
Qed.

Lemma filter_length_le {A : Type} (f : A -> bool) (l : list A) :
  (List.length (filter f l) <= List.length l)%nat.
Proof.
  induction l as [ | a l IH]; simpl; [ lia | ].
  destruct (f a); simpl; lia.
Qed.

Lemma filter_length_lt {A : Type} (f : A -> bool) (l : list A) (x : A) :
  In x l -> f x = false -> (List.length (filter f l) < List.length l)%nat.
Proof.
  induction l as [ | a l IH]; simpl; [ tauto | ].
  intros [ -> | Hin ] Hf.
  - rewrite Hf. pose proof (filter_length_le f l). lia.
  - specialize (IH Hin Hf). destruct (f a); simpl; lia.
Qed.

(** The retained days are the [N] latest distinct days fed. *)
Lemma retained_iff_among_latest ms ds dict (d : Z) :
  tracks ms ds dict -> In d (days_fed ms) ->
  (among_latest N ms d = true <-> In d ds).
Proof.
  intros T Hfed. unfold among_latest. rewrite Z.ltb_lt.
  pose proof (tr_length _ _ _ T) as Hlen.
  split.
  - intro Hfew. destruct (in_dec Z.eq_dec d ds) as [Hin | Hout]; [ assumption | ].
    exfalso.
    destruct (tr_dropped _ _ _ T d Hfed Hout) as [Hfull Hlt].
    assert (Hincl : incl ds (later_days ms d)).
    { intros d' Hd'. unfold later_days. apply nodup_In, filter_In.
      split; [ apply (tr_fed _ _ _ T); assumption | ].
      apply Z.ltb_lt. auto. }
    pose proof (NoDup_incl_length (increasing_NoDup _ (tr_sorted _ _ _ T)) Hincl).
    lia.
  - intro Hin.
    assert (Hincl : incl (later_days ms d) (filter (fun d' => d <? d') ds)).
    { intros d' Hd'. unfold later_days in Hd'.
      apply nodup_In, filter_In in Hd'. destruct Hd' as [Hd' Hlt].
      apply filter_In. split; [ | assumption ].
      destruct (in_dec Z.eq_dec d' ds) as [ | Hout ]; [ assumption | ].
      destruct (tr_dropped _ _ _ T d' Hd' Hout) as [_ Hall].
      specialize (Hall d Hin). apply Z.ltb_lt in Hlt. lia. }
    pose proof (NoDup_incl_length (NoDup_nodup Z.eq_dec _) Hincl) as H1.
    pose proof (filter_length_lt (fun d' => d <? d') ds d Hin (Z.ltb_irrefl d)) as H2.
    unfold later_days in *. lia.
Qed.

(** C1, as the code has it: a history built with [max_days = N > 0] takes
    any run of real numbers fed in non-decreasing day order without
    raising; [max] is null before the first of them and afterwards a
    maximum of the values fed for the [N] latest distinct days fed (the
    days that have fewer than [N] distinct fed days after them).  Every
    prefix of such a run is such a run, so this holds after each call. *)
Theorem max_is_maximum_of_latest_days (ms : list (pyval * Z)) :
  reals ms -> StronglySorted Z.le (days_fed ms) ->
  exists h,
    feed now ms (__init__ N) = (h, Return tt) /\
    (ms = [] -> max h = PNone) /\
    (ms <> [] -> is_maximum (max h) (values_of_latest_days N ms)).
Proof.
  intros R S.
  destruct ms as [ | x ms' ] eqn:Ems.
  { exists (__init__ N). split; [ reflexivity | ].
    split; [ reflexivity | congruence ]. }
  rewrite <- Ems in *. assert (Hms : ms <> []) by (subst; discriminate).
  clear Ems x ms'.
  destruct (feed_tracks ms Hms R S) as (ds & dict & m & Hrun & T & Hmax).
  exists (mk N (Some ds) dict m). split; [ assumption | ].
  split; [ congruence | intros _ ]. simpl.
  pose proof (tracks_real_aggregates _ _ _ R T) as Rd.
  destruct (py_max_real _ _ Rd Hmax) as [Hin Hall].
  assert (ND : NoDup (dict_keys dict)).
  { rewrite (tr_keys _ _ _ T). apply increasing_NoDup, (tr_sorted _ _ _ T). }
  assert (Hin' := Hin). unfold dict_values in Hin'. apply in_map_iff in Hin'.
  destruct Hin' as ([k x] & Hx & Hkx). simpl in Hx; subst x.
  assert (Hk : In k ds).
  { rewrite <- (tr_keys _ _ _ T).
    change k with (fst (k, m)). apply in_map. assumption. }
  pose proof (in_dict_get Z.eqb Z.eqb_eq _ _ _ ND Hkx) as G.
  destruct (tr_aggregate _ _ _ T _ _ G) as [Hm _].
  split.
  - unfold values_of_latest_days. change m with (fst (m, k)). apply in_map.
    apply filter_In. split; [ apply values_on_fed; assumption | ].
    simpl. apply (retained_iff_among_latest ms ds dict k T); [ | assumption ].
    apply (tr_fed _ _ _ T). assumption.
  - rewrite Forall_forall. intros x Hx.
    unfold values_of_latest_days in Hx. apply in_map_iff in Hx.
    destruct Hx as ([x' d] & Hxx & Hf). simpl in Hxx; subst x'.
    apply filter_In in Hf. destruct Hf as [Hfed Hlatest]. simpl in Hlatest.
    assert (Hd : In d ds).
    { apply (retained_iff_among_latest ms ds dict d T); [ | assumption ].
      unfold days_fed. change d with (snd (x, d)). apply in_map. assumption. }
    destruct (dict_get_some Z.eqb Z.eqb_eq d dict) as [y Hy].
    { rewrite (tr_keys _ _ _ T). assumption. }
    destruct (tr_aggregate _ _ _ T _ _ Hy) as [Hyin Hyall].
    rewrite Forall_forall in Hyall, Hall, Rd.
    assert (Hyv : In y (dict_values dict)).
    { change y with (snd (d, y)). apply in_map.
      apply (dict_get_in Z.eqb Z.eqb_eq). assumption. }
    apply py_le_trans with (b := y); auto.
    + unfold reals in R. rewrite Forall_forall in R. apply (R (x, d) Hfed).
    + apply Hyall. apply fed_values_on. assumption.
Qed.

End RollingMaximum.

(** The scenario of the spec: [max_days = 3]; (10, day 1), (15, day 1),
    (5, day 2), (20, day 3), (3, day 4). *)
Definition scenario_run : list (pyval * Z) :=
  [(PInt 10, 1); (PInt 15, 1); (PInt 5, 2); (PInt 20, 3); (PInt 3, 4)].

Example scenario_max_days_3 :
  feed 0 scenario_run (DailyHistory.__init__ 3)
  = (DailyHistory.mk 3 (Some [2; 3; 4]) [(2, PInt 5); (3, PInt 20); (4, PInt 3)]
       (PInt 20), Return tt).
Proof. reflexivity. Qed.

Lemma max_is_maximum_of_latest_days_witness :
  exists h,
    feed 0 scenario_run (DailyHistory.__init__ 3) = (h, Return tt) /\
    (scenario_run = [] -> DailyHistory.max h = PNone) /\
    (scenario_run <> [] ->
     is_maximum (DailyHistory.max h) (values_of_latest_days 3 scenario_run)).
Proof.
  apply (max_is_maximum_of_latest_days 3).
  - reflexivity.
  - unfold reals, scenario_run. repeat constructor.
  - unfold scenario_run, days_fed. simpl.
    repeat (constructor; [ | repeat (constructor; [ lia | ]); constructor ]).
    constructor.
Defined.

(** C1 as the spec words it fails when fed days are far apart: with
    [max_days = 3], after 100 on day 1 and 5 on day 10, the only value
    within the 3 days up to day 10 is 5, and [max] is 100. *)
Lemma max_ignores_calendar_gaps :
  let ms := [(PInt 100, 1); (PInt 5, 10)] in
  exists h,
    feed 0 ms (DailyHistory.__init__ 3) = (h, Return tt) /\
    DailyHistory.max h = PInt 100 /\
    values_within_days 3 ms = [PInt 5] /\
    ~ is_maximum (DailyHistory.max h) (values_within_days 3 ms).
Proof.
  eexists. split; [ reflexivity | ]. split; [ reflexivity | ].
  split; [ reflexivity | ].
  intros [Hin _]. simpl in Hin. destruct Hin as [H | []]. discriminate.
Qed.

(** As long as no number is fed the history stays new: [max] is null. *)
Lemma only_non_numbers_leave_history_new (N : Z) (now : day)
    (ms : list (pyval * Z)) :
  Forall (fun x => isinstance_number (fst x) = false) ms ->
  feed now ms (DailyHistory.__init__ N) = (DailyHistory.__init__ N, Return tt).
Proof.
  unfold feed. induction 1 as [ | x ms Hx _ IH]; simpl; [ reflexivity | ].
  unfold bind. rewrite add_not_a_number by assumption. exact IH.
Qed.

Lemma feed_reachable (N : Z) (now : day) (ms : list (pyval * Z)) :
  forall h, reachable N h -> reachable N (fst (feed now ms h)).
Proof.
  unfold feed. induction ms as [ | x ms IH]; intros h R; simpl.
  - assumption.
  - unfold bind.
    pose proof (reach_add N h now (fst x) (Some (snd x)) R) as R'.
    destruct (DailyHistory.add_measurement now (fst x) (Some (snd x)) h)
      as [h' [ [] | e ]]; simpl in R'.
    + apply IH. assumption.
    + assumption.
Qed.

(** The scenario before its last measurement: days 1, 2, 3 are retained. *)
Definition full_history : DailyHistory.t :=
  fst (feed 0 [(PInt 10, 1); (PInt 15, 1); (PInt 5, 2); (PInt 20, 3)]
         (DailyHistory.__init__ 3)).

Lemma retained_days_increasing_and_bounded_witness :
  StronglySorted Z.lt [1; 2; 3] /\ NoDup [1; 2; 3] /\
  Z.of_nat (List.length [1; 2; 3]) <= 3 /\
  exists (x : pyval) (kept : list (Z * pyval)) (mx : pyval),
    DailyHistory._max_dict full_history = (1, x) :: kept /\
    ~ In 1 (dict_keys kept) /\
    DailyHistory.add_measurement 0 (PInt 3) (Some 4) full_history
    = (DailyHistory.mk 3 (Some ([2; 3] ++ [4])) (kept ++ [(4, PInt 3)]) mx,
       Return tt).
Proof.
  destruct (retained_days_increasing_and_bounded 3 full_history [1; 2; 3])
    as (A & B & C & D).
  - reflexivity.
  - apply feed_reachable, reach_new.
  - reflexivity.
  - split; [ exact A | ]. split; [ exact B | ]. split; [ exact C | ].
    apply (D 0 (PInt 3) (Some 4) 1 3 [2; 3]); reflexivity.
Defined.

(* ===================================================================== *)
(** * Reasoning about methods                                             *)
(* ===================================================================== *)

Section Triples.
Context {S : Type}.

(** From a state satisfying [Pre], the method ends in a state satisfying
    [Post] when it returns and [Exc] when it raises. *)
Definition triple {A : Type} (Pre : S -> Prop) (m : M S A)
    (Post : A -> S -> Prop) (Exc : exn -> S -> Prop) : Prop :=
  forall s, Pre s ->
    match m s with
    | (s', Return a) => Post a s'
    | (s', Raise e) => Exc e s'
    end.

(** [P] holds after the method, however it ends, if it held before. *)
Definition keeps {A : Type} (P : S -> Prop) (m : M S A) : Prop :=
  triple P m (fun _ => P) (fun _ => P).

Lemma keeps_fst {A : Type} (P : S -> Prop) (m : M S A) (s : S) :
  keeps P m -> P s -> P (fst (m s)).
Proof.
  intros K H. specialize (K s H). destruct (m s) as [s' [a | e]]; exact K.
Qed.

Lemma triple_bind {A B : Type} (Pre : S -> Prop) (Mid : A -> S -> Prop)
    (m : M S A) (k : A -> M S B) (Post : B -> S -> Prop) (Exc : exn -> S -> Prop) :
  triple Pre m Mid Exc ->
  (forall a, triple (Mid a) (k a) Post Exc) ->
  triple Pre (bind m k) Post Exc.
Proof.
  intros Hm Hk s Hs. unfold bind. specialize (Hm s Hs).
  destruct (m s) as [s' [a | e]]; [ apply Hk; assumption | assumption ].
Qed.

Lemma triple_weaken {A : Type} (Pre Pre' : S -> Prop) (m : M S A)
    (Post : A -> S -> Prop) (Exc : exn -> S -> Prop) :
  (forall s, Pre' s -> Pre s) -> triple Pre m Post Exc -> triple Pre' m Post Exc.
Proof. intros W H s Hs. apply H, W, Hs. Qed.

Lemma triple_ret {A : Type} (Pre : S -> Prop) (a : A)
    (Post : A -> S -> Prop) (Exc : exn -> S -> Prop) :
  (forall s, Pre s -> Post a s) -> triple Pre (ret a) Post Exc.
Proof. intros H s Hs. apply H, Hs. Qed.

Lemma triple_raise {A : Type} (Pre : S -> Prop) (e : exn)
    (Post : A -> S -> Prop) (Exc : exn -> S -> Prop) :
  (forall s, Pre s -> Exc e s) -> triple Pre (@raise S A e) Post Exc.
Proof. intros H s Hs. apply H, Hs. Qed.

Lemma triple_get (Pre : S -> Prop) (Exc : exn -> S -> Prop) :
  triple Pre get (fun a s => Pre s /\ a = s) Exc.
Proof. intros s Hs. simpl. auto. Qed.

Lemma triple_modify (Pre : S -> Prop) (f : S -> S)
    (Post : unit -> S -> Prop) (Exc : exn -> S -> Prop) :
  (forall s, Pre s -> Post tt (f s)) -> triple Pre (modify f) Post Exc.
Proof. intros H s Hs. apply H, Hs. Qed.

Lemma triple_eval {A : Type} (Pre : S -> Prop) (r : result A)
    (Exc : exn -> S -> Prop) :
  (forall e s, Pre s -> Exc e s) ->
  triple Pre (eval r) (fun a s => Pre s /\ r = Return a) Exc.
Proof. intros H s Hs. unfold eval. destruct r; auto. Qed.

Lemma triple_must {A : Type} (Pre : S -> Prop) (e : exn) (o : option A)
    (Exc : exn -> S -> Prop) :
  (forall s, Pre s -> Exc e s) ->
  triple Pre (must e o) (fun a s => Pre s /\ o = Some a) Exc.
Proof. intros H s Hs. unfold must. destruct o; simpl; auto. Qed.

Lemma keeps_for_each {A : Type} (P : S -> Prop) (l : list A)
    (body : A -> M S unit) :
  (forall x, In x l -> keeps P (body x)) -> keeps P (for_each l body).
Proof.
  induction l as [ | x l IH]; intro H; simpl.
  - apply triple_ret. auto.
  - apply triple_bind with (Mid := fun _ => P).
    + apply H. left; reflexivity.
    + intros _. apply IH. intros y Hy. apply H. right; assumption.
Qed.

End Triples.

(* ===================================================================== *)
(** * Facts about strings                                                 *)
(* ===================================================================== *)

Lemma prefix_iff (s t : string) :
  String.prefix s t = true <-> exists rest, t = (s ++ rest)%string.
Proof.
  revert t. induction s as [ | c s IH]; intro t; simpl.
  - split; [ intros _; exists t; reflexivity | intros _; destruct t; reflexivity ].
  - destruct t as [ | c' t ]; simpl.
    + split; [ discriminate | intros [rest H]; discriminate ].
    + destruct (Ascii.ascii_dec c c') as [ <- | Hne ].
      * rewrite IH. split; intros [rest H]; exists rest; congruence.
      * split; [ discriminate | intros [rest H]; congruence ].
Qed.

(** [str_in] is the substring test: the needle occurs somewhere in the
    haystack. *)
Lemma str_in_iff (needle haystack : string) :
  str_in needle haystack = true
  <-> exists before after, haystack = (before ++ needle ++ after)%string.
Proof.
  induction haystack as [ | c h IH]; cbn [str_in].
  - rewrite orb_false_r, prefix_iff. split.
    + intros [rest H]. exists "", rest. exact H.
    + intros (before & after & H). destruct before; [ | discriminate ].
      exists after. exact H.
  - rewrite orb_true_iff, prefix_iff, IH. split.
    + intros [ [rest H] | (before & after & H) ].
      * exists "", rest. exact H.
      * exists (String c before), after. simpl. congruence.
    + intros (before & after & H). destruct before as [ | c' before ].
      * left. exists after. exact H.
      * right. exists before, after. simpl in H. congruence.
Qed.

Lemma string_eqb_eq (a b : string) : (a =? b)%string = true <-> a = b.
Proof. apply String.eqb_eq. Qed.

(* ===================================================================== *)
(** * Plant: what the checks return                                       *)
(* ===================================================================== *)

Definition reading_names : list string := dict_keys READINGS.

Section PlantChecks.
Variable py_float : string -> option pyfloat.

Lemma check_min_result (p : Plant) (reading : string) (st : pyval) (s : string) :
  _check_min py_float p reading st = Return (Some s) ->
  s = (reading ++ " low")%string.
Proof.
  unfold _check_min.
  destruct (dict_get String.eqb reading (_readings p)) as [r | ]; [ | discriminate ].
  destruct (truthy (r_minimum r)); [ | discriminate ].
  destruct (float_of py_float (r_minimum r)); [ | discriminate ].
  destruct (py_lt _ _) as [ [ | ] | ]; congruence.
Qed.

Lemma check_max_result (p : Plant) (reading : string) (st : pyval) (s : string) :
  _check_max py_float p reading st = Return (Some s) ->
  s = (reading ++ " high")%string.
Proof.
  unfold _check_max.
  destruct (dict_get String.eqb reading (_readings p)) as [r | ]; [ | discriminate ].
  destruct (truthy (r_maximum r)); [ | discriminate ].
  destruct (float_of py_float (r_maximum r)); [ | discriminate ].
  destruct (py_gt _ _) as [ [ | ] | ]; congruence.
Qed.

(** The three shapes of a problem string. *)
Lemma check_reading_result (p : Plant) (reading : string) (s : string) :
  _check_reading py_float p reading = Return (Some s) ->
  exists r, dict_get String.eqb reading (_readings p) = Some r /\
    ((is_unavailable (r_state r) = true /\
      s = (reading ++ " " ++ STATE_UNAVAILABLE)%string) \/
     (is_unavailable (r_state r) = false /\
      (s = (reading ++ " low")%string \/ s = (reading ++ " high")%string))).
Proof.
  unfold _check_reading.
  destruct (dict_get String.eqb reading (_readings p)) as [r | ]; [ | discriminate ].
  intro H. exists r. split; [ reflexivity | ].
  destruct (is_unavailable (r_state r)).
  - left. split; [ reflexivity | congruence ].
  - right. split; [ reflexivity | ].
    assert (G : match _check_min py_float p reading (r_state r) with
                | Return low => or_else low (_check_max py_float p reading (r_state r))
                | Raise e => Raise e
                end = Return (Some s)).
    { destruct (r_state r); [ discriminate | exact H .. ]. }
    clear H. destruct (_check_min py_float p reading (r_state r)) as [low | ] eqn:Emin;
      [ | discriminate ].
    unfold or_else in G. destruct low as [l | ].
    + destruct (l =? "")%string.
      * right. eapply check_max_result; eassumption.
      * left. injection G as <-. eapply check_min_result; eassumption.
    + right. eapply check_max_result; eassumption.
Qed.

End PlantChecks.

(* ===================================================================== *)
(** * Plant: the states it can be in                                      *)
(* ===================================================================== *)

(** [None] or a number: not a string. *)
Definition none_or_number (v : pyval) : bool :=
  match v with
  | PStr _ => false
  | PNone | PInt _ | PFloat _ => true
  end.

(** Every reading of the plant is one of [READINGS] and its stored state
    is [None] or a number. *)
Definition readings_sound (d : list (string * Reading)) : Prop :=
  Forall (fun kv => In (fst kv) reading_names /\
                    none_or_number (r_state (snd kv)) = true) d.

(** The status is [None] (never computed), "ok" or "problem". *)
Definition status_sound (st : pyval) : Prop :=
  st = PNone \/ st = PStr STATE_OK \/ st = PStr STATE_PROBLEM.

Definition sound (p : Plant) : Prop :=
  readings_sound (_readings p) /\ status_sound (_state p).

(** A registry without entities named like the keys of a reading. *)
Definition no_entity_named_like_a_key (hass : Hass) : Prop :=
  Forall (fun key => states_get hass key = None) reading_keys.

(** The stored state of a reading, [None] when the plant has no such
    reading. *)
Definition reading_state (p : Plant) (reading : string) : pyval :=
  match dict_get String.eqb reading (_readings p) with
  | Some r => r_state r
  | None => PNone
  end.

Lemma Forall_dict_set {V : Type} (P : string * V -> Prop) (k : string) (v : V)
    (d : list (string * V)) :
  Forall P d -> P (k, v) -> Forall P (dict_set String.eqb k v d).
Proof.
  induction d as [ | [k0 v0] d IH]; simpl; intros F H.
  - constructor; [ assumption | constructor ].
  - inversion F; subst. destruct (k =? k0)%string eqn:E.
    + apply String.eqb_eq in E; subst. constructor; assumption.
    + constructor; auto.
Qed.

Lemma Forall_dict_get {V : Type} (P : string * V -> Prop) (k : string) (v : V)
    (d : list (string * V)) :
  Forall P d -> dict_get String.eqb k d = Some v -> P (k, v).
Proof.
  intros F H. apply (dict_get_in String.eqb String.eqb_eq) in H.
  rewrite Forall_forall in F. auto.
Qed.

Lemma readings_lookup_name (reading unit : string) :
  dict_get String.eqb reading READINGS = Some unit -> In reading reading_names.
Proof.
  intro H. apply (dict_get_in String.eqb String.eqb_eq) in H.
  unfold reading_names, dict_keys. change reading with (fst (reading, unit)).
  apply in_map. assumption.
Qed.

Ltac bind_get p := eapply triple_bind; [ apply triple_get | intro p ].

Section PlantInvariant.
Variable py_float : string -> option pyfloat.

Lemma keeps_add_reading (reading entity_id : string) :
  keeps sound (_add_reading reading entity_id).
Proof.
  unfold keeps, _add_reading. bind_get p0.
  eapply triple_bind;
    [ apply triple_must; intros s [H _]; exact H | intro unit ].
  apply triple_modify. intros s [[[Hr Hs] ->] Hunit].
  split; [ | exact Hs ]. simpl.
  apply Forall_dict_set; [ exact Hr | ]. simpl.
  split; [ eapply readings_lookup_name; eassumption | reflexivity ].
Qed.

Lemma keeps_associate_among (candidates : list string) (entity_id : string) :
  keeps sound (associate_among candidates entity_id).
Proof.
  unfold keeps. induction candidates as [ | reading candidates IH]; simpl.
  - apply triple_raise. auto.
  - destruct (str_in reading entity_id); [ | exact IH ].
    bind_get p0.
    eapply triple_bind with (Mid := fun _ => sound).
    { apply triple_modify. intros s [H ->]. exact H. }
    intros _. bind_get p1.
    eapply triple_bind with (Mid := fun _ => sound).
    + destruct (dict_get String.eqb reading (_readings p1)) as [r | ] eqn:E.
      * apply triple_modify. intros s [[Hr Hs] ->].
        split; [ | exact Hs ]. simpl.
        apply Forall_dict_set; [ exact Hr | ].
        apply (Forall_dict_get _ _ _ _ Hr E).
      * eapply triple_weaken; [ | apply keeps_add_reading ].
        intros s [H _]. exact H.
    + intros _. apply triple_ret. auto.
Qed.

Lemma keeps_the_reading (reading : string) : keeps sound (the_reading reading).
Proof.
  unfold keeps, the_reading. bind_get p0.
  eapply triple_weaken with (Pre := sound); [ intros s [H _]; exact H | ].
  unfold must. destruct (dict_get _ _ _); [ apply triple_ret | apply triple_raise ]; auto.
Qed.

(** Assigning one entry of a reading's dict, when the assignment leaves
    the stored state [None] or a number. *)
Lemma keeps_update_reading (reading : string) (f : Reading -> Reading) :
  (forall r, none_or_number (r_state r) = true ->
             none_or_number (r_state (f r)) = true) ->
  keeps sound (update_reading reading f).
Proof.
  intro Hf. unfold keeps, update_reading, the_reading.
  eapply triple_bind with (Mid := fun r s =>
    sound s /\ dict_get String.eqb reading (_readings s) = Some r).
  - bind_get p0.
    eapply triple_weaken with
      (Pre := fun s => sound s /\ p0 = s); [ auto | ].
    intros s [H ->]. unfold must.
    destruct (dict_get String.eqb reading (_readings s)) eqn:E; simpl; auto.
  - intro r. bind_get p1. apply triple_modify.
    intros s [[[Hr Hs] E] ->]. split; [ | exact Hs ]. simpl.
    apply Forall_dict_set; [ exact Hr | ].
    destruct (Forall_dict_get _ _ _ _ Hr E) as [Hname Hstate].
    split; [ exact Hname | apply Hf; exact Hstate ].
Qed.

Lemma keeps_brightness (hass : Hass) (value : pyval) (timestamp : option day) :
  keeps sound (brightness_add_measurement hass value timestamp).
Proof.
  intros p H. unfold brightness_add_measurement.
  destruct (DailyHistory.add_measurement _ _ _ _) as [h [ [] | e ]]; exact H.
Qed.

Lemma map_result_Forall2 {A B : Type} (f : A -> result B) (l : list A) (ys : list B) :
  map_result f l = Return ys -> Forall2 (fun x y => f x = Return y) l ys.
Proof.
  revert ys. induction l as [ | x l IH]; simpl; intros ys H.
  - injection H as <-. constructor.
  - destruct (f x) as [y | ] eqn:E; [ | discriminate ].
    destruct (map_result f l) as [ys' | ]; [ | discriminate ].
    injection H as <-. constructor; auto.
Qed.

(** The problem strings of the twelve bound checks do not contain
    "unavailable". *)
Lemma bound_problem_not_unavailable (reading : string) :
  In reading reading_names ->
  str_in STATE_UNAVAILABLE (reading ++ " low") = false /\
  str_in STATE_UNAVAILABLE (reading ++ " high") = false.
Proof.
  intro H. simpl in H.
  repeat (destruct H as [ <- | H ]; [ split; reflexivity | ]).
  contradiction.
Qed.

Lemma sound_check_not_unavailable (p : Plant) (reading s : string) :
  readings_sound (_readings p) ->
  _check_reading py_float p reading = Return (Some s) ->
  str_in STATE_UNAVAILABLE s = false.
Proof.
  intros Hr H. apply check_reading_result in H.
  destruct H as (r & E & H).
  destruct (Forall_dict_get _ _ _ _ Hr E) as [Hname Hstate]. simpl in *.
  destruct H as [ [Hu _] | [_ Hs] ].
  - destruct (r_state r); simpl in *; discriminate.
  - destruct (bound_problem_not_unavailable reading Hname).
    destruct Hs; subst; assumption.
Qed.

Lemma sound_problems_not_unavailable (p : Plant) (names : list string)
    (checks : list (option string)) :
  readings_sound (_readings p) ->
  map_result (_check_reading py_float p) names = Return checks ->
  Forall (fun s => str_in STATE_UNAVAILABLE s = false) (filter_not_none checks).
Proof.
  intros Hr H. apply map_result_Forall2 in H.
  induction H as [ | reading o names checks Hc _ IH]; simpl; [ constructor | ].
  destruct o as [s | ]; [ | exact IH ].
  constructor; [ | exact IH ].
  eapply sound_check_not_unavailable; eassumption.
Qed.

Lemma keeps_update_state : keeps sound (_update_state py_float).
Proof.
  unfold keeps, _update_state. bind_get p0.
  eapply triple_bind; [ apply triple_eval; intros e s [H _]; exact H | intro checks ].
  intros s [[[Hr Hs] ->] E].
  pose proof (sound_problems_not_unavailable _ _ _ Hr E) as F.
  destruct (filter_not_none checks) as [ | x problems ]; simpl.
  - split; [ exact Hr | right; left; reflexivity ].
  - split; [ exact Hr | ]. simpl.
    inversion F as [ | ? ? Hx _ ]; subst. simpl.
    unfold STATE_UNAVAILABLE in Hx |- *. rewrite Hx. simpl.
    right; right; reflexivity.
Qed.

Lemma keeps_state_changed (hass : Hass) (entity_id : string) (new_state : State) :
  keeps sound (state_changed py_float hass entity_id new_state).
Proof.
  unfold keeps, state_changed. bind_get p0.
  eapply triple_bind with (Mid := fun _ => sound).
  { eapply triple_weaken with (Pre := sound); [ intros s [H _]; exact H | ].
    destruct (dict_get String.eqb entity_id (_sensors p0)) as [r | ].
    - destruct (r =? "")%string;
        [ apply keeps_associate_among | apply triple_ret; auto ].
    - apply keeps_associate_among. }
  intro reading.
  eapply triple_bind with (Mid := fun _ => sound).
  { destruct (state new_state =? STATE_UNKNOWN)%string; [ apply triple_ret; auto | ].
    destruct (state new_state =? STATE_UNAVAILABLE)%string; [ | apply triple_ret; auto ].
    eapply triple_bind with (Mid := fun _ => sound);
      [ apply keeps_the_reading | intros _; apply triple_ret; auto ]. }
  intros [ | ]; [ apply triple_ret; auto | ].
  eapply triple_bind with (Mid := fun _ => sound).
  { unfold must. destruct (py_float (state new_state));
      [ apply triple_ret | apply triple_raise ]; auto. }
  intro f.
  eapply triple_bind with (Mid := fun v s => sound s /\ none_or_number v = true).
  { destruct (existsb _ _).
    - apply triple_ret. auto.
    - eapply triple_bind with (Mid := fun _ => sound).
      + unfold eval. intros s H. destruct (int_of_float f); exact H.
      + intro z. apply triple_ret. auto. }
  intro v.
  eapply triple_bind with (Mid := fun _ => sound).
  { intros s [H Hv]. apply (keeps_update_reading reading (with_state v)); [ | exact H ].
    intros r _. exact Hv. }
  intros _.
  eapply triple_bind with (Mid := fun _ => sound).
  { destruct (reading =? READING_LIGHT_LUX)%string; [ | apply triple_ret; auto ].
    eapply triple_bind with (Mid := fun _ => sound);
      [ apply keeps_the_reading | intro r; apply keeps_brightness ]. }
  intros _.
  eapply triple_bind with (Mid := fun _ => sound).
  { destruct (dict_get _ _ _) as [u | ]; [ | apply triple_ret; auto ].
    apply keeps_update_reading. intros r H. exact H. }
  intros _. apply keeps_update_state.
Qed.

End PlantInvariant.

(** What an observer of the readings and the status sees is the same in
    both plants: every stored state, the status, the problem description
    and the brightness history. *)
Definition same_observables (p0 p : Plant) : Prop :=
  (forall reading, reading_state p reading = reading_state p0 reading) /\
  _state p = _state p0 /\
  _problems p = _problems p0 /\
  _brightness_history p = _brightness_history p0.

Lemma same_observables_refl (p : Plant) : same_observables p p.
Proof. repeat split. Qed.

Lemma append_assoc (a b c : string) : ((a ++ b) ++ c = a ++ b ++ c)%string.
Proof. induction a as [ | x a IH]; simpl; [ reflexivity | f_equal; exact IH ]. Qed.

Lemma append_empty (a : string) : (a ++ "")%string = a.
Proof. induction a as [ | x a IH]; simpl; [ reflexivity | f_equal; exact IH ]. Qed.

Lemma unavailable_problem_mentions_it (reading : string) :
  str_in STATE_UNAVAILABLE (reading ++ " " ++ STATE_UNAVAILABLE) = true.
Proof.
  apply str_in_iff. exists (reading ++ " ")%string, "".
  rewrite append_empty, append_assoc. reflexivity.
Qed.

Lemma key_tested_first (hass : Hass) :
  no_entity_named_like_a_key hass ->
  existsb (fun sensor => negb (is_state hass sensor STATE_UNAVAILABLE)) reading_keys
  = true.
Proof.
  intro H. inversion H as [ | key keys Hkey _ ]; subst.
  simpl. unfold is_state at 1. rewrite Hkey. reflexivity.
Qed.

Section PlantReachable.
Variable py_float : string -> option pyfloat.

(** The plants a program can see: a constructed one, and what any call
    of [state_changed] (with a registry as above) or any back-filled
    history row leaves behind, whether the call returned or raised. *)
Inductive plant_reachable (config : Config) : Plant -> Prop :=
| reach_init (p : Plant) :
    __init__ config = Return p -> plant_reachable config p
| reach_state_changed (p : Plant) (hass : Hass) (entity_id : string)
    (new_state : State) :
    plant_reachable config p -> no_entity_named_like_a_key hass ->
    plant_reachable config
      (fst (state_changed py_float hass entity_id new_state p))
| reach_history_row (p : Plant) (hass : Hass) (value : Z) (last_updated : day) :
    plant_reachable config p ->
    plant_reachable config (fst (load_history_row hass value last_updated p)).

Lemma init_sound (config : Config) (p : Plant) :
  __init__ config = Return p -> sound p.
Proof.
  unfold __init__.
  match goal with |- match for_each ?l ?body ?blank with _ => _ end = _ -> _ =>
    assert (K : keeps sound (for_each l body));
    [ | assert (B : sound blank);
        [ | pose proof (keeps_fst sound _ blank K B) as H;
            destruct (for_each l body blank) as [p' [ [] | e ]];
            [ intro E; injection E as <-; exact H | discriminate ] ] ]
  end.
  - apply keeps_for_each. intros [reading entity_id] _.
    unfold keeps. bind_get p0.
    eapply triple_bind with (Mid := fun _ => sound).
    + apply triple_modify. intros s [H ->]. exact H.
    + intros _. apply keeps_add_reading.
  - split; [ constructor | left; reflexivity ].
Qed.

Lemma reachable_sound (config : Config) (p : Plant) :
  plant_reachable config p -> sound p.
Proof.
  induction 1 as [ p E | p hass e ns R IH G | p hass value ts R IH ].
  - eapply init_sound; eassumption.
  - apply keeps_fst; [ apply keeps_state_changed | exact IH ].
  - apply keeps_fst; [ apply keeps_brightness | exact IH ].
Qed.

Lemma keeps_same_add_absent_reading (p0 : Plant) (reading entity_id : string) :
  triple (fun p => same_observables p0 p /\
                   dict_get String.eqb reading (_readings p) = None)
         (_add_reading reading entity_id)
         (fun _ => same_observables p0) (fun _ => same_observables p0).
Proof.
  unfold _add_reading. bind_get p1.
  eapply triple_bind;
    [ apply triple_must; intros s [[H _] _]; exact H | intro unit ].
  apply triple_modify. intros s [[[(Hst & Hrest) Habs] ->] _].
  split; [ | exact Hrest ].
  intro r. rewrite <- Hst. unfold reading_state. simpl.
  rewrite (dict_get_set String.eqb String.eqb_eq).
  destruct (r =? reading)%string eqn:E; [ | reflexivity ].
  apply String.eqb_eq in E; subst. rewrite Habs. reflexivity.
Qed.

Lemma keeps_same_associate_among (p0 : Plant) (candidates : list string)
    (entity_id : string) :
  keeps (same_observables p0) (associate_among candidates entity_id).
Proof.
  unfold keeps. induction candidates as [ | reading candidates IH]; simpl.
  - apply triple_raise. auto.
  - destruct (str_in reading entity_id); [ | exact IH ].
    bind_get p1.
    eapply triple_bind with (Mid := fun _ => same_observables p0).
    { apply triple_modify. intros s [H ->]. exact H. }
    intros _. bind_get p2.
    eapply triple_bind with (Mid := fun _ => same_observables p0).
    + destruct (dict_get String.eqb reading (_readings p2)) as [r | ] eqn:E.
      * apply triple_modify. intros s [(Hst & Hrest) ->].
        split; [ | exact Hrest ].
        intro r'. rewrite <- Hst. unfold reading_state. simpl.
        rewrite (dict_get_set String.eqb String.eqb_eq).
        destruct (r' =? reading)%string eqn:E'; [ | reflexivity ].
        apply String.eqb_eq in E'; subst. rewrite E. reflexivity.
      * eapply triple_weaken; [ | apply keeps_same_add_absent_reading ].
        intros s [H ->]. split; assumption.
    + intros _. apply triple_ret. auto.
Qed.

(** With such a registry an "unavailable" update changes nothing an
    observer sees, whatever the other sensors of the reading report. *)
Lemma unavailable_changes_nothing (hass : Hass) (entity_id : string)
    (new_state : State) (p0 : Plant) :
  no_entity_named_like_a_key hass ->
  state new_state = STATE_UNAVAILABLE ->
  same_observables p0 (fst (state_changed py_float hass entity_id new_state p0)).
Proof.
  intros G Hst.
  apply (keeps_fst (same_observables p0)); [ | apply same_observables_refl ].
  unfold keeps, state_changed. rewrite Hst. bind_get p1.
  eapply triple_bind with (Mid := fun _ => same_observables p0).
  { eapply triple_weaken with (Pre := same_observables p0);
      [ intros s [H _]; exact H | ].
    destruct (dict_get String.eqb entity_id (_sensors p1)) as [r | ].
    - destruct (r =? "")%string;
        [ apply keeps_same_associate_among | apply triple_ret; auto ].
    - apply keeps_same_associate_among. }
  intro reading.
  eapply triple_bind with (Mid := fun b s => b = true /\ same_observables p0 s).
  { change (STATE_UNAVAILABLE =? STATE_UNKNOWN)%string with false.
    rewrite String.eqb_refl. cbn iota.
    eapply triple_bind with (Mid := fun _ => same_observables p0).
    - unfold the_reading. bind_get p2.
      intros s [H ->]. unfold must.
      destruct (dict_get _ _ _); exact H.
    - intros _. apply triple_ret. intros s H.
      split; [ apply key_tested_first; exact G | exact H ]. }
  intros [ | ].
  - apply triple_ret. intros s [_ H]. exact H.
  - intros s [H _]. discriminate.
Qed.

(** C9: in every plant built by the constructor and changed by
    [state_changed] calls whose registry has no entity named "sensors",
    "state", "unit_of_measurement", "minimum" or "maximum" (and by
    history back-fill), each reading's stored state is null or a number;
    an "unavailable" update is ignored whatever the sibling sensors
    report; no check yields "<category> unavailable" (nor any string
    mentioning it); and the status is not "unavailable". *)
Theorem stored_state_is_never_unavailable (config : Config) (p : Plant) :
  plant_reachable config p ->
  (forall reading, none_or_number (reading_state p reading) = true) /\
  (forall hass entity_id new_state,
     no_entity_named_like_a_key hass ->
     state new_state = STATE_UNAVAILABLE ->
     same_observables p
       (fst (state_changed py_float hass entity_id new_state p))) /\
  (forall reading s,
     _check_reading py_float p reading = Return (Some s) ->
     s <> (reading ++ " " ++ STATE_UNAVAILABLE)%string /\
     str_in STATE_UNAVAILABLE s = false) /\
  _state p <> PStr STATE_UNAVAILABLE.
Proof.
  intro R. destruct (reachable_sound config p R) as [Hr Hs].
  split; [ | split; [ | split ] ].
  - intro reading. unfold reading_state.
    destruct (dict_get String.eqb reading (_readings p)) as [r | ] eqn:E;
      [ | reflexivity ].
    apply (Forall_dict_get _ _ _ _ Hr E).
  - intros hass entity_id new_state. apply unavailable_changes_nothing.
  - intros reading s H.
    pose proof (sound_check_not_unavailable py_float p reading s Hr H) as Hno.
    split; [ | exact Hno ].
    intros ->. rewrite unavailable_problem_mentions_it in Hno. discriminate.
  - destruct Hs as [ -> | [ -> | -> ] ]; discriminate.
Qed.

End PlantReachable.

(* ===================================================================== *)
(** * Plant: bounds and status                                            *)
(* ===================================================================== *)

(** [v == 0] for a configured bound. *)
Definition equals_zero (v : pyval) : bool :=
  match v with
  | PInt z => z =? 0
  | PFloat (FFin q) => Qeq_bool q 0
  | PFloat _ | PNone | PStr _ => false
  end.

Lemma zero_is_falsy (v : pyval) : equals_zero v = true -> truthy v = false.
Proof.
  destruct v as [ | z | [ | | | q ] | s ]; simpl; try discriminate;
    intros ->; reflexivity.
Qed.

(** The problems collected from the checks of the readings [names], in
    that order: the strings of the checks that returned one. *)
Inductive collected (check : string -> result (option string))
  : list string -> list string -> Prop :=
| collected_nil : collected check [] []
| collected_none (reading : string) (names problems : list string) :
    check reading = Return None ->
    collected check names problems ->
    collected check (reading :: names) problems
| collected_problem (reading s : string) (names problems : list string) :
    check reading = Return (Some s) ->
    collected check names problems ->
    collected check (reading :: names) (s :: problems).

(** The problem string mentions "unavailable". *)
Definition mentions_unavailable (s : string) : Prop :=
  exists before after, s = (before ++ STATE_UNAVAILABLE ++ after)%string.

Lemma forallb_mentions (problems : list string) :
  forallb (str_in STATE_UNAVAILABLE) problems = true
  <-> Forall mentions_unavailable problems.
Proof.
  rewrite forallb_forall, Forall_forall.
  split; intros H s Hs.
  - apply str_in_iff, H, Hs.
  - apply str_in_iff. exact (H s Hs).
Qed.

Section PlantStatus.
Variable py_float : string -> option pyfloat.

Lemma collected_of_map_result (check : string -> result (option string))
    (names : list string) (checks : list (option string)) :
  map_result check names = Return checks ->
  collected check names (filter_not_none checks).
Proof.
  intro H. apply map_result_Forall2 in H.
  induction H as [ | reading o names checks Hc _ IH]; simpl.
  - constructor.
  - destruct o; [ apply collected_problem | apply collected_none ]; assumption.
Qed.

Lemma map_result_returns {A B : Type} (f : A -> result B) (l : list A) :
  (forall x, In x l -> exists y, f x = Return y) ->
  exists ys, map_result f l = Return ys.
Proof.
  induction l as [ | x l IH]; intro H; simpl.
  - eauto.
  - destruct (H x (or_introl eq_refl)) as [y ->].
    destruct IH as [ys ->]; [ intros; apply H; right; assumption | ].
    eauto.
Qed.

Lemma map_result_raises {A B : Type} (f : A -> result B) (l : list A) (ys : list B) :
  map_result f l = Return ys -> forall x, In x l -> exists y, f x = Return y.
Proof.
  intro H. apply map_result_Forall2 in H.
  induction H as [ | x y l ys Hxy _ IH]; intros x' Hin.
  - destruct Hin.
  - destruct Hin as [ <- | Hin ]; eauto.
Qed.

(** C7: a status recomputation returns exactly when the check of every
    reading returns; then, with the problems collected in the order of
    the readings: none gives status "ok" and the description "none"; some,
    all mentioning "unavailable", gives status "unavailable"; otherwise
    the status is "problem" and the description is the problems joined
    with ", ".  Nothing but status and description changes. *)
Theorem status_follows_problems (p : Plant) :
  ((exists p', _update_state py_float p = (p', Return tt)) <->
   (forall reading, In reading (dict_keys (_readings p)) ->
      exists o, _check_reading py_float p reading = Return o)) /\
  (forall p', _update_state py_float p = (p', Return tt) ->
   exists problems,
     collected (_check_reading py_float p) (dict_keys (_readings p)) problems /\
     p' = set_status (match _state p' with PStr st => st | _ => "" end)
                     (_problems p') p /\
     (problems = [] ->
        _state p' = PStr STATE_OK /\ _problems p' = PROBLEM_NONE) /\
     (problems <> [] -> Forall mentions_unavailable problems ->
        _state p' = PStr STATE_UNAVAILABLE) /\
     (problems <> [] -> ~ Forall mentions_unavailable problems ->
        _state p' = PStr STATE_PROBLEM /\
        _problems p' = String.concat ", " problems)).
Proof.
  unfold _update_state, bind, get, eval, modify.
  split; [ split | ].
  - intros [p' H].
    destruct (map_result _ _) as [checks | e] eqn:E; [ | discriminate ].
    eapply map_result_raises; eassumption.
  - intro H. destruct (map_result_returns _ _ H) as [checks ->].
    destruct (filter_not_none checks); eauto.
  - intros p' H.
    destruct (map_result _ _) as [checks | e] eqn:E; [ | discriminate ].
    exists (filter_not_none checks).
    split; [ apply collected_of_map_result; assumption | ].
    destruct (filter_not_none checks) as [ | s problems ] eqn:Ep.
    + injection H as <-. simpl.
      split; [ reflexivity | ].
      split; [ auto | ]. split; intro; congruence.
    + destruct (forallb (str_in STATE_UNAVAILABLE) (s :: problems)) eqn:Eall;
        injection H as <-; cbn [_state _problems set_status].
      * split; [ reflexivity | ].
        split; [ discriminate | ].
        split; [ reflexivity | ].
        intros _ Hnot. apply forallb_mentions in Eall. contradiction.
      * split; [ reflexivity | ].
        split; [ discriminate | ].
        split; [ | auto ].
        intros _ Hall. apply forallb_mentions in Hall. congruence.
Qed.

(** The minimum is checked first, and its problem wins. *)
Lemma minimum_is_checked_first (p : Plant) (reading : string) (r : Reading) :
  dict_get String.eqb reading (_readings p) = Some r ->
  is_unavailable (r_state r) = false -> r_state r <> PNone ->
  forall low,
    _check_min py_float p reading (r_state r) = Return low ->
    _check_reading py_float p reading
    = match low with
      | Some s => Return (Some s)
      | None => _check_max py_float p reading (r_state r)
      end.
Proof.
  intros E Hu Hn low Hmin. unfold _check_reading. rewrite E, Hu.
  destruct (r_state r) eqn:Es; [ congruence | | | ];
    rewrite Hmin; (destruct low as [l | ]; [ | reflexivity ]);
    apply check_min_result in Hmin; subst l; unfold or_else;
    (destruct reading; reflexivity).
Qed.

(** C10: a minimum bound equal to 0 never makes the minimum check report
    "<category> low", whatever the state, and a maximum bound equal to 0
    never makes the maximum check report "<category> high": the checks
    return what they return when the bound is not configured, no
    problem. *)
Theorem zero_bound_is_no_bound (p : Plant) (reading : string) (r : Reading)
    (st : pyval) :
  dict_get String.eqb reading (_readings p) = Some r ->
  (equals_zero (r_minimum r) = true \/ r_minimum r = PNone ->
   _check_min py_float p reading st = Return None) /\
  (equals_zero (r_maximum r) = true \/ r_maximum r = PNone ->
   _check_max py_float p reading st = Return None).
Proof.
  intro E. unfold _check_min, _check_max. rewrite E.
  split; intros [H | H].
  - rewrite (zero_is_falsy _ H). reflexivity.
  - rewrite H. reflexivity.
  - rewrite (zero_is_falsy _ H). reflexivity.
  - rewrite H. reflexivity.
Qed.

End PlantStatus.

(* ===================================================================== *)
(** * Plant: associating a sensor                                         *)
(* ===================================================================== *)

(** The sensor is associated with the reading: the cache maps it to the
    reading, and the reading's dict lists it. *)
Definition cached (entity_id reading : string) (p : Plant) : Prop :=
  dict_get String.eqb entity_id (_sensors p) = Some reading /\
  exists r, dict_get String.eqb reading (_readings p) = Some r /\
            In entity_id (r_sensors r).

Lemma triple_fst {S A : Type} (Pre : S -> Prop) (m : M S A)
    (Post : A -> S -> Prop) (Exc : exn -> S -> Prop) (Q : S -> Prop) (s : S) :
  triple Pre m Post Exc -> Pre s ->
  (forall a s', Post a s' -> Q s') -> (forall e s', Exc e s' -> Q s') ->
  Q (fst (m s)).
Proof.
  intros T H Hp He. specialize (T s H).
  destruct (m s) as [s' [a | e]]; simpl; eauto.
Qed.

Section PlantAssociation.
Variable py_float : string -> option pyfloat.

Lemma associate_among_no_match (candidates : list string) (entity_id : string)
    (p : Plant) :
  Forall (fun reading => str_in reading entity_id = false) candidates ->
  associate_among candidates entity_id p
  = (p, Raise (HomeAssistantError
                 ("Cannot extract reading from sensor " ++ entity_id)%string)).
Proof.
  induction 1 as [ | reading candidates Hno _ IH]; simpl.
  - reflexivity.
  - rewrite Hno. exact IH.
Qed.

Lemma associate_among_first_match (tried rest : list string)
    (reading entity_id : string) (p : Plant) :
  Forall (fun r => str_in r entity_id = false) tried ->
  str_in reading entity_id = true ->
  In reading reading_names ->
  exists p', associate_among (tried ++ reading :: rest) entity_id p
             = (p', Return reading) /\
             cached entity_id reading p'.
Proof.
  intros Hno Hyes Hname.
  induction Hno as [ | r tried Hr _ IH]; simpl.
  - rewrite Hyes. unfold bind, get, modify, ret. simpl.
    destruct (dict_get String.eqb reading (_readings p)) as [r | ] eqn:E.
    + eexists. split; [ reflexivity | ]. split; simpl.
      * rewrite (dict_get_set String.eqb String.eqb_eq), String.eqb_refl.
        reflexivity.
      * eexists. split.
        -- rewrite (dict_get_set String.eqb String.eqb_eq), String.eqb_refl.
           reflexivity.
        -- simpl. apply in_app_iff. right. left. reflexivity.
    + destruct (dict_get_some String.eqb String.eqb_eq reading READINGS Hname)
        as [unit Hunit].
      unfold _add_reading, bind, get, must, modify, ret. cbn beta iota.
      rewrite Hunit. cbn beta iota.
      eexists. split; [ reflexivity | ]. split; simpl.
      * rewrite (dict_get_set String.eqb String.eqb_eq), String.eqb_refl.
        reflexivity.
      * eexists. split.
        -- rewrite (dict_get_set String.eqb String.eqb_eq), String.eqb_refl.
           reflexivity.
        -- simpl. left. reflexivity.
  - rewrite Hr. exact IH.
Qed.

Lemma keeps_cached_update_reading (entity_id reading reading' : string)
    (f : Reading -> Reading) :
  (forall r, r_sensors (f r) = r_sensors r) ->
  keeps (cached entity_id reading) (update_reading reading' f).
Proof.
  intro Hf. unfold keeps, update_reading, the_reading.
  eapply triple_bind with (Mid := fun r s =>
    cached entity_id reading s /\
    dict_get String.eqb reading' (_readings s) = Some r).
  - bind_get p0. intros s [H ->]. unfold must.
    destruct (dict_get String.eqb reading' (_readings s)) eqn:E; simpl; auto.
  - intro r. bind_get p1. apply triple_modify.
    intros s [[[Hs (r0 & Hr0 & Hin)] E] ->]. split; [ exact Hs | ]. simpl.
    rewrite (dict_get_set String.eqb String.eqb_eq).
    destruct (reading =? reading')%string eqn:Er.
    + apply String.eqb_eq in Er; subst reading'.
      exists (f r). split; [ reflexivity | ].
      rewrite Hf. congruence.
    + exists r0. split; assumption.
Qed.

Lemma keeps_cached_the_reading (entity_id reading reading' : string) :
  keeps (cached entity_id reading) (the_reading reading').
Proof.
  unfold keeps, the_reading. bind_get p0. intros s [H ->]. unfold must.
  destruct (dict_get _ _ _); exact H.
Qed.

Lemma keeps_cached_update_state (entity_id reading : string) :
  keeps (cached entity_id reading) (_update_state py_float).
Proof.
  unfold keeps, _update_state. bind_get p0.
  eapply triple_bind; [ apply triple_eval; intros e s [H _]; exact H | intro checks ].
  intros s [[H ->] _].
  destruct (filter_not_none checks); exact H.
Qed.

Lemma keeps_cached_brightness (entity_id reading : string) (hass : Hass)
    (value : pyval) (timestamp : option day) :
  keeps (cached entity_id reading)
        (brightness_add_measurement hass value timestamp).
Proof.
  intros p H. unfold brightness_add_measurement.
  destruct (DailyHistory.add_measurement _ _ _ _) as [h [ [] | e ]]; exact H.
Qed.

(** C8: for a sensor identifier without cached association, the readings
    are tried in the order light_lux, temp, env_humid, soil_moist,
    soil_ec, battery; the first whose name occurs in the identifier is
    cached for it (and lists the sensor), whatever the rest of the update
    does; if none occurs, the update raises the error to its caller and
    leaves the plant as it was. *)
Theorem unknown_sensor_takes_first_matching_reading (hass : Hass)
    (entity_id : string) (new_state : State) (p : Plant) :
  dict_get String.eqb entity_id (_sensors p) = None ->
  reading_names
  = ["light_lux"; "temp"; "env_humid"; "soil_moist"; "soil_ec"; "battery"] /\
  (forall tried reading rest,
     reading_names = tried ++ reading :: rest ->
     Forall (fun r => str_in r entity_id = false) tried ->
     str_in reading entity_id = true ->
     cached entity_id reading
       (fst (state_changed py_float hass entity_id new_state p))) /\
  (Forall (fun r => str_in r entity_id = false) reading_names ->
   state_changed py_float hass entity_id new_state p
   = (p, Raise (HomeAssistantError
                  ("Cannot extract reading from sensor " ++ entity_id)%string))).
Proof.
  intro Hnew. split; [ reflexivity | split ].
  - intros tried reading rest Hsplit Hno Hyes.
    assert (Hname : In reading reading_names)
      by (rewrite Hsplit; apply in_app_iff; right; left; reflexivity).
    apply (triple_fst (fun s => s = p) _
             (fun _ => cached entity_id reading)
             (fun _ => cached entity_id reading));
      [ | reflexivity | auto | auto ].
    unfold state_changed. bind_get p0.
    eapply triple_bind with (Mid := fun _ => cached entity_id reading).
    { intros s [-> ->]. rewrite Hnew. unfold _associate_sensor.
      fold reading_names. rewrite Hsplit.
      destruct (associate_among_first_match tried rest reading entity_id p
                  Hno Hyes Hname) as (p' & -> & Hc).
      exact Hc. }
    intro reading0.
    eapply triple_bind with (Mid := fun _ => cached entity_id reading).
    { destruct (state new_state =? STATE_UNKNOWN)%string; [ apply triple_ret; auto | ].
      destruct (state new_state =? STATE_UNAVAILABLE)%string; [ | apply triple_ret; auto ].
      eapply triple_bind with (Mid := fun _ => cached entity_id reading);
        [ apply keeps_cached_the_reading | intros _; apply triple_ret; auto ]. }
    intros [ | ]; [ apply triple_ret; auto | ].
    eapply triple_bind with (Mid := fun _ => cached entity_id reading).
    { unfold must. destruct (py_float (state new_state));
        [ apply triple_ret | apply triple_raise ]; auto. }
    intro f.
    eapply triple_bind with (Mid := fun _ => cached entity_id reading).
    { destruct (existsb _ _).
      - apply triple_ret. auto.
      - eapply triple_bind with (Mid := fun _ => cached entity_id reading).
        + unfold eval. intros s H. destruct (int_of_float f); exact H.
        + intro z. apply triple_ret. auto. }
    intro v.
    eapply triple_bind with (Mid := fun _ => cached entity_id reading).
    { apply keeps_cached_update_reading. reflexivity. }
    intros _.
    eapply triple_bind with (Mid := fun _ => cached entity_id reading).
    { destruct (reading0 =? READING_LIGHT_LUX)%string; [ | apply triple_ret; auto ].
      eapply triple_bind with (Mid := fun _ => cached entity_id reading);
        [ apply keeps_cached_the_reading | intro r; apply keeps_cached_brightness ]. }
    intros _.
    eapply triple_bind with (Mid := fun _ => cached entity_id reading).
    { destruct (dict_get String.eqb ATTR_UNIT_OF_MEASUREMENT (attributes new_state))
        as [u | ]; [ | apply triple_ret; auto ].
      apply keeps_cached_update_reading. reflexivity. }
    intros _. apply keeps_cached_update_state.
  - intro Hno. unfold state_changed, bind at 1, get. rewrite Hnew.
    unfold bind at 1, _associate_sensor. fold reading_names.
    rewrite (associate_among_no_match _ _ _ Hno). reflexivity.
Qed.

End PlantAssociation.

(* ===================================================================== *)
(** * Plant: concrete runs                                                *)
(* ===================================================================== *)

(** A stand-in for [float] in the runs below: it reads decimal integers
    with an optional minus sign ("500", "-5") and rejects every other
    string, among them "unavailable" and "unknown". *)
Definition digit_value (c : ascii) : option Z :=
  let n := Z.of_nat (nat_of_ascii c) in
  if (48 <=? n) && (n <=? 57) then Some (n - 48) else None.

Fixpoint digits_value (s : string) (acc : Z) : option Z :=
  match s with
  | EmptyString => Some acc
  | String c s' =>
      match digit_value c with
      | Some d => digits_value s' (10 * acc + d)
      | None => None
      end
  end.

Definition integer_float (s : string) : option pyfloat :=
  match s with
  | EmptyString => None
  | String "-" EmptyString => None
  | String "-" s' => option_map (fun z => FFin (inject_Z (- z))) (digits_value s' 0)
  | _ => option_map (fun z => FFin (inject_Z z)) (digits_value s 0)
  end.

(** An update carrying [st] on day 100, without attributes. *)
Definition update (st : string) : State :=
  {| state := st; last_updated := 100; attributes := [] |}.

(** A registry without any entity. *)
Definition empty_registry : Hass :=
  {| states_get := fun _ => None; today := 100 |}.

Lemma empty_registry_has_no_key : no_entity_named_like_a_key empty_registry.
Proof. repeat constructor. Defined.

(** ** A thermometer with bounds 10 and 30 (the scenario of the spec) *)

Definition thermometer_config (minimum maximum : pyval) : Config :=
  {| conf_sensors := [("temp", "sensor.fern_temp")];
     conf_options := [("min_temp", minimum); ("max_temp", maximum)];
     conf_check_days := 3 |}.

Definition thermometer (minimum maximum st : pyval) : Plant :=
  {| _config := thermometer_config minimum maximum;
     _sensors := [("sensor.fern_temp", "temp")];
     _readings := [("temp", {| r_sensors := ["sensor.fern_temp"];
                               r_state := st;
                               r_unit_of_measurement := TEMP_CELSIUS;
                               r_minimum := minimum;
                               r_maximum := maximum |})];
     _state := PNone;
     _problems := PROBLEM_NONE;
     _brightness_history := DailyHistory.__init__ 3 |}.

Example thermometer_constructed (minimum maximum : pyval) :
  __init__ (thermometer_config minimum maximum)
  = Return (thermometer minimum maximum PNone).
Proof. reflexivity. Qed.

Example temperature_scenario :
  let p := thermometer (PFloat (FFin 10)) (PFloat (FFin 30)) PNone in
  let after st := fst (state_changed integer_float empty_registry
                         "sensor.fern_temp" (update st) p) in
  (_state (after "5"), _problems (after "5")) = (PStr "problem", "temp low") /\
  (_state (after "35"), _problems (after "35")) = (PStr "problem", "temp high") /\
  (_state (after "20"), _problems (after "20")) = (PStr "ok", "none").
Proof. repeat split; reflexivity. Qed.

(** C4 fails on the code for a bound of 0: a thermometer with minimum 0.0
    (and maximum 30.0) receives -5; the stored state is -5.0, below the
    configured minimum, and the check reports no problem. *)
Theorem zero_minimum_hides_low_temperature :
  let p0 := thermometer (PFloat (FFin 0)) (PFloat (FFin 30)) PNone in
  let p := thermometer (PFloat (FFin 0)) (PFloat (FFin 30)) (PFloat (FFin (-5))) in
  __init__ (thermometer_config (PFloat (FFin 0)) (PFloat (FFin 30))) = Return p0 /\
  state_changed integer_float empty_registry "sensor.fern_temp" (update "-5") p0
  = (set_status STATE_OK PROBLEM_NONE p, Return tt) /\
  py_lt (reading_state p "temp") (PFloat (FFin 0)) = Return true /\
  _check_reading integer_float p "temp" = Return None.
Proof. repeat split; reflexivity. Qed.

Lemma zero_bound_is_no_bound_witness :
  let p := thermometer (PFloat (FFin 0)) (PInt 0) (PFloat (FFin (-5))) in
  _check_min integer_float p "temp" (PFloat (FFin (-5))) = Return None /\
  _check_max integer_float p "temp" (PFloat (FFin 5)) = Return None.
Proof.
  destruct (zero_bound_is_no_bound integer_float
              (thermometer (PFloat (FFin 0)) (PInt 0) (PFloat (FFin (-5))))
              "temp"
              {| r_sensors := ["sensor.fern_temp"];
                 r_state := PFloat (FFin (-5));
                 r_unit_of_measurement := TEMP_CELSIUS;
                 r_minimum := PFloat (FFin 0);
                 r_maximum := PInt 0 |}
              (PFloat (FFin (-5))) eq_refl) as [Hmin _].
  destruct (zero_bound_is_no_bound integer_float
              (thermometer (PFloat (FFin 0)) (PInt 0) (PFloat (FFin (-5))))
              "temp"
              {| r_sensors := ["sensor.fern_temp"];
                 r_state := PFloat (FFin (-5));
                 r_unit_of_measurement := TEMP_CELSIUS;
                 r_minimum := PFloat (FFin 0);
                 r_maximum := PInt 0 |}
              (PFloat (FFin 5)) eq_refl) as [_ Hmax].
  split; [ apply Hmin | apply Hmax ]; left; reflexivity.
Defined.

(** A bound that the plant database gives as the string "0" is not equal
    to 0 and is applied. *)
Example string_zero_bound_is_applied :
  _check_reading integer_float
    (thermometer (PStr "0") PNone (PFloat (FFin (-5)))) "temp"
  = Return (Some "temp low").
Proof. reflexivity. Qed.

(** ** A plant with one brightness sensor *)

Definition lux_config : Config :=
  {| conf_sensors := [("light_lux", "sensor.fern_light_lux")];
     conf_options := [("min_light_lux", PInt 1000)];
     conf_check_days := 3 |}.

Definition lux_plant : Plant :=
  {| _config := lux_config;
     _sensors := [("sensor.fern_light_lux", "light_lux")];
     _readings := [("light_lux", {| r_sensors := ["sensor.fern_light_lux"];
                                    r_state := PNone;
                                    r_unit_of_measurement := "lux";
                                    r_minimum := PInt 1000;
                                    r_maximum := PNone |})];
     _state := PNone;
     _problems := PROBLEM_NONE;
     _brightness_history := DailyHistory.__init__ 3 |}.

(** The registry in which that sensor, the only one, is unavailable. *)
Definition lux_sensor_unavailable : Hass :=
  {| states_get := fun entity_id =>
       if (entity_id =? "sensor.fern_light_lux")%string
       then Some (update STATE_UNAVAILABLE) else None;
     today := 100 |}.

(** C2 fails on the code: the only sensor of the only reading reports
    "unavailable"; the update is suppressed: the stored state stays null,
    the check of the reading yields no problem, and the status is not
    recomputed (it stays null, it does not become "unavailable"). *)
Theorem lone_unavailable_sensor_is_suppressed (py_float : string -> option pyfloat) :
  __init__ lux_config = Return lux_plant /\
  is_state lux_sensor_unavailable "sensor.fern_light_lux" STATE_UNAVAILABLE = true /\
  state_changed py_float lux_sensor_unavailable "sensor.fern_light_lux"
    (update STATE_UNAVAILABLE) lux_plant
  = (lux_plant, Return tt) /\
  reading_state lux_plant "light_lux" = PNone /\
  _check_reading py_float lux_plant "light_lux" = Return None /\
  _state lux_plant = PNone.
Proof. repeat split; reflexivity. Qed.

(** The same plant after a brightness of 500 on day 100: below the
    minimum of 1000. *)
Definition lux_plant_500 : Plant :=
  fst (state_changed integer_float empty_registry "sensor.fern_light_lux"
         (update "500") lux_plant).

Lemma lux_plant_500_reachable : plant_reachable integer_float lux_config lux_plant_500.
Proof.
  apply reach_state_changed.
  - apply reach_init. reflexivity.
  - exact empty_registry_has_no_key.
Defined.

Example lux_plant_500_status :
  _state lux_plant_500 = PStr "problem" /\
  _problems lux_plant_500 = "light_lux low" /\
  DailyHistory.max (_brightness_history lux_plant_500) = PInt 500.
Proof. repeat split; reflexivity. Qed.

Lemma stored_state_is_never_unavailable_witness :
  (forall reading, none_or_number (reading_state lux_plant_500 reading) = true) /\
  same_observables lux_plant_500
    (fst (state_changed integer_float empty_registry "sensor.fern_light_lux"
            (update STATE_UNAVAILABLE) lux_plant_500)) /\
  _state lux_plant_500 <> PStr STATE_UNAVAILABLE.
Proof.
  destruct (stored_state_is_never_unavailable integer_float lux_config
              lux_plant_500 lux_plant_500_reachable) as (A & B & _ & D).
  split; [ exact A | ]. split; [ | exact D ].
  apply B; [ exact empty_registry_has_no_key | reflexivity ].
Defined.

(** ** Sensors found by their name *)

(** A plant without statically assigned sensors. *)
Definition bare_plant : Plant :=
  {| _config := {| conf_sensors := []; conf_options := []; conf_check_days := 3 |};
     _sensors := [];
     _readings := [];
     _state := PNone;
     _problems := PROBLEM_NONE;
     _brightness_history := DailyHistory.__init__ 3 |}.

Lemma unknown_sensor_takes_first_matching_reading_witness :
  cached "sensor.fern_soil_moist_temp" "temp"
    (fst (state_changed integer_float empty_registry
            "sensor.fern_soil_moist_temp" (update "21") bare_plant)) /\
  state_changed integer_float empty_registry "sensor.fern_ph" (update "7") bare_plant
  = (bare_plant,
     Raise (HomeAssistantError "Cannot extract reading from sensor sensor.fern_ph")).
Proof.
  split.
  - destruct (unknown_sensor_takes_first_matching_reading integer_float
                empty_registry "sensor.fern_soil_moist_temp" (update "21")
                bare_plant eq_refl) as (_ & Hfirst & _).
    apply (Hfirst ["light_lux"] "temp"
             ["env_humid"; "soil_moist"; "soil_ec"; "battery"]).
    + reflexivity.
    + repeat constructor.
    + reflexivity.
  - destruct (unknown_sensor_takes_first_matching_reading integer_float
                empty_registry "sensor.fern_ph" (update "7")
                bare_plant eq_refl) as (_ & _ & Hnone).
    apply Hnone. repeat constructor.
Defined.

(** ** Status recomputation *)

(** Two readings in trouble: the description joins the problems in the
    order of the readings. *)
Example status_joins_problems_in_order :
  let p := {| _config := lux_config;
              _sensors := [];
              _readings :=
                [("temp", {| r_sensors := []; r_state := PFloat (FFin 35);
                             r_unit_of_measurement := TEMP_CELSIUS;
                             r_minimum := PNone; r_maximum := PInt 30 |});
                 ("battery", {| r_sensors := []; r_state := PInt 50;
                                r_unit_of_measurement := "%";
                                r_minimum := PInt 20; r_maximum := PNone |});
                 ("soil_moist", {| r_sensors := []; r_state := PInt 5;
                                   r_unit_of_measurement := "%";
                                   r_minimum := PInt 15; r_maximum := PInt 60 |})];
              _state := PNone;
              _problems := PROBLEM_NONE;
              _brightness_history := DailyHistory.__init__ 3 |} in
  _update_state integer_float p
  = (set_status "problem" "temp high, soil_moist low" p, Return tt).
Proof. reflexivity. Qed.

(** Were a stored state the sentinel, the status would follow it: the
    branch exists, no update reaches it. *)
Example status_of_a_stored_sentinel :
  let p := {| _config := lux_config;
              _sensors := [];
              _readings :=
                [("light_lux", {| r_sensors := []; r_state := PStr STATE_UNAVAILABLE;
                                  r_unit_of_measurement := "lux";
                                  r_minimum := PNone; r_maximum := PNone |})];
              _state := PNone;
              _problems := PROBLEM_NONE;
              _brightness_history := DailyHistory.__init__ 3 |} in
  _update_state integer_float p
  = (set_status "unavailable" "light_lux unavailable" p, Return tt).
Proof. reflexivity. Qed.

(* ===================================================================== *)
(** * DailyHistory: more on what a call does                              *)
(* ===================================================================== *)



Section DailyHistoryCalls.
Import DailyHistory.

(** The most recently opened day. *)
Definition latest_day (h : t) : option Z :=
  match _days h with
  | Some ds => last_item ds
  | None => None
  end.

(** A history whose deque, once created, is not empty: what a history
    with a capacity other than 0 always is. *)
Definition proper (h : t) : Prop :=
  well_formed h /\ max_length h <> 0 /\ _days h <> Some [].

(** What a call with a number does to a proper history, case by case. *)
Inductive accepts (v : pyval) (d : Z) (h : t) : t -> Prop :=
| first_sample :
    _days h = None -> _max_dict h = [] ->
    accepts v d h (mk (max_length h) (Some [d]) [(d, v)] v)
| late_sample (c : Z) :
    latest_day h = Some c -> d < c ->
    accepts v d h h
| same_day_sample (ds : list Z) (old m' mx : pyval) :
    _days h = Some ds -> last_item ds = Some d ->
    dict_get Z.eqb d (_max_dict h) = Some old ->
    py_max2 v old = Return m' ->
    py_max (dict_values (dict_set Z.eqb d m' (_max_dict h))) = Return mx ->
    accepts v d h (mk (max_length h) (Some ds) (dict_set Z.eqb d m' (_max_dict h)) mx)
| new_day_evicting (oldest c : Z) (rest : list Z) (x mx : pyval)
    (kept : list (Z * pyval)) :
    _days h = Some (oldest :: rest) -> last_item (oldest :: rest) = Some c ->
    c < d -> Z.of_nat (List.length (oldest :: rest)) = max_length h ->
    _max_dict h = (oldest, x) :: kept -> ~ In d (dict_keys kept) ->
    py_max (dict_values (kept ++ [(d, v)])) = Return mx ->
    accepts v d h (mk (max_length h) (Some (rest ++ [d])) (kept ++ [(d, v)]) mx)
| new_day_with_room (ds : list Z) (c : Z) (mx : pyval) :
    _days h = Some ds -> last_item ds = Some c ->
    c < d -> Z.of_nat (List.length ds) <> max_length h ->
    ~ In d (dict_keys (_max_dict h)) ->
    py_max (dict_values (_max_dict h ++ [(d, v)])) = Return mx ->
    accepts v d h (mk (max_length h) (Some (ds ++ [d])) (_max_dict h ++ [(d, v)]) mx).

Lemma proper_add_number (h : t) (now : day) (v : pyval) (timestamp : option day) :
  proper h -> isinstance_number v = true ->
  exists h',
    add_measurement now v timestamp h = (h', Return tt) /\
    accepts v (day_of now timestamp) h h' /\
    proper h'.
Proof.
  intros (W & HN & HE) Hv.
  assert (P' : forall h', add_measurement now v timestamp h = (h', Return tt) ->
                          _days h' <> Some [] -> proper h').
  { intros h' E HE'.
    destruct (add_measurement_well_formed h now v timestamp W) as [W' L'].
    rewrite E in W', L'. simpl in W', L'.
    split; [ exact W' | split; [ congruence | exact HE' ] ]. }
  set (d := day_of now timestamp).
  assert (Hd : day_of now timestamp = d) by reflexivity.
  destruct h as [N [ ds | ] dict m]; unfold well_formed in W; simpl in *.
  2:{ destruct W as [-> ->].
      eexists. split; [ eapply add_first_day; eassumption | ].
      split; [ apply (first_sample v d (mk N None [] PNone)); reflexivity | ].
      apply P'; [ eapply add_first_day; eassumption | discriminate ]. }
  destruct W as [W | (Hk & S & Hn & Hmax & Hlen)]; [ congruence | ].
  destruct (last_item_some ds) as [c HL]; [ congruence | ].
  destruct (Z.lt_trichotomy d c) as [Hlt | [Heq | Hgt]].
  - eexists. split; [ eapply add_earlier_day; eassumption | ].
    split; [ eapply late_sample; eassumption | ].
    apply P'; [ eapply add_earlier_day; eassumption | assumption ].
  - subst c.
    destruct (dict_get_some Z.eqb Z.eqb_eq d dict) as [old Hold].
    { rewrite Hk. apply last_item_in; assumption. }
    destruct (py_max2_number v old Hv (numbers_get _ _ _ Hn Hold)) as (m' & E2 & Hm').
    assert (Nm' : isinstance_number m' = true).
    { destruct Hm'; subst; eauto using numbers_get. }
    destruct (py_max_number _ (dict_set_not_empty d m' dict)
                (numbers_set d _ _ Hn Nm')) as (mx & Emx & _).
    eexists. split; [ eapply add_same_day; eassumption | ].
    split.
    + apply (same_day_sample v d (mk N (Some ds) dict m) ds old m' mx);
        assumption || reflexivity.
    + apply P'; [ eapply add_same_day; eassumption | assumption ].
  - assert (Fresh := later_day_is_fresh _ _ _ S HL Hgt).
    destruct (Z.eq_dec (Z.of_nat (List.length ds)) N) as [Hfull | Hroom].
    + destruct ds as [ | oldest rest ]; [ congruence | ].
      destruct dict as [ | [a' x0] kept ]; [ discriminate | ].
      simpl in Hk. injection Hk as -> Hk'.
      assert (Fresh' : ~ In d (dict_keys kept))
        by (rewrite Hk'; intro; apply Fresh; right; assumption).
      assert (Hn' : numbers kept) by (inversion Hn; assumption).
      destruct (py_max_number _ (dict_set_not_empty d v kept)
                  (numbers_set d _ _ Hn' Hv)) as (mx & Emx & _).
      assert (Hdel := dict_del_head Z.eqb Z.eqb_eq oldest x0 kept).
      assert (E : add_measurement now v timestamp
                    (mk N (Some (oldest :: rest)) ((oldest, x0) :: kept) m)
                  = (mk N (Some (rest ++ [d])) (kept ++ [(d, v)]) mx, Return tt)).
      { erewrite add_later_day_evict by eassumption.
        rewrite (dict_set_fresh Z.eqb Z.eqb_eq) by assumption. reflexivity. }
      eexists. split; [ exact E | ]. split.
      * rewrite (dict_set_fresh Z.eqb Z.eqb_eq) in Emx by assumption.
        apply (new_day_evicting v d
                 (mk N (Some (oldest :: rest)) ((oldest, x0) :: kept) m)
                 oldest c rest x0 mx kept); assumption || reflexivity.
      * apply P'; [ exact E | ]. simpl. destruct rest; discriminate.
    + assert (Fresh' : ~ In d (dict_keys dict)) by (rewrite Hk; assumption).
      destruct (py_max_number _ (dict_set_not_empty d v dict)
                  (numbers_set d _ _ Hn Hv)) as (mx & Emx & _).
      assert (E : add_measurement now v timestamp (mk N (Some ds) dict m)
                  = (mk N (Some (ds ++ [d])) (dict ++ [(d, v)]) mx, Return tt)).
      { erewrite add_later_day_room by eassumption.
        rewrite (dict_set_fresh Z.eqb Z.eqb_eq) by assumption. reflexivity. }
      eexists. split; [ exact E | ]. split.
      * rewrite (dict_set_fresh Z.eqb Z.eqb_eq) in Emx by assumption.
        apply (new_day_with_room v d (mk N (Some ds) dict m) ds c mx);
          assumption || reflexivity.
      * apply P'; [ exact E | ]. simpl. destruct ds; discriminate.
Qed.

Lemma proper_add (h : t) (now : day) (v : pyval) (timestamp : option day) :
  proper h ->
  snd (add_measurement now v timestamp h) = Return tt /\
  proper (fst (add_measurement now v timestamp h)).
Proof.
  intro P. destruct (isinstance_number v) eqn:Hv.
  - destruct (proper_add_number h now v timestamp P Hv) as (h' & E & _ & P').
    rewrite E. auto.
  - rewrite add_not_a_number by assumption. auto.
Qed.

Lemma reachable_proper (N : Z) (h : t) :
  N <> 0 -> reachable N h -> proper h.
Proof.
  intros HN R. induction R as [ | h now v ts R IH ].
  - split; [ split; reflexivity | split; [ exact HN | discriminate ] ].
  - apply proper_add. exact IH.
Qed.

End DailyHistoryCalls.

(** The part of a run a history takes in: the numbers whose day is not
    before the latest day taken in so far. *)
Fixpoint in_order (latest : option Z) (ms : list (pyval * Z)) : list (pyval * Z) :=
  match ms with
  | [] => []
  | (v, d) :: ms' =>
      if isinstance_number v &&
         match latest with Some c => c <=? d | None => true end
      then (v, d) :: in_order (Some d) ms'
      else in_order latest ms'
  end.

Section DailyHistoryMore.
Import DailyHistory.

Lemma zero_capacity_state (h : t) :
  reachable 0 h ->
  _max_dict h = [] /\ max h = PNone /\ (_days h = None \/ _days h = Some []).
Proof.
  induction 1 as [ | h now v ts R (Hd & Hm & Hdays) ].
  - simpl. auto.
  - destruct (isinstance_number v) eqn:Hv;
      [ | rewrite add_not_a_number by assumption; auto ].
    destruct (reachable_well_formed 0 h R) as [_ L].
    destruct h as [N days dict m]. simpl in *. subst N dict m.
    destruct Hdays as [-> | ->].
    + rewrite add_first_day_no_room by assumption. simpl. auto.
    + rewrite add_to_empty_deque by assumption. simpl. auto.
Qed.

(** X1: a history with capacity 0 takes nothing in: every number fed to it
    raises [IndexError] (from [popleft] on the empty deque, then from
    [self._days[-1]]), and neither an aggregate nor a [max] is ever
    recorded. *)
Theorem zero_capacity_takes_nothing (h : t) (now : day) (v : pyval)
    (timestamp : option day) :
  reachable 0 h -> isinstance_number v = true ->
  snd (add_measurement now v timestamp h) = Raise IndexError /\
  _max_dict (fst (add_measurement now v timestamp h)) = [] /\
  max (fst (add_measurement now v timestamp h)) = PNone.
Proof.
  intros R Hv.
  destruct (zero_capacity_state _ (reach_add 0 h now v timestamp R))
    as (Hd' & Hm' & _).
  split; [ | split; assumption ].
  destruct (zero_capacity_state h R) as (Hd & Hm & Hdays).
  destruct (reachable_well_formed 0 h R) as [_ L].
  destruct h as [N days dict m]. simpl in *. subst N.
  destruct Hdays as [-> | ->].
  - rewrite add_first_day_no_room by assumption. reflexivity.
  - rewrite add_to_empty_deque by assumption. reflexivity.
Qed.

(** X2: with a capacity other than 0 no call ever raises, whatever is fed
    and in whatever order. *)
Theorem add_measurement_never_raises (N : Z) (h : t) (now : day) (v : pyval)
    (timestamp : option day) :
  N <> 0 -> reachable N h ->
  snd (add_measurement now v timestamp h) = Return tt.
Proof.
  intros HN R. apply proper_add. eapply reachable_proper; eassumption.
Qed.



(** X4: the most recently opened day never goes back: after a number for day
    [d] it is the later of [d] and what it was. *)
Theorem latest_day_never_goes_back (N : Z) (h : t) (now : day) (v : pyval)
    (timestamp : option day) :
  N <> 0 -> reachable N h -> isinstance_number v = true ->
  latest_day (fst (add_measurement now v timestamp h))
  = Some match latest_day h with
         | Some c => Z.max c (day_of now timestamp)
         | None => day_of now timestamp
         end.
Proof.
  intros HN R Hv.
  destruct (proper_add_number h now v timestamp (reachable_proper N h HN R) Hv)
    as (h' & E & A & _).
  rewrite E. simpl. unfold latest_day.
  destruct A as [ Hd _ | c Hc Hlt | ds old m' mx Hd HL _ _ _
                | oldest c rest x mx kept Hd HL Hgt _ _ _ _
                | ds c mx Hd HL Hgt _ _ _ ]; simpl.
  - rewrite Hd. reflexivity.
  - unfold latest_day in Hc. rewrite Hc. f_equal. lia.
  - rewrite Hd, HL. f_equal. lia.
  - rewrite Hd, HL, last_item_app. f_equal. lia.
  - rewrite Hd, HL, last_item_app. f_equal. lia.
Qed.

(** X5: a number for the current day is merged into that day's aggregate
    with [max]: the call returns, the retained days stay as they are, the
    day's aggregate becomes [max(value, old)], which is the value or the
    old aggregate, and every other aggregate is untouched. *)
Theorem same_day_number_is_merged (N : Z) (h : t) (now : day) (v : pyval)
    (timestamp : option day) :
  reachable N h -> isinstance_number v = true ->
  latest_day h = Some (day_of now timestamp) ->
  exists old m',
    dict_get Z.eqb (day_of now timestamp) (_max_dict h) = Some old /\
    py_max2 v old = Return m' /\ (m' = v \/ m' = old) /\
    snd (add_measurement now v timestamp h) = Return tt /\
    _days (fst (add_measurement now v timestamp h)) = _days h /\
    forall d',
      dict_get Z.eqb d' (_max_dict (fst (add_measurement now v timestamp h)))
      = if d' =? day_of now timestamp then Some m'
        else dict_get Z.eqb d' (_max_dict h).
Proof.
  intros R Hv HL.
  destruct (Z.eq_dec N 0) as [-> | HN].
  { destruct (zero_capacity_state h R) as (_ & _ & [Hd | Hd]);
      unfold latest_day in HL; rewrite Hd in HL; discriminate. }
  destruct (proper_add_number h now v timestamp (reachable_proper N h HN R) Hv)
    as (h' & E & A & _).
  rewrite E. simpl. unfold latest_day in HL.
  destruct A as [ Hd _ | c Hc Hlt | ds old m' mx Hd HL' Hold E2 _
                | oldest c rest x mx kept Hd HL' Hgt _ _ _ _
                | ds c mx Hd HL' Hgt _ _ _ ].
  - rewrite Hd in HL. discriminate.
  - unfold latest_day in Hc. rewrite Hc in HL. injection HL as HL. lia.
  - exists old, m'. split; [ assumption | ]. split; [ assumption | ].
    split.
    { unfold py_max2 in E2.
      destruct (py_gt old v) as [ [ | ] | ]; [ | | discriminate ];
        injection E2 as <-; auto. }
    split; [ reflexivity | ]. split; [ simpl; congruence | ].
    intro d'. simpl. apply (dict_get_set Z.eqb Z.eqb_eq).
  - rewrite Hd, HL' in HL. injection HL as HL. lia.
  - rewrite Hd, HL' in HL. injection HL as HL. lia.
Qed.

Lemma feed_cons (now : day) (v : pyval) (d : Z) (ms : list (pyval * Z)) (h : t) :
  feed now ((v, d) :: ms) h
  = match add_measurement now v (Some d) h with
    | (h', Return _) => feed now ms h'
    | (h', Raise e) => (h', Raise e)
    end.
Proof. reflexivity. Qed.

Lemma in_order_from (ms : list (pyval * Z)) : forall latest,
  StronglySorted Z.le (days_fed (in_order latest ms)) /\
  Forall (fun d => match latest with Some c => c <= d | None => True end)
         (days_fed (in_order latest ms)).
Proof.
  induction ms as [ | [v d] ms IH]; intro latest; simpl.
  - split; constructor.
  - destruct (isinstance_number v &&
              match latest with Some c => c <=? d | None => true end) eqn:E.
    + destruct (IH (Some d)) as [S F]. simpl. split.
      * constructor; assumption.
      * constructor.
        -- apply andb_true_iff in E. destruct E as [_ E].
           destruct latest; [ apply Z.leb_le; assumption | exact I ].
        -- apply andb_true_iff in E. destruct E as [_ E].
           destruct latest as [c | ]; [ | apply Forall_forall; auto ].
           apply Z.leb_le in E. rewrite Forall_forall in F |- *.
           intros x Hx. specialize (F x Hx). simpl in F. lia.
    + apply IH.
Qed.

Lemma feed_in_order (now : day) (ms : list (pyval * Z)) : forall h,
  proper h -> feed now ms h = feed now (in_order (latest_day h) ms) h.
Proof.
  induction ms as [ | [v d] ms IH]; intros h P; [ reflexivity | ].
  cbn [in_order]. destruct (isinstance_number v) eqn:Hv; cbn [andb].
  - destruct (proper_add_number h now v (Some d) P Hv) as (h' & E & A & P').
    simpl day_of in A.
    assert (Hl : latest_day h' = Some match latest_day h with
                                      | Some c => Z.max c d
                                      | None => d
                                      end).
    { unfold latest_day.
      destruct A as [ Hd _ | c Hc Hlt | ds old m' mx Hd HL _ _ _
                    | oldest c rest x mx kept Hd HL Hgt _ _ _ _
                    | ds c mx Hd HL Hgt _ _ _ ]; simpl.
      - rewrite Hd. reflexivity.
      - unfold latest_day in Hc. rewrite Hc. f_equal. lia.
      - rewrite Hd, HL. f_equal. lia.
      - rewrite Hd, HL, last_item_app. f_equal. lia.
      - rewrite Hd, HL, last_item_app. f_equal. lia. }
    destruct (latest_day h) as [c | ] eqn:Hc.
    + destruct (c <=? d) eqn:Hcd.
      * apply Z.leb_le in Hcd. rewrite !feed_cons, E.
        rewrite (IH h' P'), Hl. replace (Z.max c d) with d by lia. reflexivity.
      * apply Z.leb_gt in Hcd. rewrite feed_cons, E.
        assert (h' = h).
        { destruct A as [ Hd _ | c' Hc' Hlt | ds old m' mx Hd HL _ _ _
                        | oldest c' rest x mx kept Hd HL Hgt _ _ _ _
                        | ds c' mx Hd HL Hgt _ _ _ ];
            try reflexivity; unfold latest_day in Hc; rewrite Hd in Hc;
            try discriminate; rewrite HL in Hc; injection Hc as Hc; lia. }
        subst h'. rewrite (IH h P), Hc. reflexivity.
    + rewrite !feed_cons, E. rewrite (IH h' P'), Hl. reflexivity.
  - rewrite feed_cons, add_not_a_number by assumption. apply IH. exact P.
Qed.

(** X6: feeding a run in any order, non-numbers included, to a new history
    with a capacity other than 0 is feeding the part of it that arrives in
    order: the same history results and no call raises.  That part is in
    non-decreasing day order. *)
Theorem late_samples_can_be_left_out (N : Z) (now : day) (ms : list (pyval * Z)) :
  N <> 0 ->
  feed now ms (__init__ N) = feed now (in_order None ms) (__init__ N) /\
  snd (feed now ms (__init__ N)) = Return tt /\
  StronglySorted Z.le (days_fed (in_order None ms)).
Proof.
  intro HN.
  assert (P : proper (__init__ N)) by (apply (reachable_proper N); [ exact HN | constructor ]).
  split; [ apply (feed_in_order now ms (__init__ N) P) | ].
  split; [ | apply (in_order_from ms None) ].
  clear HN. revert P. generalize (__init__ N).
  induction ms as [ | [v d] ms IH]; intros h P; [ reflexivity | ].
  rewrite feed_cons.
  destruct (proper_add h now v (Some d) P) as [Hr P'].
  destruct (add_measurement now v (Some d) h) as [h' [ [] | e ]];
    simpl in Hr, P'; [ apply IH; exact P' | discriminate ].
Qed.

End DailyHistoryMore.

Lemma zero_capacity_takes_nothing_witness :
  snd (DailyHistory.add_measurement 0 (PInt 7) (Some 1) (DailyHistory.__init__ 0))
  = Raise IndexError.
Proof.
  apply (zero_capacity_takes_nothing (DailyHistory.__init__ 0) 0 (PInt 7) (Some 1)).
  - apply reach_new.
  - reflexivity.
Defined.

Lemma add_measurement_never_raises_witness :
  snd (DailyHistory.add_measurement 0 (PInt 99) (Some 2) full_history) = Return tt.
Proof.
  apply (add_measurement_never_raises 3).
  - discriminate.
  - apply feed_reachable, reach_new.
Defined.


Lemma latest_day_never_goes_back_witness :
  latest_day (fst (DailyHistory.add_measurement 0 (PInt 99) (Some 2) full_history))
  = Some 3.
Proof.
  apply (latest_day_never_goes_back 3 full_history 0 (PInt 99) (Some 2)).
  - discriminate.
  - apply feed_reachable, reach_new.
  - reflexivity.
Defined.

Lemma same_day_number_is_merged_witness :
  exists old m',
    dict_get Z.eqb 3 (DailyHistory._max_dict full_history) = Some old /\
    py_max2 (PInt 25) old = Return m' /\ (m' = PInt 25 \/ m' = old) /\
    snd (DailyHistory.add_measurement 0 (PInt 25) (Some 3) full_history) = Return tt /\
    DailyHistory._days
      (fst (DailyHistory.add_measurement 0 (PInt 25) (Some 3) full_history))
    = DailyHistory._days full_history /\
    forall d',
      dict_get Z.eqb d'
        (DailyHistory._max_dict
           (fst (DailyHistory.add_measurement 0 (PInt 25) (Some 3) full_history)))
      = if d' =? 3 then Some m'
        else dict_get Z.eqb d' (DailyHistory._max_dict full_history).
Proof.
  apply (same_day_number_is_merged 3 full_history 0 (PInt 25) (Some 3)).
  - apply feed_reachable, reach_new.
  - reflexivity.
  - reflexivity.
Defined.

Lemma late_samples_can_be_left_out_witness :
  feed 0 [(PInt 5, 4); (PStr "n/a", 5); (PInt 9, 2); (PInt 1, 4)]
    (DailyHistory.__init__ 3)
  = feed 0 [(PInt 5, 4); (PInt 1, 4)] (DailyHistory.__init__ 3).
Proof.
  apply (late_samples_can_be_left_out 3 0
           [(PInt 5, 4); (PStr "n/a", 5); (PInt 9, 2); (PInt 1, 4)]).
  discriminate.
Defined.

(* ===================================================================== *)
(** * Plant: the two halves of state_changed                              *)
(* ===================================================================== *)

(** [reading = self._sensors.get(entity_id) or
    self._associate_sensor(entity_id)], the first statement of
    [state_changed]. *)
Definition resolve_reading (entity_id : string) : M Plant string :=
  bind get (fun p =>
    match dict_get String.eqb entity_id (_sensors p) with
    | Some r => if (r =? "")%string then _associate_sensor entity_id else ret r
    | None => _associate_sensor entity_id
    end).

Section PlantUpdate.
Variable py_float : string -> option pyfloat.

Local Open Scope py_scope.

(** The suppression test of [state_changed], once the reading is known. *)
Definition ignored_status (hass : Hass) (reading : string) (new_state : State)
    : M Plant bool :=
  let st := state new_state in
  if (st =? STATE_UNKNOWN)%string then ret true
  else if (st =? STATE_UNAVAILABLE)%string then
    _ <- the_reading reading ;;
    ret (existsb (fun sensor => negb (is_state hass sensor STATE_UNAVAILABLE))
                 reading_keys)
  else ret false.

(** The statements of [state_changed] after that test. *)
Definition store_update (hass : Hass) (reading : string) (new_state : State)
    : M Plant unit :=
  f <- must ValueError (py_float (state new_state)) ;;
  v <- (if existsb (String.eqb reading) [READING_TEMP; READING_ENV_HUMID]
        then ret (PFloat f)
        else z <- eval (int_of_float f) ;; ret (PInt z)) ;;
  update_reading reading (with_state v) ;;
  (if (reading =? READING_LIGHT_LUX)%string then
     r <- the_reading reading ;;
     brightness_add_measurement hass (r_state r) (Some (last_updated new_state))
   else ret tt) ;;
  match dict_get String.eqb ATTR_UNIT_OF_MEASUREMENT (attributes new_state) with
  | Some u => update_reading reading (with_unit u)
  | None => ret tt
  end ;;
  _update_state py_float.

(** [state_changed] is these three, one after the other. *)
Lemma state_changed_split (hass : Hass) (entity_id : string) (new_state : State)
    (p : Plant) :
  state_changed py_float hass entity_id new_state p
  = (reading <- resolve_reading entity_id ;;
     ignored <- ignored_status hass reading new_state ;;
     if ignored : bool then ret tt
     else store_update hass reading new_state) p.
Proof. reflexivity. Qed.

(** What resolving a sensor can do: find it in the cache, associate it
    with the first reading whose name it contains, or raise. *)
Lemma associate_among_outcome (candidates : list string) (entity_id : string)
    (p : Plant) :
  Forall (fun r => In r reading_names) candidates ->
  (exists p' reading,
     associate_among candidates entity_id p = (p', Return reading) /\
     cached entity_id reading p' /\ In reading reading_names) \/
  (Forall (fun r => str_in r entity_id = false) candidates /\
   associate_among candidates entity_id p
   = (p, Raise (HomeAssistantError
                  ("Cannot extract reading from sensor " ++ entity_id)%string))).
Proof.
  induction 1 as [ | r candidates Hr _ IH].
  - right. split; [ constructor | reflexivity ].
  - destruct (str_in r entity_id) eqn:E.
    + left.
      destruct (associate_among_first_match [] candidates r entity_id p
                  (Forall_nil _) E Hr) as (p' & Hp' & Hc).
      exists p', r. auto.
    + destruct IH as [ (p' & reading & Hp' & Hc) | [Hno Hp'] ].
      * left. exists p', reading. simpl. rewrite E. auto.
      * right. split; [ constructor; assumption | ].
        simpl. rewrite E. exact Hp'.
Qed.

Lemma reading_names_known : Forall (fun r => In r reading_names) reading_names.
Proof. apply Forall_forall. auto. Qed.

Lemma name_not_empty (reading : string) :
  In reading reading_names -> (reading =? "")%string = false.
Proof.
  simpl. intro H.
  repeat (destruct H as [ <- | H ]; [ reflexivity | ]). contradiction.
Qed.

Lemma resolve_reading_outcome (entity_id : string) (p : Plant) :
  (exists p' reading,
     resolve_reading entity_id p = (p', Return reading) /\
     same_observables p p' /\
     dict_get String.eqb entity_id (_sensors p') = Some reading /\
     (reading =? "")%string = false) \/
  (Forall (fun r => str_in r entity_id = false) reading_names /\
   resolve_reading entity_id p
   = (p, Raise (HomeAssistantError
                  ("Cannot extract reading from sensor " ++ entity_id)%string))).
Proof.
  assert (A : (exists p' reading,
                 _associate_sensor entity_id p = (p', Return reading) /\
                 same_observables p p' /\
                 dict_get String.eqb entity_id (_sensors p') = Some reading /\
                 (reading =? "")%string = false) \/
              (Forall (fun r => str_in r entity_id = false) reading_names /\
               _associate_sensor entity_id p
               = (p, Raise (HomeAssistantError
                    ("Cannot extract reading from sensor " ++ entity_id)%string)))).
  { unfold _associate_sensor. fold reading_names.
    destruct (associate_among_outcome reading_names entity_id p reading_names_known)
      as [ (p' & reading & Hp' & [Hc _] & Hname) | H ]; [ left | right; exact H ].
    exists p', reading. split; [ exact Hp' | ].
    split; [ | split; [ exact Hc | apply name_not_empty; exact Hname ] ].
    pose proof (keeps_fst _ _ p
                  (keeps_same_associate_among p reading_names entity_id)
                  (same_observables_refl p)) as K.
    rewrite Hp' in K. exact K. }
  unfold resolve_reading, bind, get.
  destruct (dict_get String.eqb entity_id (_sensors p)) as [r | ] eqn:E;
    [ | exact A ].
  destruct (r =? "")%string eqn:Er; [ exact A | ].
  left. exists p, r. unfold ret.
  split; [ reflexivity | ].
  split; [ apply same_observables_refl | auto ].
Qed.

End PlantUpdate.

(* ===================================================================== *)
(** * Plant: what an update stores                                        *)
(* ===================================================================== *)

(** The sensor is cached for the reading, whose dict satisfies [Q]. *)
Definition reading_has (entity_id reading : string) (Q : Reading -> Prop)
    (p : Plant) : Prop :=
  dict_get String.eqb entity_id (_sensors p) = Some reading /\
  exists r, dict_get String.eqb reading (_readings p) = Some r /\ Q r.

(** The status is one of the three status strings. *)
Definition status_computed (p : Plant) : Prop :=
  _state p = PStr STATE_OK \/ _state p = PStr STATE_PROBLEM \/
  _state p = PStr STATE_UNAVAILABLE.

Definition anything (e : exn) (p : Plant) : Prop := True.

Section PlantStores.
Variable py_float : string -> option pyfloat.

Lemma update_reading_sets (entity_id reading : string) (g : Reading -> Reading) :
  triple (fun s => dict_get String.eqb entity_id (_sensors s) = Some reading)
         (update_reading reading g)
         (fun _ => reading_has entity_id reading (fun r => exists r0, r = g r0))
         anything.
Proof.
  unfold update_reading, the_reading.
  eapply triple_bind with (Mid := fun r s =>
    dict_get String.eqb entity_id (_sensors s) = Some reading).
  - bind_get p0. intros s [H ->]. unfold must.
    destruct (dict_get String.eqb reading (_readings s)); simpl; [ exact H | exact I ].
  - intro r. bind_get p1. apply triple_modify.
    intros s [H ->]. split; [ exact H | ]. simpl.
    exists (g r). split; [ | eauto ].
    rewrite (dict_get_set String.eqb String.eqb_eq), String.eqb_refl. reflexivity.
Qed.

Lemma update_reading_has (entity_id reading : string) (g : Reading -> Reading)
    (Q Q' : Reading -> Prop) :
  (forall r, Q r -> Q' (g r)) ->
  triple (reading_has entity_id reading Q) (update_reading reading g)
         (fun _ => reading_has entity_id reading Q') anything.
Proof.
  intro Hg. unfold update_reading, the_reading.
  eapply triple_bind with (Mid := fun r s =>
    dict_get String.eqb entity_id (_sensors s) = Some reading /\
    dict_get String.eqb reading (_readings s) = Some r /\ Q r).
  - bind_get p0. intros s [[H (r & Hr & HQ)] ->]. unfold must.
    rewrite Hr. simpl. auto.
  - intro r. bind_get p1. apply triple_modify.
    intros s [(H & Hr & HQ) ->]. split; [ exact H | ]. simpl.
    exists (g r). split; [ | auto ].
    rewrite (dict_get_set String.eqb String.eqb_eq), String.eqb_refl. reflexivity.
Qed.

Lemma the_reading_has (entity_id reading reading' : string) (Q : Reading -> Prop) :
  triple (reading_has entity_id reading Q) (the_reading reading')
         (fun _ => reading_has entity_id reading Q) anything.
Proof.
  unfold the_reading. bind_get p0. intros s [H ->]. unfold must.
  destruct (dict_get String.eqb reading' (_readings s)); simpl; [ exact H | exact I ].
Qed.

Lemma brightness_has (entity_id reading : string) (Q : Reading -> Prop)
    (hass : Hass) (value : pyval) (timestamp : option day) :
  triple (reading_has entity_id reading Q)
         (brightness_add_measurement hass value timestamp)
         (fun _ => reading_has entity_id reading Q) anything.
Proof.
  intros p H. unfold brightness_add_measurement.
  destruct (DailyHistory.add_measurement _ _ _ _) as [h [ [] | e ]];
    [ exact H | exact I ].
Qed.

Lemma update_state_has (entity_id reading : string) (Q : Reading -> Prop) :
  triple (reading_has entity_id reading Q) (_update_state py_float)
         (fun _ s => reading_has entity_id reading Q s /\ status_computed s)
         anything.
Proof.
  unfold _update_state. bind_get p0.
  eapply triple_bind; [ apply triple_eval; intros e s _; exact I | intro checks ].
  intros s [[H ->] _].
  destruct (filter_not_none checks) as [ | x problems ];
    unfold modify; cbn beta iota.
  - split; [ exact H | left; reflexivity ].
  - split; [ exact H | ]. unfold status_computed. cbn [_state set_status].
    destruct (forallb _ _); [ right; right | right; left ]; reflexivity.
Qed.

(** The number an update stores for a reading: the float itself for
    temperature and humidity, its integer part for the other readings. *)
Definition stored_value (reading : string) (f : pyfloat) (v : pyval) : Prop :=
  if existsb (String.eqb reading) [READING_TEMP; READING_ENV_HUMID]
  then v = PFloat f
  else exists z, int_of_float f = Return z /\ v = PInt z.

Lemma store_update_stores (hass : Hass) (entity_id reading : string)
    (new_state : State) (f : pyfloat) :
  py_float (state new_state) = Some f ->
  triple (fun s => dict_get String.eqb entity_id (_sensors s) = Some reading)
         (store_update py_float hass reading new_state)
         (fun _ s =>
            reading_has entity_id reading
              (fun r => stored_value reading f (r_state r) /\
                        forall u, dict_get String.eqb ATTR_UNIT_OF_MEASUREMENT
                                    (attributes new_state) = Some u ->
                                  r_unit_of_measurement r = u) s /\
            status_computed s)
         anything.
Proof.
  intro Hf. unfold store_update. rewrite Hf.
  eapply triple_bind with (Mid := fun f' s =>
    f' = f /\ dict_get String.eqb entity_id (_sensors s) = Some reading).
  { apply triple_ret. auto. }
  intro f'.
  eapply triple_bind with (Mid := fun v s =>
    stored_value reading f v /\
    dict_get String.eqb entity_id (_sensors s) = Some reading).
  { unfold stored_value.
    destruct (existsb (String.eqb reading) [READING_TEMP; READING_ENV_HUMID]).
    - apply triple_ret. intros s [-> H]. auto.
    - eapply triple_bind with (Mid := fun z s =>
        int_of_float f = Return z /\
        dict_get String.eqb entity_id (_sensors s) = Some reading).
      + intros s [-> H]. unfold eval.
        destruct (int_of_float f); simpl; [ auto | exact I ].
      + intro z. apply triple_ret. intros s [Hz H]. eauto. }
  intro v.
  eapply triple_bind with (Mid := fun _ =>
    reading_has entity_id reading (fun r => stored_value reading f (r_state r))).
  { intros s [Hv H].
    pose proof (update_reading_sets entity_id reading (with_state v) s H) as T.
    destruct (update_reading reading (with_state v) s) as [s' [ [] | e ]];
      [ | exact I ].
    destruct T as [Hs (r & Hr & r0 & ->)]. split; [ exact Hs | ].
    exists (with_state v r0). auto. }
  intros _.
  eapply triple_bind with (Mid := fun _ =>
    reading_has entity_id reading (fun r => stored_value reading f (r_state r))).
  { destruct (reading =? READING_LIGHT_LUX)%string; [ | apply triple_ret; auto ].
    eapply triple_bind; [ apply the_reading_has | intro r; apply brightness_has ]. }
  intros _.
  eapply triple_bind with (Mid := fun _ =>
    reading_has entity_id reading
      (fun r => stored_value reading f (r_state r) /\
                forall u, dict_get String.eqb ATTR_UNIT_OF_MEASUREMENT
                            (attributes new_state) = Some u ->
                          r_unit_of_measurement r = u)).
  { destruct (dict_get String.eqb ATTR_UNIT_OF_MEASUREMENT (attributes new_state))
      as [u | ].
    - apply update_reading_has. intros r Hr. simpl.
      split; [ exact Hr | intros u' H; congruence ].
    - apply triple_ret. intros s [H (r & Hr & HQ)].
      split; [ exact H | ]. exists r. split; [ exact Hr | ].
      split; [ exact HQ | discriminate ]. }
  intros _. apply update_state_has.
Qed.

(** X7: an update with a state other than "unknown" and "unavailable" that
    returns has stored a number for the reading the sensor is cached for:
    the float that [float] read from the state for temperature and
    humidity, its integer part (toward zero) for every other reading; it
    has overridden the reading's unit if the update carried one; and it
    has recomputed the status. *)
Theorem returning_update_stores_number (hass : Hass) (entity_id : string)
    (new_state : State) (p p' : Plant) :
  state new_state <> STATE_UNKNOWN -> state new_state <> STATE_UNAVAILABLE ->
  state_changed py_float hass entity_id new_state p = (p', Return tt) ->
  exists reading f r,
    py_float (state new_state) = Some f /\
    dict_get String.eqb entity_id (_sensors p') = Some reading /\
    dict_get String.eqb reading (_readings p') = Some r /\
    stored_value reading f (r_state r) /\
    (forall u, dict_get String.eqb ATTR_UNIT_OF_MEASUREMENT
                 (attributes new_state) = Some u ->
               r_unit_of_measurement r = u) /\
    status_computed p'.
Proof.
  intros Hu Ha. rewrite state_changed_split. unfold bind at 1.
  destruct (resolve_reading_outcome entity_id p)
    as [ (p1 & reading & -> & _ & Hs & _) | [_ ->] ]; [ | discriminate ].
  unfold ignored_status.
  apply String.eqb_neq in Hu, Ha. rewrite Hu, Ha.
  unfold bind at 1, ret at 1.
  destruct (py_float (state new_state)) as [f | ] eqn:Hf.
  - intro E.
    pose proof (store_update_stores hass entity_id reading new_state f Hf p1 Hs) as T.
    rewrite E in T. destruct T as [(Hs' & r & Hr & Hv & Hunit) Hst].
    exists reading, f, r. auto 10.
  - unfold store_update. rewrite Hf. unfold bind, must, raise. discriminate.
Qed.


End PlantStores.

(* ===================================================================== *)
(** * Plant: the constructor                                              *)
(* ===================================================================== *)

(** The dict [_add_reading] builds. *)
Definition new_reading (config : Config) (reading entity_id : string) : Reading :=
  {| r_sensors := [entity_id];
     r_state := PNone;
     r_unit_of_measurement :=
       match dict_get String.eqb reading READINGS with
       | Some unit => unit
       | None => ""
       end;
     r_minimum := config_get config (PREFIX_MIN ++ reading)%string;
     r_maximum := config_get config (PREFIX_MAX ++ reading)%string |}.

(** The body of the constructor's loop over the configured sensors. *)
Definition register_sensor (kv : string * string) : M Plant unit :=
  let '(reading, entity_id) := kv in
  bind get (fun p =>
  bind (modify (set_sensors (dict_set String.eqb entity_id reading (_sensors p))))
       (fun _ => _add_reading reading entity_id)).

Lemma register_known_sensor (reading entity_id : string) (p : Plant) :
  In reading reading_names ->
  register_sensor (reading, entity_id) p
  = (set_readings
       (dict_set String.eqb reading (new_reading (_config p) reading entity_id)
          (_readings p))
       (set_sensors (dict_set String.eqb entity_id reading (_sensors p)) p),
     Return tt).
Proof.
  intro H.
  destruct (dict_get_some String.eqb String.eqb_eq reading READINGS H) as [unit Hu].
  unfold register_sensor, _add_reading, new_reading, bind, get, modify, must, ret.
  cbn beta iota. rewrite Hu. reflexivity.
Qed.




Lemma init_is_loop (config : Config) :
  __init__ config
  = match for_each (conf_sensors config) register_sensor
            {| _config := config; _sensors := []; _readings := [];
               _state := PNone; _problems := PROBLEM_NONE;
               _brightness_history :=
                 DailyHistory.__init__ (conf_check_days config) |}
    with
    | (p, Return _) => Return p
    | (_, Raise e) => Raise e
    end.
Proof. reflexivity. Qed.


Lemma register_all_fresh (l : list (string * string)) : forall p,
  Forall (fun kv => In (fst kv) reading_names) l ->
  NoDup (dict_keys l) -> NoDup (dict_values l) ->
  (forall k, In k (dict_keys l) -> ~ In k (dict_keys (_readings p))) ->
  (forall e, In e (dict_values l) -> ~ In e (dict_keys (_sensors p))) ->
  for_each l register_sensor p
  = ({| _config := _config p;
        _sensors := _sensors p ++ map (fun kv => (snd kv, fst kv)) l;
        _readings := _readings p ++
                     map (fun kv => (fst kv, new_reading (_config p) (fst kv) (snd kv))) l;
        _state := _state p;
        _problems := _problems p;
        _brightness_history := _brightness_history p |}, Return tt).
Proof.
  induction l as [ | [reading e] l IH]; intros p F NK NV HK HV.
  - simpl. rewrite !app_nil_r. destruct p; reflexivity.
  - inversion F as [ | ? ? Hk F' ]; subst. simpl in Hk.
    inversion NK as [ | ? ? Hnk NK' ]; subst.
    inversion NV as [ | ? ? Hnv NV' ]; subst.
    cbn [for_each]. unfold bind. rewrite (register_known_sensor reading e p Hk).
    rewrite (dict_set_fresh String.eqb String.eqb_eq e reading (_sensors p))
      by (apply HV; left; reflexivity).
    rewrite (dict_set_fresh String.eqb String.eqb_eq reading _ (_readings p))
      by (apply HK; left; reflexivity).
    rewrite IH; try assumption.
    + cbn [_config _sensors _readings _state _problems _brightness_history
           set_sensors set_readings map fst snd].
      rewrite <- !app_assoc. reflexivity.
    + intros k Hin. cbn [_readings set_readings]. rewrite dict_keys_app.
      intro H. apply in_app_iff in H. destruct H as [H | [ <- | [] ]].
      * apply (HK k); [ right; exact Hin | exact H ].
      * apply Hnk. exact Hin.
    + intros e' Hin. cbn [_sensors set_sensors set_readings]. rewrite dict_keys_app.
      intro H. apply in_app_iff in H. destruct H as [H | [ <- | [] ]].
      * apply (HV e'); [ right; exact Hin | exact H ].
      * apply Hnv. exact Hin.
Qed.

(** X10: when the configured sensors are for known readings and no entity is
    configured for two readings, the constructed plant caches every
    sensor for its reading and has one dict per configured reading, in
    the order of the configuration: the sensor alone in its list, no
    state, the default unit, and the bounds [min_<reading>] and
    [max_<reading>] of the configuration; no status yet, the problem
    description "none", and a new history of [check_days] days. *)
Theorem constructor_registers_sensors (config : Config) :
  Forall (fun kv => In (fst kv) reading_names) (conf_sensors config) ->
  NoDup (dict_keys (conf_sensors config)) ->
  NoDup (dict_values (conf_sensors config)) ->
  __init__ config
  = Return {| _config := config;
              _sensors := map (fun kv => (snd kv, fst kv)) (conf_sensors config);
              _readings :=
                map (fun kv => (fst kv, new_reading config (fst kv) (snd kv)))
                    (conf_sensors config);
              _state := PNone;
              _problems := PROBLEM_NONE;
              _brightness_history :=
                DailyHistory.__init__ (conf_check_days config) |}.
Proof.
  intros F NK NV. rewrite init_is_loop.
  rewrite register_all_fresh; try assumption; try (intros ? _ []).
  reflexivity.
Qed.


Lemma constructor_registers_sensors_witness :
  __init__ lux_config = Return lux_plant.
Proof.
  apply (constructor_registers_sensors lux_config).
  - repeat constructor.
  - constructor; [ simpl; tauto | constructor ].
  - constructor; [ simpl; tauto | constructor ].
Defined.

(* ===================================================================== *)
(** * Plant: the brightness history it holds                              *)
(* ===================================================================== *)

Section HistoryFrame.
Variable Ph : DailyHistory.t -> Prop.

(** A property of the plant's history alone. *)
Definition of_history (p : Plant) : Prop := Ph (_brightness_history p).

Lemma frame_add_reading (reading entity_id : string) :
  keeps of_history (_add_reading reading entity_id).
Proof.
  unfold keeps, _add_reading. bind_get p0.
  eapply triple_bind; [ apply triple_must; intros s [H _]; exact H | intro unit ].
  apply triple_modify. intros s [[H _] _]. exact H.
Qed.

Lemma frame_associate_among (candidates : list string) (entity_id : string) :
  keeps of_history (associate_among candidates entity_id).
Proof.
  unfold keeps. induction candidates as [ | reading candidates IH]; simpl.
  - apply triple_raise. auto.
  - destruct (str_in reading entity_id); [ | exact IH ].
    bind_get p0.
    eapply triple_bind with (Mid := fun _ => of_history).
    { apply triple_modify. intros s [H _]. exact H. }
    intros _. bind_get p1.
    eapply triple_bind with (Mid := fun _ => of_history).
    + destruct (dict_get String.eqb reading (_readings p1)) as [r | ].
      * apply triple_modify. intros s [H _]. exact H.
      * eapply triple_weaken; [ | apply frame_add_reading ].
        intros s [H _]. exact H.
    + intros _. apply triple_ret. auto.
Qed.

Lemma frame_resolve_reading (entity_id : string) :
  keeps of_history (resolve_reading entity_id).
Proof.
  unfold keeps, resolve_reading. bind_get p0.
  eapply triple_weaken with (Pre := of_history); [ intros s [H _]; exact H | ].
  destruct (dict_get String.eqb entity_id (_sensors p0)) as [r | ].
  - destruct (r =? "")%string;
      [ apply frame_associate_among | apply triple_ret; auto ].
  - apply frame_associate_among.
Qed.

Lemma frame_the_reading (reading : string) : keeps of_history (the_reading reading).
Proof.
  unfold keeps, the_reading. bind_get p0. intros s [H ->]. unfold must.
  destruct (dict_get _ _ _); exact H.
Qed.

Lemma frame_update_reading (reading : string) (g : Reading -> Reading) :
  keeps of_history (update_reading reading g).
Proof.
  unfold keeps, update_reading.
  eapply triple_bind; [ apply frame_the_reading | intro r ].
  bind_get p1. apply triple_modify. intros s [H _]. exact H.
Qed.

Lemma frame_register_sensor (kv : string * string) :
  keeps of_history (register_sensor kv).
Proof.
  destruct kv as [reading entity_id]. unfold keeps, register_sensor. bind_get p0.
  eapply triple_bind with (Mid := fun _ => of_history).
  - apply triple_modify. intros s [H _]. exact H.
  - intros _. apply frame_add_reading.
Qed.

End HistoryFrame.

Section PlantHistory.
Variable py_float : string -> option pyfloat.

Lemma frame_update_state (Ph : DailyHistory.t -> Prop) :
  keeps (of_history Ph) (_update_state py_float).
Proof.
  unfold keeps, _update_state. bind_get p0.
  eapply triple_bind; [ apply triple_eval; intros e s [H _]; exact H | intro checks ].
  intros s [[H ->] _].
  destruct (filter_not_none checks); exact H.
Qed.

Lemma frame_brightness (Ph : DailyHistory.t -> Prop) (hass : Hass)
    (value : pyval) (timestamp : option day) :
  (forall h now v ts, Ph h -> Ph (fst (DailyHistory.add_measurement now v ts h))) ->
  keeps (of_history Ph) (brightness_add_measurement hass value timestamp).
Proof.
  intros Hadd p H. unfold brightness_add_measurement.
  pose proof (Hadd _ (today hass) value timestamp H) as H'.
  destruct (DailyHistory.add_measurement _ _ _ _) as [h [ [] | e ]]; exact H'.
Qed.

Lemma frame_state_changed (Ph : DailyHistory.t -> Prop) (hass : Hass)
    (entity_id : string) (new_state : State) :
  (forall h now v ts, Ph h -> Ph (fst (DailyHistory.add_measurement now v ts h))) ->
  keeps (of_history Ph) (state_changed py_float hass entity_id new_state).
Proof.
  intro Hadd.
  assert (K : keeps (of_history Ph)
            (bind (resolve_reading entity_id) (fun reading =>
             bind (ignored_status hass reading new_state) (fun ignored =>
             if ignored : bool then ret tt
             else store_update py_float hass reading new_state))));
    [ | intros p H; rewrite state_changed_split; exact (K p H) ].
  unfold keeps.
  eapply triple_bind; [ apply frame_resolve_reading | intro reading ].
  eapply triple_bind with (Mid := fun _ => of_history Ph).
  { unfold ignored_status.
    destruct (state new_state =? STATE_UNKNOWN)%string; [ apply triple_ret; auto | ].
    destruct (state new_state =? STATE_UNAVAILABLE)%string; [ | apply triple_ret; auto ].
    eapply triple_bind; [ apply frame_the_reading | intro r0; apply triple_ret; auto ]. }
  intros [ | ]; [ apply triple_ret; auto | ].
  unfold store_update.
  eapply triple_bind with (Mid := fun _ => of_history Ph).
  { unfold must. destruct (py_float (state new_state));
      [ apply triple_ret | apply triple_raise ]; auto. }
  intro f.
  eapply triple_bind with (Mid := fun _ => of_history Ph).
  { destruct (existsb _ _).
    - apply triple_ret. auto.
    - eapply triple_bind with (Mid := fun _ => of_history Ph).
      + unfold eval. intros s H. destruct (int_of_float f); exact H.
      + intro z. apply triple_ret. auto. }
  intro v.
  eapply triple_bind; [ apply frame_update_reading | intro u0 ].
  eapply triple_bind with (Mid := fun _ => of_history Ph).
  { destruct (reading =? READING_LIGHT_LUX)%string; [ | apply triple_ret; auto ].
    eapply triple_bind; [ apply frame_the_reading | intro r ].
    apply frame_brightness. exact Hadd. }
  intros _.
  eapply triple_bind with (Mid := fun _ => of_history Ph).
  { destruct (dict_get String.eqb ATTR_UNIT_OF_MEASUREMENT (attributes new_state))
      as [u | ]; [ apply frame_update_reading | apply triple_ret; auto ]. }
  intros _. apply frame_update_state.
Qed.

(** The history of a plant is a history of [check_days] days fed by
    [add_measurement] calls only. *)
Lemma plant_history_reachable (config : Config) (p : Plant) :
  plant_reachable py_float config p ->
  reachable (conf_check_days config) (_brightness_history p).
Proof.
  induction 1 as [ p E | p hass e ns R IH G | p hass value ts R IH ].
  - rewrite init_is_loop in E.
    match type of E with match for_each ?l ?body ?blank with _ => _ end = _ =>
      pose proof (keeps_fst _ _ blank
                    (keeps_for_each (of_history (reachable (conf_check_days config)))
                       l body (fun x _ => frame_register_sensor _ x))
                    (reach_new _)) as K;
      destruct (for_each l body blank) as [p' [ [] | e ]]
    end; [ injection E as <-; exact K | discriminate ].
  - apply (keeps_fst (of_history (reachable (conf_check_days config))));
      [ | exact IH ].
    apply frame_state_changed. intros h now v ts. apply reach_add.
  - apply (keeps_fst (of_history (reachable (conf_check_days config))));
      [ | exact IH ].
    apply frame_brightness. intros h now v ts'. apply reach_add.
Qed.

End PlantHistory.

Lemma update_state_returned_checks (py_float : string -> option pyfloat)
    (p p' : Plant) :
  _update_state py_float p = (p', Return tt) ->
  forall reading, In reading (dict_keys (_readings p)) ->
    exists o, _check_reading py_float p reading = Return o.
Proof.
  unfold _update_state, bind, get, eval, modify. intro H.
  destruct (map_result _ _) as [checks | e] eqn:E; [ | discriminate ].
  eapply map_result_raises; eassumption.
Qed.

Lemma zero_capacity_add (h : DailyHistory.t) (now : day) (v : pyval)
    (timestamp : option day) :
  reachable 0 h -> isinstance_number v = true ->
  exists h', DailyHistory.add_measurement now v timestamp h = (h', Raise IndexError) /\
             DailyHistory.max h' = PNone.
Proof.
  intros R Hv.
  destruct (zero_capacity_state h R) as (Hd & Hm & Hdays).
  destruct (reachable_well_formed 0 h R) as [_ L].
  destruct h as [N days dict m]. simpl in *. subst N m.
  destruct Hdays as [-> | ->].
  - rewrite add_first_day_no_room by assumption. eauto.
  - rewrite add_to_empty_deque by assumption. eauto.
Qed.

Lemma resolve_cached (entity_id reading : string) (p : Plant) :
  dict_get String.eqb entity_id (_sensors p) = Some reading ->
  (reading =? "")%string = false ->
  resolve_reading entity_id p = (p, Return reading).
Proof.
  intros H E. unfold resolve_reading, bind, get. rewrite H, E. reflexivity.
Qed.

Lemma bind_return {S A B : Type} (m : M S A) (k : A -> M S B) (s s' : S) (a : A) :
  m s = (s', Return a) -> bind m k s = k a s'.
Proof. intro H. unfold bind. rewrite H. reflexivity. Qed.

Lemma bind_raise {S A B : Type} (m : M S A) (k : A -> M S B) (s s' : S) (e : exn) :
  m s = (s', Raise e) -> bind m k s = (s', Raise e).
Proof. intro H. unfold bind. rewrite H. reflexivity. Qed.

Lemma the_reading_eq (reading : string) (r : Reading) (p : Plant) :
  dict_get String.eqb reading (_readings p) = Some r ->
  the_reading reading p = (p, Return r).
Proof. intro H. unfold the_reading, bind, get, must. rewrite H. reflexivity. Qed.

Lemma update_reading_eq (reading : string) (g : Reading -> Reading) (r : Reading)
    (p : Plant) :
  dict_get String.eqb reading (_readings p) = Some r ->
  update_reading reading g p
  = (set_readings (dict_set String.eqb reading (g r) (_readings p)) p, Return tt).
Proof.
  intro H. unfold update_reading.
  rewrite (bind_return _ _ p p r (the_reading_eq reading r p H)).
  reflexivity.
Qed.

Section ZeroCheckDays.
Variable py_float : string -> option pyfloat.

(** X11: with [check_days = 0] (which the schema accepts) a brightness update
    stores its value as the state of the reading and then raises
    [IndexError] out of the history: the status and the problem
    description are not recomputed, and the history's [max] stays null. *)
Theorem zero_check_days_breaks_brightness (config : Config) (hass : Hass)
    (entity_id : string) (new_state : State) (p : Plant) (r : Reading)
    (f : pyfloat) (z : Z) :
  plant_reachable py_float config p -> conf_check_days config = 0 ->
  dict_get String.eqb entity_id (_sensors p) = Some READING_LIGHT_LUX ->
  dict_get String.eqb READING_LIGHT_LUX (_readings p) = Some r ->
  state new_state <> STATE_UNKNOWN -> state new_state <> STATE_UNAVAILABLE ->
  py_float (state new_state) = Some f -> int_of_float f = Return z ->
  exists p',
    state_changed py_float hass entity_id new_state p = (p', Raise IndexError) /\
    reading_state p' READING_LIGHT_LUX = PInt z /\
    _state p' = _state p /\ _problems p' = _problems p /\
    DailyHistory.max (_brightness_history p') = PNone.
Proof.
  intros R H0 Hs Hr Hu Ha Hf Hz.
  pose proof (plant_history_reachable py_float config p R) as Rh.
  rewrite H0 in Rh.
  destruct (zero_capacity_add (_brightness_history p) (today hass) (PInt z)
              (Some (last_updated new_state)) Rh eq_refl) as (h' & Eh & Hmax).
  set (p1 := set_readings (dict_set String.eqb READING_LIGHT_LUX
                             (with_state (PInt z) r) (_readings p)) p).
  assert (Hr1 : dict_get String.eqb READING_LIGHT_LUX (_readings p1)
                = Some (with_state (PInt z) r)).
  { unfold p1. cbn [_readings set_readings].
    rewrite (dict_get_set String.eqb String.eqb_eq), String.eqb_refl. reflexivity. }
  exists (set_brightness_history h' p1).
  split.
  - rewrite state_changed_split.
    rewrite (bind_return _ _ p p READING_LIGHT_LUX
               (resolve_cached entity_id READING_LIGHT_LUX p Hs eq_refl)).
    apply String.eqb_neq in Hu, Ha.
    rewrite (bind_return _ _ p p false).
    2: { unfold ignored_status. rewrite Hu, Ha. reflexivity. }
    cbv iota. unfold store_update.
    rewrite (bind_return _ _ p p f).
    2: { rewrite Hf. reflexivity. }
    rewrite (bind_return _ _ p p (PInt z)).
    2: { change (existsb (String.eqb READING_LIGHT_LUX)
                   [READING_TEMP; READING_ENV_HUMID]) with false.
         cbv iota. unfold bind, eval, ret. rewrite Hz. reflexivity. }
    rewrite (bind_return _ _ p p1 tt
               (update_reading_eq READING_LIGHT_LUX (with_state (PInt z)) r p Hr)).
    apply bind_raise.
    change (READING_LIGHT_LUX =? READING_LIGHT_LUX)%string with true. cbv iota.
    rewrite (bind_return _ _ p1 p1 _ (the_reading_eq READING_LIGHT_LUX _ p1 Hr1)).
    unfold brightness_add_measurement. cbn [r_state with_state].
    change (_brightness_history p1) with (_brightness_history p).
    rewrite Eh. reflexivity.
  - unfold reading_state. cbn [_readings set_brightness_history].
    rewrite Hr1. cbn [r_state with_state _state _problems _brightness_history
                      set_brightness_history].
    unfold p1. cbn [_state _problems set_readings]. auto.
Qed.

(** X12: in a plant with [check_days = 0], once a brightness is stored
    and a minimum brightness is configured, the check of the brightness
    raises [TypeError] (the null [max] is compared with the bound), and
    no recomputation of the status returns. *)
Theorem zero_check_days_breaks_status (config : Config) (p : Plant) (r : Reading)
    (bound : pyfloat) :
  plant_reachable py_float config p -> conf_check_days config = 0 ->
  dict_get String.eqb READING_LIGHT_LUX (_readings p) = Some r ->
  r_state r <> PNone -> is_unavailable (r_state r) = false ->
  truthy (r_minimum r) = true -> float_of py_float (r_minimum r) = Return bound ->
  _check_reading py_float p READING_LIGHT_LUX = Raise TypeError /\
  forall p', _update_state py_float p <> (p', Return tt).
Proof.
  intros R H0 Hr Hn Hu Ht Hb.
  pose proof (plant_history_reachable py_float config p R) as Rh.
  rewrite H0 in Rh. destruct (zero_capacity_state _ Rh) as (_ & Hmax & _).
  assert (C : _check_reading py_float p READING_LIGHT_LUX = Raise TypeError).
  { unfold _check_reading. rewrite Hr, Hu.
    unfold _check_min. rewrite Hr, Ht, Hb.
    change (READING_LIGHT_LUX =? READING_LIGHT_LUX)%string with true.
    cbv beta iota zeta. rewrite Hmax. simpl.
    destruct (r_state r); [ congruence | reflexivity .. ]. }
  split; [ exact C | ].
  intros p' E.
  destruct (update_state_returned_checks py_float p p' E READING_LIGHT_LUX)
    as [o Ho].
  - unfold dict_keys. change READING_LIGHT_LUX with (fst (READING_LIGHT_LUX, r)).
    apply in_map. apply (dict_get_in String.eqb String.eqb_eq). exact Hr.
  - congruence.
Qed.

End ZeroCheckDays.

(** ** Concrete runs of the updates *)

Lemma returning_update_stores_number_witness :
  exists reading f r,
    integer_float "21" = Some f /\
    dict_get String.eqb "sensor.fern_temp"
      (_sensors (fst (state_changed integer_float empty_registry "sensor.fern_temp"
                        (update "21") (thermometer (PInt 10) (PInt 30) PNone))))
    = Some reading /\
    dict_get String.eqb reading
      (_readings (fst (state_changed integer_float empty_registry "sensor.fern_temp"
                         (update "21") (thermometer (PInt 10) (PInt 30) PNone))))
    = Some r /\
    stored_value reading f (r_state r) /\
    (forall u, dict_get String.eqb ATTR_UNIT_OF_MEASUREMENT (attributes (update "21"))
               = Some u -> r_unit_of_measurement r = u) /\
    status_computed
      (fst (state_changed integer_float empty_registry "sensor.fern_temp"
              (update "21") (thermometer (PInt 10) (PInt 30) PNone))).
Proof.
  apply (returning_update_stores_number integer_float empty_registry
           "sensor.fern_temp" (update "21") (thermometer (PInt 10) (PInt 30) PNone)).
  - discriminate.
  - discriminate.
  - reflexivity.
Defined.


(** A plant whose history keeps no day at all. *)
Definition no_days_config : Config :=
  {| conf_sensors := [("light_lux", "sensor.fern_light_lux")];
     conf_options := [("min_light_lux", PInt 1000)];
     conf_check_days := 0 |}.

Definition no_days_plant : Plant :=
  {| _config := no_days_config;
     _sensors := [("sensor.fern_light_lux", "light_lux")];
     _readings := [("light_lux", {| r_sensors := ["sensor.fern_light_lux"];
                                    r_state := PNone;
                                    r_unit_of_measurement := "lux";
                                    r_minimum := PInt 1000;
                                    r_maximum := PNone |})];
     _state := PNone;
     _problems := PROBLEM_NONE;
     _brightness_history := DailyHistory.__init__ 0 |}.

Definition no_days_plant_500 : Plant :=
  fst (state_changed integer_float empty_registry "sensor.fern_light_lux"
         (update "500") no_days_plant).

Lemma no_days_plant_reachable : plant_reachable integer_float no_days_config no_days_plant.
Proof. apply reach_init. reflexivity. Defined.

Lemma no_days_plant_500_reachable :
  plant_reachable integer_float no_days_config no_days_plant_500.
Proof.
  apply reach_state_changed.
  - exact no_days_plant_reachable.
  - exact empty_registry_has_no_key.
Defined.

Lemma zero_check_days_breaks_brightness_witness :
  exists p',
    state_changed integer_float empty_registry "sensor.fern_light_lux"
      (update "500") no_days_plant = (p', Raise IndexError) /\
    reading_state p' READING_LIGHT_LUX = PInt 500 /\
    _state p' = PNone /\ _problems p' = PROBLEM_NONE /\
    DailyHistory.max (_brightness_history p') = PNone.
Proof.
  apply (zero_check_days_breaks_brightness integer_float no_days_config
           empty_registry "sensor.fern_light_lux" (update "500") no_days_plant
           {| r_sensors := ["sensor.fern_light_lux"];
              r_state := PNone;
              r_unit_of_measurement := "lux";
              r_minimum := PInt 1000;
              r_maximum := PNone |}
           (FFin (inject_Z 500)) 500).
  - exact no_days_plant_reachable.
  - reflexivity.
  - reflexivity.
  - reflexivity.
  - discriminate.
  - discriminate.
  - reflexivity.
  - reflexivity.
Defined.

Lemma zero_check_days_breaks_status_witness :
  _check_reading integer_float no_days_plant_500 READING_LIGHT_LUX = Raise TypeError /\
  forall p', _update_state integer_float no_days_plant_500 <> (p', Return tt).
Proof.
  apply (zero_check_days_breaks_status integer_float no_days_config
           no_days_plant_500
           {| r_sensors := ["sensor.fern_light_lux"];
              r_state := PInt 500;
              r_unit_of_measurement := "lux";
              r_minimum := PInt 1000;
              r_maximum := PNone |}
           (FFin (inject_Z 1000))).
  - exact no_days_plant_500_reachable.
  - reflexivity.
  - reflexivity.
  - discriminate.
  - reflexivity.
  - reflexivity.
  - reflexivity.
Defined.

(* ===================================================================== *)
(** * The same update, delivered twice                                    *)
(* ===================================================================== *)

Lemma dict_set_same {K V : Type} (eqb : K -> K -> bool) (k : K) (v : V)
    (d : list (K * V)) :
  dict_get eqb k d = Some v -> dict_set eqb k v d = d.
Proof.
  induction d as [ | [k' v'] d IH ]; simpl; [ discriminate | ].
  destruct (eqb k k'); intro H.
  - injection H as ->. reflexivity.
  - rewrite (IH H). reflexivity.
Qed.

Lemma py_max2_settled (v old m' : pyval) :
  isinstance_number v = true -> isinstance_number old = true ->
  py_max2 v old = Return m' -> py_max2 v m' = Return m'.
Proof.
  intros Hv Ho. unfold py_max2.
  destruct (py_gt old v) as [[ | ] | e] eqn:E; intro H; [ | | discriminate ];
    injection H as <-.
  - rewrite E. reflexivity.
  - assert (py_gt v v = Return false) as ->; [ | reflexivity ].
    unfold py_gt. destruct v as [ | z | f | s ]; try discriminate;
      cbv beta iota delta [py_lt number_of]; rewrite float_ltb_irrefl; reflexivity.
Qed.

Section DailyHistoryTwice.
Import DailyHistory.

(** Nothing is left to record of the value [v] for the day [d]: the day
    is behind the latest day, or it is the latest day and its aggregate
    is not below [v]. *)
Definition settled (v : pyval) (d : Z) (h : t) : Prop :=
  exists c, latest_day h = Some c /\
    (d < c \/ (d = c /\ exists x, dict_get Z.eqb d (_max_dict h) = Some x /\
                                  py_max2 v x = Return x)).

Lemma accepts_settled (v : pyval) (d : Z) (h h' : t) :
  proper h -> isinstance_number v = true -> accepts v d h h' -> settled v d h'.
Proof.
  intros (W & _ & _) Hv A.
  assert (Vv : py_max2 v v = Return v).
  { destruct (py_max2_number v v Hv Hv) as (m & E & [-> | ->]); exact E. }
  destruct A as [ Hd Hm | c Hc Hlt | ds old m' mx Hd HL Hold H2 Hmx
                | oldest c rest x mx kept Hd HL Hlt Hlen Hm Hfresh Hmx
                | ds c mx Hd HL Hlt Hlen Hfresh Hmx ].
  - exists d. split; [ reflexivity | right; split; [ reflexivity | ] ].
    exists v. simpl. rewrite Z.eqb_refl. auto.
  - exists c. auto.
  - exists d. unfold latest_day. simpl. split; [ exact HL | right; split; [ reflexivity | ] ].
    exists m'. rewrite (dict_get_set Z.eqb Z.eqb_eq), Z.eqb_refl. split; [ reflexivity | ].
    unfold well_formed in W. rewrite Hd in W.
    destruct W as [-> | (_ & _ & Hn & _)]; [ discriminate | ].
    exact (py_max2_settled v old m' Hv (numbers_get _ _ _ Hn Hold) H2).
  - exists d. unfold latest_day. simpl. rewrite last_item_app.
    split; [ reflexivity | right; split; [ reflexivity | ] ].
    exists v. split; [ | exact Vv ].
    rewrite <- (dict_set_fresh Z.eqb Z.eqb_eq) by assumption.
    rewrite (dict_get_set Z.eqb Z.eqb_eq), Z.eqb_refl. reflexivity.
  - exists d. unfold latest_day. simpl. rewrite last_item_app.
    split; [ reflexivity | right; split; [ reflexivity | ] ].
    exists v. split; [ | exact Vv ].
    rewrite <- (dict_set_fresh Z.eqb Z.eqb_eq) by assumption.
    rewrite (dict_get_set Z.eqb Z.eqb_eq), Z.eqb_refl. reflexivity.
Qed.

Lemma settled_add (h : t) (now : day) (v : pyval) (timestamp : option day) :
  proper h -> isinstance_number v = true ->
  settled v (day_of now timestamp) h ->
  add_measurement now v timestamp h = (h, Return tt).
Proof.
  intros (W & _ & HE) Hv (c & Hc & Hcase).
  destruct h as [N [ ds | ] dict m]; unfold latest_day in Hc; simpl in *;
    [ | discriminate ].
  unfold well_formed in W. simpl in W.
  destruct W as [-> | (_ & _ & _ & Hmax & _)]; [ congruence | ].
  destruct Hcase as [Hlt | (Heq & x & Hx & H2)].
  - eapply add_earlier_day; eauto.
  - subst c.
    erewrite add_same_day; try eassumption; try reflexivity.
    + rewrite (dict_set_same Z.eqb _ _ _ Hx). reflexivity.
    + rewrite (dict_set_same Z.eqb _ _ _ Hx). exact Hmax.
Qed.

Lemma add_twice (h h1 : t) (now : day) (v : pyval) (timestamp : option day) :
  proper h ->
  add_measurement now v timestamp h = (h1, Return tt) ->
  add_measurement now v timestamp h1 = (h1, Return tt).
Proof.
  intros P E.
  destruct (isinstance_number v) eqn:Hv.
  - destruct (proper_add_number h now v timestamp P Hv) as (h' & E' & A & P').
    rewrite E in E'. injection E' as <-.
    apply (settled_add h1 now v timestamp P' Hv).
    exact (accepts_settled v _ h h1 P Hv A).
  - unfold add_measurement in *. rewrite Hv in *.
    injection E as <-. reflexivity.
Qed.

End DailyHistoryTwice.


Lemma reachable_add_twice (N : Z) (h h1 : DailyHistory.t) (now : day)
    (v : pyval) (timestamp : option day) :
  reachable N h ->
  DailyHistory.add_measurement now v timestamp h = (h1, Return tt) ->
  DailyHistory.add_measurement now v timestamp h1 = (h1, Return tt).
Proof.
  intros R E.
  destruct (Z.eq_dec N 0) as [-> | HN].
  - destruct (isinstance_number v) eqn:Hv.
    + destruct (zero_capacity_add h now v timestamp R Hv) as (h' & E' & _).
      congruence.
    + unfold DailyHistory.add_measurement in *. rewrite Hv in *.
      injection E as <-. reflexivity.
  - eapply add_twice; [ eapply reachable_proper; eassumption | exact E ].
Qed.

Lemma bind_inv {S A B : Type} (m : M S A) (k : A -> M S B) (s s' : S) (b : B) :
  bind m k s = (s', Return b) ->
  exists a s0, m s = (s0, Return a) /\ k a s0 = (s', Return b).
Proof.
  unfold bind. destruct (m s) as [s0 [a | e]]; [ eauto | discriminate ].
Qed.

Lemma the_reading_inv (reading : string) (r : Reading) (p p' : Plant) :
  the_reading reading p = (p', Return r) ->
  p' = p /\ dict_get String.eqb reading (_readings p) = Some r.
Proof.
  unfold the_reading, bind, get, must.
  destruct (dict_get String.eqb reading (_readings p)); [ | discriminate ].
  intro H. injection H as <- <-. auto.
Qed.

Lemma update_reading_inv (reading : string) (g : Reading -> Reading) (p p' : Plant) :
  update_reading reading g p = (p', Return tt) ->
  exists r, dict_get String.eqb reading (_readings p) = Some r /\
            p' = set_readings (dict_set String.eqb reading (g r) (_readings p)) p.
Proof.
  intro H. unfold update_reading in H.
  apply bind_inv in H as (r & p0 & H0 & H).
  apply the_reading_inv in H0 as [-> Hr].
  exists r. split; [ exact Hr | ].
  unfold bind, get, modify in H. injection H as <-. reflexivity.
Qed.

(** Writing back what a reading already holds leaves the plant as it is. *)
Lemma update_reading_fixed (reading : string) (g : Reading -> Reading) (r : Reading)
    (p : Plant) :
  dict_get String.eqb reading (_readings p) = Some r -> g r = r ->
  update_reading reading g p = (p, Return tt).
Proof.
  intros Hr Hg. rewrite (update_reading_eq reading g r p Hr), Hg.
  rewrite (dict_set_same String.eqb _ _ _ Hr). destruct p; reflexivity.
Qed.

Section PlantTwice.
Variable py_float : string -> option pyfloat.

Lemma update_state_inv (p p' : Plant) :
  _update_state py_float p = (p', Return tt) ->
  exists st problems, p' = set_status st problems p.
Proof.
  unfold _update_state, bind, get, eval, modify.
  destruct (map_result _ _) as [checks | e]; [ | discriminate ].
  destruct (filter_not_none checks); intro H; injection H as <-; eauto.
Qed.

(** The status is a function of the readings and the history: computing
    it again gives it again. *)
Lemma update_state_twice (p p' : Plant) :
  _update_state py_float p = (p', Return tt) ->
  _update_state py_float p' = (p', Return tt).
Proof.
  intro E. destruct (update_state_inv p p' E) as (st & problems & ->).
  assert (X : _update_state py_float (set_status st problems p)
              = (let (q, outcome) := _update_state py_float p in
                 match outcome with
                 | Return _ => (set_status (match _state q with PStr s => s | _ => "" end)
                                           (_problems q) (set_status st problems p),
                                Return tt)
                 | Raise e => (set_status st problems p, Raise e)
                 end)).
  { unfold _update_state, bind, get, eval, modify.
    change (map_result (_check_reading py_float (set_status st problems p))
              (dict_keys (_readings (set_status st problems p))))
      with (map_result (_check_reading py_float p) (dict_keys (_readings p))).
    destruct (map_result _ _) as [checks | e]; [ | reflexivity ].
    destruct (filter_not_none checks); reflexivity. }
  rewrite X, E. reflexivity.
Qed.

Lemma store_update_twice (N : Z) (hass : Hass) (reading : string)
    (new_state : State) (p p1 : Plant) :
  reachable N (_brightness_history p) ->
  store_update py_float hass reading new_state p = (p1, Return tt) ->
  _sensors p1 = _sensors p /\
  (exists r, dict_get String.eqb reading (_readings p1) = Some r) /\
  store_update py_float hass reading new_state p1 = (p1, Return tt).
Proof.
  intros R E. unfold store_update in E.
  apply bind_inv in E as (f1 & s0 & E0 & E).
  destruct (py_float (state new_state)) as [f | ] eqn:Hf; [ | discriminate ].
  injection E0 as <- <-.
  apply bind_inv in E as (v & s1 & E1 & E).
  assert (V : s1 = p /\ forall q : Plant,
                (if existsb (String.eqb reading) [READING_TEMP; READING_ENV_HUMID]
                 then ret (PFloat f)
                 else bind (eval (int_of_float f)) (fun z => ret (PInt z))) q
                = (q, Return v)).
  { destruct (existsb (String.eqb reading) [READING_TEMP; READING_ENV_HUMID]).
    - injection E1 as <- <-. auto.
    - unfold bind, eval, ret in E1 |- *.
      destruct (int_of_float f) as [z | e]; [ | discriminate ].
      injection E1 as <- <-. auto. }
  destruct V as [-> V]. clear E1.
  apply bind_inv in E as ([] & s2 & E2 & E).
  apply update_reading_inv in E2 as (r & Hr & ->).
  set (s2 := set_readings (dict_set String.eqb reading (with_state v r) (_readings p)) p)
    in *.
  assert (Hr2 : dict_get String.eqb reading (_readings s2) = Some (with_state v r)).
  { unfold s2. cbn [_readings set_readings].
    rewrite (dict_get_set String.eqb String.eqb_eq), String.eqb_refl. reflexivity. }
  apply bind_inv in E as ([] & s3 & E3 & E).
  assert (B : _sensors s3 = _sensors p /\ _readings s3 = _readings s2 /\
              forall q : Plant,
                _readings q = _readings s3 \/
                (exists r4, dict_get String.eqb reading (_readings q) = Some r4 /\
                            r_state r4 = v) ->
                _brightness_history q = _brightness_history s3 ->
                (if (reading =? READING_LIGHT_LUX)%string
                 then bind (the_reading reading) (fun r' =>
                        brightness_add_measurement hass (r_state r')
                          (Some (last_updated new_state)))
                 else ret tt) q = (q, Return tt)).
  { destruct (reading =? READING_LIGHT_LUX)%string.
    - apply bind_inv in E3 as (r' & s' & T & E3).
      apply the_reading_inv in T as [-> T].
      rewrite Hr2 in T. injection T as <-. cbn [r_state with_state] in E3.
      unfold brightness_add_measurement in E3.
      destruct (DailyHistory.add_measurement (today hass) v
                  (Some (last_updated new_state)) (_brightness_history s2))
        as [h' outcome] eqn:A.
      injection E3 as <- ->.
      change (_brightness_history s2) with (_brightness_history p) in A.
      pose proof (reachable_add_twice N _ _ _ _ _ R A) as A'.
      split; [ reflexivity | split; [ reflexivity | ] ].
      intros q Hq Hh.
      assert (exists r4, dict_get String.eqb reading (_readings q) = Some r4 /\
                         r_state r4 = v) as (r4 & Hr4 & Hv4).
      { destruct Hq as [Hq | Hq]; [ | exact Hq ].
        exists (with_state v r). rewrite Hq. split; [ exact Hr2 | reflexivity ]. }
      rewrite (bind_return _ _ q q r4 (the_reading_eq reading r4 q Hr4)).
      unfold brightness_add_measurement. rewrite Hv4, Hh.
      cbn [_brightness_history set_brightness_history] in Hh |- *. rewrite A'.
      rewrite <- Hh. destruct q; reflexivity.
    - injection E3 as <-. split; [ reflexivity | split; [ reflexivity | ] ].
      reflexivity. }
  destruct B as (Hs3 & Hr3 & B). clear E3.
  apply bind_inv in E as ([] & s4 & E4 & E).
  assert (U : _sensors s4 = _sensors p /\
              _brightness_history s4 = _brightness_history s3 /\
              exists r4, dict_get String.eqb reading (_readings s4) = Some r4 /\
                         r_state r4 = v /\ with_state v r4 = r4 /\
                         forall q : Plant,
                           dict_get String.eqb reading (_readings q) = Some r4 ->
                           match dict_get String.eqb ATTR_UNIT_OF_MEASUREMENT
                                   (attributes new_state) with
                           | Some u => update_reading reading (with_unit u)
                           | None => ret tt
                           end q = (q, Return tt)).
  { destruct (dict_get String.eqb ATTR_UNIT_OF_MEASUREMENT (attributes new_state))
      as [u | ].
    - apply update_reading_inv in E4 as (r3 & Hr3' & ->).
      rewrite Hr3, Hr2 in Hr3'. injection Hr3' as <-.
      split; [ exact Hs3 | split; [ reflexivity | ] ].
      exists (with_unit u (with_state v r)). cbn [_readings set_readings].
      rewrite (dict_get_set String.eqb String.eqb_eq), String.eqb_refl.
      split; [ reflexivity | split; [ reflexivity | split; [ reflexivity | ] ] ].
      intros q Hq. apply (update_reading_fixed _ _ _ _ Hq). reflexivity.
    - injection E4 as <-.
      split; [ exact Hs3 | split; [ reflexivity | ] ].
      exists (with_state v r). rewrite Hr3.
      split; [ exact Hr2 | split; [ reflexivity | split; [ reflexivity | ] ] ].
      reflexivity. }
  destruct U as (Hs4 & Hh4 & r4 & Hr4 & Hv4 & Hfix & U). clear E4.
  destruct (update_state_inv s4 p1 E) as (st & problems & Hp1).
  assert (Hr1 : dict_get String.eqb reading (_readings p1) = Some r4)
    by (rewrite Hp1; exact Hr4).
  split; [ rewrite Hp1; exact Hs4 | ].
  split; [ eauto | ].
  unfold store_update. rewrite Hf.
  rewrite (bind_return _ _ p1 p1 f eq_refl).
  rewrite (bind_return _ _ p1 p1 v (V p1)).
  rewrite (bind_return _ _ p1 p1 tt
             (update_reading_fixed reading (with_state v) r4 p1 Hr1 Hfix)).
  rewrite (bind_return _ _ p1 p1 tt).
  2:{ apply B; [ right; eauto | rewrite Hp1; exact Hh4 ]. }
  rewrite (bind_return _ _ p1 p1 tt (U p1 Hr1)).
  apply (update_state_twice s4 p1 E).
Qed.

(** X13: an update that returned and is delivered again, with the same state,
    timestamp and attributes and the same registry, returns again and
    leaves the plant exactly as the first delivery left it: the stored
    states, the units, the history, the status and the problems. *)
Theorem redelivered_update_changes_nothing (config : Config) (hass : Hass)
    (entity_id : string) (new_state : State) (p p1 : Plant) :
  plant_reachable py_float config p ->
  state_changed py_float hass entity_id new_state p = (p1, Return tt) ->
  state_changed py_float hass entity_id new_state p1 = (p1, Return tt).
Proof.
  intros R E.
  pose proof (plant_history_reachable py_float config p R) as Rh.
  rewrite state_changed_split in E |- *.
  apply bind_inv in E as (reading & p0 & E0 & E).
  destruct (resolve_reading_outcome entity_id p)
    as [ (p0' & reading' & E0' & Hsame & Hs & Hne) | [_ E0'] ];
    rewrite E0 in E0'; [ | discriminate ].
  injection E0' as <- <-.
  destruct Hsame as (_ & _ & _ & Hh). rewrite <- Hh in Rh.
  apply bind_inv in E as (ignored & p0' & Ei & E).
  assert (I : p0' = p0 /\
              forall q : Plant,
                (exists r, dict_get String.eqb reading (_readings q) = Some r) ->
                ignored_status hass reading new_state q = (q, Return ignored)).
  { unfold ignored_status in Ei |- *.
    destruct (state new_state =? STATE_UNKNOWN)%string.
    - injection Ei as <- <-. auto.
    - destruct (state new_state =? STATE_UNAVAILABLE)%string.
      + apply bind_inv in Ei as (r & s' & T & Ei).
        apply the_reading_inv in T as [-> T]. injection Ei as <- <-.
        split; [ reflexivity | ]. intros q [r' Hq].
        rewrite (bind_return _ _ q q r' (the_reading_eq reading r' q Hq)).
        reflexivity.
      + injection Ei as <- <-. auto. }
  destruct I as [-> I].
  destruct ignored.
  - injection E as <-.
    rewrite (bind_return _ _ p0 p0 reading (resolve_cached entity_id reading p0 Hs Hne)).
    rewrite (bind_return _ _ p0 p0 true Ei). reflexivity.
  - destruct (store_update_twice (conf_check_days config) hass reading new_state
                p0 p1 Rh E) as (Hs1 & Hr1 & E1).
    rewrite (bind_return _ _ p1 p1 reading).
    2:{ apply resolve_cached; [ rewrite Hs1; exact Hs | exact Hne ]. }
    rewrite (bind_return _ _ p1 p1 false (I p1 Hr1)).
    exact E1.
Qed.

End PlantTwice.

(** X14: a measurement that was taken once changes nothing when it is handed
    in again (same value, same timestamp): the days, the aggregates and
    [max] stay as the first call left them. *)
Theorem repeated_measurement_changes_nothing (N : Z) (h h1 : DailyHistory.t)
    (now : day) (v : pyval) (timestamp : option day) :
  reachable N h ->
  DailyHistory.add_measurement now v timestamp h = (h1, Return tt) ->
  DailyHistory.add_measurement now v timestamp h1 = (h1, Return tt).
Proof.
  intros R E.
  destruct (Z.eq_dec N 0) as [-> | HN].
  - destruct (isinstance_number v) eqn:Hv.
    + destruct (zero_capacity_add h now v timestamp R Hv) as (h' & E' & _).
      congruence.
    + rewrite (add_not_a_number now v timestamp h Hv) in E.
      injection E as <-. apply add_not_a_number. exact Hv.
  - apply (add_twice h h1 now v timestamp (reachable_proper N h HN R) E).
Qed.

(* ===================================================================== *)
(** * Plant: the back-fill from the recorder                              *)
(* ===================================================================== *)


Lemma for_each_agree {S A : Type} (l : list A) (body body' : A -> M S unit) :
  (forall x s, In x l -> body x s = body' x s) ->
  forall s, for_each l body s = for_each l body' s.
Proof.
  induction l as [ | x l IH]; intros H s; simpl; [ reflexivity | ].
  unfold bind. rewrite (H x s (or_introl eq_refl)).
  destruct (body' x s) as [s' [[] | e]]; [ | reflexivity ].
  apply IH. intros y s0 Hy. apply H. right; assumption.
Qed.

Section Backfill.
(** [int(s)] on a string, [None] when it raises [ValueError]; and
    [s.lower()]. *)
Variable py_int : string -> option Z.
Variable py_lower : string -> string.

Local Open Scope py_scope.

(** One row of the query: [try: add_measurement(int(state.state),
    state.last_updated) except ValueError: pass], for a row whose state
    is a string. *)
Definition load_row (hass : Hass) (row : State) : M Plant unit :=
  match py_int (state row) with
  | None => ret tt
  | Some value =>
      fun p =>
        match load_history_row hass value (last_updated row) p with
        | (p', Raise ValueError) => (p', Return tt)
        | outcome => outcome
        end
  end.

(** [_load_history_from_db()]; [recorder entity_id] is what
    [execute(query)] yields for the query on [entity_id], oldest row
    first.  The loop runs over [self._readings.get(READING_LIGHT_LUX, [])],
    which is the dict of the reading when there is one: it yields that
    dict's keys.  Scheduling the publication of the state is the host's
    business. *)
Definition _load_history_from_db (recorder : string -> list State) (hass : Hass)
    : M Plant unit :=
  p <- get ;;
  for_each
    (match dict_get String.eqb READING_LIGHT_LUX (_readings p) with
     | Some _ => reading_keys
     | None => []
     end)
    (fun entity_id => for_each (recorder (py_lower entity_id)) (load_row hass)).

(** X15: the back-fill asks the recorder only about entities named like the
    keys of a reading's dict ("sensors", "state", "unit_of_measurement",
    "minimum", "maximum", lower-cased): two recorders that agree on
    those give the same result, whatever rows they hold for the sensors
    of the plant. *)
Theorem backfill_asks_for_reading_keys_only (recorder recorder' : string -> list State)
    (hass : Hass) (p : Plant) :
  (forall key, In key reading_keys ->
               recorder (py_lower key) = recorder' (py_lower key)) ->
  _load_history_from_db recorder hass p = _load_history_from_db recorder' hass p.
Proof.
  intro H. unfold _load_history_from_db, bind, get.
  destruct (dict_get String.eqb READING_LIGHT_LUX (_readings p)); [ | reflexivity ].
  apply for_each_agree. intros key s Hk. rewrite (H key Hk). reflexivity.
Qed.

Variable py_float : string -> option pyfloat.




End Backfill.

(** ** Concrete runs of the repeated update and of the back-fill *)

Lemma repeated_measurement_changes_nothing_witness :
  DailyHistory.add_measurement 0 (PInt 25) (Some 3)
    (fst (DailyHistory.add_measurement 0 (PInt 25) (Some 3) full_history))
  = (fst (DailyHistory.add_measurement 0 (PInt 25) (Some 3) full_history), Return tt).
Proof.
  apply (repeated_measurement_changes_nothing 3 full_history
           (fst (DailyHistory.add_measurement 0 (PInt 25) (Some 3) full_history))
           0 (PInt 25) (Some 3)).
  - apply feed_reachable, reach_new.
  - reflexivity.
Defined.

Lemma redelivered_update_changes_nothing_witness :
  state_changed integer_float empty_registry "sensor.fern_light_lux" (update "500")
    lux_plant_500
  = (lux_plant_500, Return tt).
Proof.
  apply (redelivered_update_changes_nothing integer_float lux_config empty_registry
           "sensor.fern_light_lux" (update "500") lux_plant lux_plant_500).
  - apply reach_init. reflexivity.
  - reflexivity.
Defined.

(** Stand-ins for [int] and [str.lower] in the runs below: [int] reads
    decimal integers with an optional minus sign, [lower] maps the
    letters A to Z to a to z. *)
Definition integer_int (s : string) : option Z :=
  match s with
  | EmptyString => None
  | String "-" EmptyString => None
  | String "-" s' => option_map Z.opp (digits_value s' 0)
  | _ => digits_value s 0
  end.

Definition lower_ascii (c : ascii) : ascii :=
  let n := nat_of_ascii c in
  if ((65 <=? n) && (n <=? 90))%nat then ascii_of_nat (n + 32) else c.

Fixpoint ascii_lower (s : string) : string :=
  match s with
  | EmptyString => EmptyString
  | String c s' => String (lower_ascii c) (ascii_lower s')
  end.

(** A recorder that holds three rows for the brightness sensor of the
    plant and nothing else, and one that holds nothing. *)
Definition fern_recorder (entity_id : string) : list State :=
  if (entity_id =? "sensor.fern_light_lux")%string
  then [ {| state := "1200"; last_updated := 98; attributes := [] |};
         {| state := "unknown"; last_updated := 99; attributes := [] |};
         {| state := "1500"; last_updated := 99; attributes := [] |} ]
  else [].

Definition empty_recorder (entity_id : string) : list State := [].

(** A recorder with rows for an entity called "state". *)
Definition state_recorder (entity_id : string) : list State :=
  if (entity_id =? "state")%string
  then [ {| state := "1200"; last_updated := 98; attributes := [] |};
         {| state := "n/a"; last_updated := 99; attributes := [] |};
         {| state := "1500"; last_updated := 99; attributes := [] |} ]
  else [].

Lemma backfill_asks_for_reading_keys_only_witness :
  _load_history_from_db integer_int ascii_lower fern_recorder empty_registry lux_plant_500
  = _load_history_from_db integer_int ascii_lower empty_recorder empty_registry
      lux_plant_500.
Proof.
  apply (backfill_asks_for_reading_keys_only integer_int ascii_lower
           fern_recorder empty_recorder empty_registry lux_plant_500).
  intros key Hk. simpl in Hk.
  repeat (destruct Hk as [ <- | Hk ]; [ reflexivity | ]). contradiction.
Defined.

(** The rows of the plant's own sensor are not loaded: the maximum stays
    the 500 of the one live update. *)
Example backfill_skips_the_sensor :
  _load_history_from_db integer_int ascii_lower fern_recorder empty_registry lux_plant_500
  = (lux_plant_500, Return tt) /\
  DailyHistory.max (_brightness_history lux_plant_500) = PInt 500.
Proof. split; reflexivity. Qed.


(** There the back-fill does load: the two numeric rows reach the
    history, the status stays null. *)
Example backfill_loads_rows_named_state :
  DailyHistory.max
    (_brightness_history
       (fst (_load_history_from_db integer_int ascii_lower state_recorder
               empty_registry lux_plant))) = PInt 1500 /\
  _state (fst (_load_history_from_db integer_int ascii_lower state_recorder
                 empty_registry lux_plant)) = PNone.
Proof. split; reflexivity. Qed.
